(** * MaintainX webhook service: signature check, due dates, event processing

    A shallow embedding of [src/utils.ts] ([calculateDueDate],
    [verifyWebhookSignature]) and of the two variants of
    [src/webhookHandler.ts] ([processWebhookEvent]), together with the
    pieces of the JavaScript platform the code calls: string splitting,
    [parseInt], [Buffer] conversion, HMAC-SHA256, [crypto.timingSafeEqual]
    and the [Date] object.

    Conventions.
    - A JavaScript string is modelled by the bytes of its UTF-8 encoding
      (a Rocq [string]); splitting on the ASCII characters [,] and [=]
      commutes with that encoding.
    - A JavaScript number that the code only uses as an integer (time values
      in milliseconds, identifiers, minutes) is a [Z]; [NaN] is [None].  The
      model is that of the integers a number holds exactly, those of absolute
      value up to [2 ^ 53]; beyond them a number is rounded, and from
      [10 ^ 21] on it is printed with an exponent.
    - [undefined] and [null] are [None].
    - Console output, outgoing HTTP calls and exceptions are recorded by a
      small writer/exception monad [M].
    - What is thrown, and what a promise is rejected with, is an error
      object: an [AxiosError] or a native [Error] of the engine.
    - The local time zone and the clock are parameters: [getDate] and
      [setDate] work on local time, [toISOString] on UTC.

    Two versions of the sources are embedded: [src/utils.ts] with
    [src/webhookHandler.ts], whose handler skips an event without a snapshot
    and whose [verifyWebhookSignature] is a placeholder, and
    [unnamed/part_001], whose handler fetches the missing snapshot and whose
    [verifyWebhookSignature] is complete.  [calculateDueDate] is the same in
    both.  The route of [src/index.ts] that calls them is embedded over the
    verifier and the handler it imports, and the header the tests of
    [verifyWebhookSignature] sign is built as they build it. *)

From Stdlib Require Import ZArith List String Ascii Bool Lia.
From stdpp Require Import base option gmap strings.
Import ListNotations.

#[local] Open Scope string_scope.
#[local] Open Scope Z_scope.

(** ** Bytes and strings *)

Module Bytes.

(** A byte is an integer in [0, 256). *)
Definition byte_of_ascii (c : ascii) : Z := Z.of_N (N_of_ascii c).

Fixpoint of_string (s : string) : list Z :=
  match s with
  | EmptyString => []
  | String c r => byte_of_ascii c :: of_string r
  end.

Definition hex_digit (n : Z) : ascii :=
  ascii_of_N (Z.to_N (if n <? 10 then 48 + n else 87 + n)).

(** Two lower-case hexadecimal digits of a byte. *)
Definition hex_of_byte (b : Z) (k : string) : string :=
  String (hex_digit ((b / 16) mod 16)) (String (hex_digit (b mod 16)) k).

Definition hex (bs : list Z) : string := fold_right hex_of_byte "" bs.

End Bytes.

(** ** SHA-256 (FIPS 180-4) and HMAC (RFC 2104), as Node's [crypto] computes them *)

Module SHA256.

Definition w32 (x : Z) : Z := x mod 4294967296.
Definition add32 (a b : Z) : Z := w32 (a + b).
Definition rotr (n x : Z) : Z :=
  Z.lor (Z.shiftr x n) (w32 (Z.shiftl x (32 - n))).
Definition shr (n x : Z) : Z := Z.shiftr x n.
Definition not32 (x : Z) : Z := 4294967295 - x.

Definition Ch (x y z : Z) : Z := Z.lxor (Z.land x y) (Z.land (not32 x) z).
Definition Maj (x y z : Z) : Z :=
  Z.lxor (Z.lxor (Z.land x y) (Z.land x z)) (Z.land y z).
Definition Sigma0 (x : Z) : Z := Z.lxor (Z.lxor (rotr 2 x) (rotr 13 x)) (rotr 22 x).
Definition Sigma1 (x : Z) : Z := Z.lxor (Z.lxor (rotr 6 x) (rotr 11 x)) (rotr 25 x).
Definition sigma0 (x : Z) : Z := Z.lxor (Z.lxor (rotr 7 x) (rotr 18 x)) (shr 3 x).
Definition sigma1 (x : Z) : Z := Z.lxor (Z.lxor (rotr 17 x) (rotr 19 x)) (shr 10 x).

(** The constants are the first 32 bits of the fractional parts of the cube
    roots ([K]) and of the square roots ([H0]) of the first primes. *)
Definition is_prime (p : Z) : bool :=
  forallb (fun d => negb (p mod d =? 0)) (map Z.of_nat (seq 2 (Z.to_nat p - 2))).

(** The 64 primes from 2 to 311. *)
Definition primes : list Z := List.filter is_prime (map Z.of_nat (seq 2 310)).

(** The largest [r] below [2 ^ k] with [r ^ e <= n], one bit at a time. *)
Fixpoint root_bits (e : Z) (k : nat) (n r : Z) : Z :=
  match k with
  | O => r
  | S k' =>
      let c := r + 2 ^ Z.of_nat k' in
      root_bits e k' n (if c ^ e <=? n then c else r)
  end.

Definition frac_root (e p : Z) : Z := w32 (root_bits e 40 (p * 2 ^ (32 * e)) 0).

Definition K : list Z := map (frac_root 3) primes.

(** The eight working variables / the intermediate hash value. *)
Record state := State { sa : Z; sb : Z; sc : Z; sd : Z; se : Z; sf : Z; sg : Z; sh : Z }.

Definition H0 : state :=
  match map (frac_root 2) (firstn 8 primes) with
  | [a; b; c; d; e; f; g; h] => State a b c d e f g h
  | _ => State 0 0 0 0 0 0 0 0
  end.

(** Big-endian words of a block. *)
Fixpoint words (bs : list Z) : list Z :=
  match bs with
  | b0 :: b1 :: b2 :: b3 :: r =>
      (((b0 * 256 + b1) * 256 + b2) * 256 + b3) :: words r
  | _ => []
  end.

(** The message schedule, most recent word first: [extend n ws] adds [n]
    words to the reversed list [ws] of the words so far. *)
Fixpoint extend (n : nat) (ws : list Z) : list Z :=
  match n with
  | O => ws
  | S n' =>
      let w := add32 (add32 (sigma1 (nth 1 ws 0)) (nth 6 ws 0))
                     (add32 (sigma0 (nth 14 ws 0)) (nth 15 ws 0)) in
      extend n' (w :: ws)
  end.

Definition schedule (block : list Z) : list Z :=
  rev (extend 48 (rev (words block))).

Definition round (s : state) (kw : Z * Z) : state :=
  let (k, w) := kw in
  let t1 := add32 (add32 (add32 (sh s) (Sigma1 (se s))) (Ch (se s) (sf s) (sg s)))
                  (add32 k w) in
  let t2 := add32 (Sigma0 (sa s)) (Maj (sa s) (sb s) (sc s)) in
  State (add32 t1 t2) (sa s) (sb s) (sc s) (add32 (sd s) t1) (se s) (sf s) (sg s).

Definition compress (h : state) (block : list Z) : state :=
  let s := fold_left round (combine K (schedule block)) h in
  State (add32 (sa h) (sa s)) (add32 (sb h) (sb s)) (add32 (sc h) (sc s))
        (add32 (sd h) (sd s)) (add32 (se h) (se s)) (add32 (sf h) (sf s))
        (add32 (sg h) (sg s)) (add32 (sh h) (sh s)).

Definition be_bytes (n : nat) (x : Z) : list Z :=
  map (fun i => (x / 256 ^ Z.of_nat i) mod 256) (rev (seq 0 n)).

(** Padding: a [0x80] byte, zeros up to 56 modulo 64, the bit length on 8 bytes. *)
Definition pad (msg : list Z) : list Z :=
  let len := Z.of_nat (List.length msg) in
  let zeros := Z.to_nat ((55 - len) mod 64) in
  msg ++ 128 :: repeat 0 zeros ++ be_bytes 8 (8 * len).

Fixpoint absorb (n : nat) (h : state) (bs : list Z) : state :=
  match n with
  | O => h
  | S n' => absorb n' (compress h (firstn 64 bs)) (skipn 64 bs)
  end.

Definition digest_bytes (h : state) : list Z :=
  be_bytes 4 (sa h) ++ be_bytes 4 (sb h) ++ be_bytes 4 (sc h) ++ be_bytes 4 (sd h) ++
  be_bytes 4 (se h) ++ be_bytes 4 (sf h) ++ be_bytes 4 (sg h) ++ be_bytes 4 (sh h).

Definition sha256 (msg : list Z) : list Z :=
  let p := pad msg in
  digest_bytes (absorb (List.length p / 64) H0 p).

Definition xor_pad (c : Z) (key : list Z) : list Z :=
  map (fun b => Z.lxor b c) (key ++ repeat 0 (64 - List.length key)).

Definition hmac_sha256 (key msg : list Z) : list Z :=
  let k := if (64 <? Z.of_nat (List.length key)) then sha256 key else key in
  sha256 (xor_pad 0x5c k ++ sha256 (xor_pad 0x36 k ++ msg)).

End SHA256.

(** ** JavaScript strings *)

Module JS.

(** [s.split(c)] for a one-character separator: never the empty array. *)
Fixpoint split (sep : ascii) (s : string) : list string :=
  match s with
  | EmptyString => [EmptyString]
  | String c r =>
      if Ascii.eqb c sep then EmptyString :: split sep r
      else match split sep r with
           | h :: t => String c h :: t
           | [] => [String c EmptyString]
           end
  end.

(** Truthiness of a string: every string but the empty one. *)
Definition truthy (s : string) : bool := negb (String.eqb s "").

(** Truthiness of a possibly [undefined]/[null] string. *)
Definition truthy_opt (o : option string) : bool :=
  match o with Some s => truthy s | None => false end.

(** [x || d] on a possibly missing string. *)
Definition or_else (o : option string) (d : string) : string :=
  match o with Some s => if truthy s then s else d | None => d end.

(** [s.includes(v)]. *)
Definition Includes (s v : string) : Prop :=
  exists pre post : string, s = pre ++ v ++ post.

Fixpoint has_char (c : ascii) (s : string) : bool :=
  match s with
  | EmptyString => false
  | String c' r => Ascii.eqb c' c || has_char c r
  end.

(** The text of [s] before its first [c] (all of [s] when it has none):
    the first element of [s.split(c)]. *)
Fixpoint upto (c : ascii) (s : string) : string :=
  match s with
  | EmptyString => EmptyString
  | String c' r => if Ascii.eqb c' c then EmptyString else String c' (upto c r)
  end.

(** The text of [s] after its first [c], if it has one. *)
Fixpoint after_first (c : ascii) (s : string) : option string :=
  match s with
  | EmptyString => None
  | String c' r => if Ascii.eqb c' c then Some r else after_first c r
  end.

Definition is_digit (c : ascii) : bool :=
  let n := Bytes.byte_of_ascii c in (48 <=? n) && (n <=? 57).

(** [StrWhiteSpaceChar] (white space and line terminators), on the UTF-8
    bytes: the ASCII ones, U+00A0, U+1680, U+2000..U+200A, U+2028, U+2029,
    U+202F, U+205F, U+3000 and U+FEFF. *)
Fixpoint trim_start (s : string) : string :=
  match s with
  | String c r =>
      let n := Bytes.byte_of_ascii c in
      if (9 <=? n) && (n <=? 13) || (n =? 32) then trim_start r
      else match map Bytes.byte_of_ascii (list_ascii_of_string (substring 0 3 s)) with
           | 0xC2 :: 0xA0 :: _ =>
               match r with String _ r1 => trim_start r1 | _ => s end
           | [0xE1; 0x9A; 0x80] | [0xE2; 0x80; 0xA8] | [0xE2; 0x80; 0xA9]
           | [0xE2; 0x80; 0xAF] | [0xE2; 0x81; 0x9F] | [0xE3; 0x80; 0x80]
           | [0xEF; 0xBB; 0xBF] =>
               match r with String _ (String _ r2) => trim_start r2 | _ => s end
           | [0xE2; 0x80; b] =>
               if (0x80 <=? b) && (b <=? 0x8A) then
                 match r with String _ (String _ r2) => trim_start r2 | _ => s end
               else s
           | _ => s
           end
  | EmptyString => s
  end.

(** The value of the leading decimal digits of [s], after the digits read
    so far ([acc] is [None] while no digit was read). *)
Fixpoint digits (acc : option Z) (s : string) : option Z :=
  match s with
  | String c r =>
      if is_digit c
      then digits (Some (10 * default 0 acc + (Bytes.byte_of_ascii c - 48))) r
      else acc
  | EmptyString => acc
  end.

(** [parseInt(s, 10)]: leading white space, an optional sign, then the
    longest prefix of decimal digits; [None] is [NaN]. *)
Definition parseInt (s : string) : option Z :=
  match trim_start s with
  | String "-" r => Z.opp <$> digits None r
  | String "+" r => digits None r
  | t => digits None t
  end.

Definition digit_char (d : Z) : ascii := ascii_of_N (Z.to_N (48 + d)).

(** The decimal digits of a natural number, least significant first,
    [fuel] digits at most. *)
Fixpoint digits_of (fuel : nat) (n : Z) : list ascii :=
  match fuel with
  | O => []
  | S f => digit_char (n mod 10) :: (if n <? 10 then [] else digits_of f (n / 10))
  end.

(** [String(n)] / a template-literal substitution, for an integer number:
    all its decimal digits.  This is what JavaScript prints for the integers
    a number holds exactly ([Z.abs n <= 2 ^ 53]); a larger one is rounded
    first, and printed with an exponent from [10 ^ 21] on. *)
Definition string_of_Z (n : Z) : string :=
  let a := Z.abs n in
  let ds := string_of_list_ascii (rev (digits_of (S (Z.to_nat (Z.log2 a))) a)) in
  if n <? 0 then String "-" ds else ds.

(** *** [Buffer.prototype.toString("utf8")]

    The WHATWG UTF-8 decoder, each ill-formed subsequence being replaced by
    U+FFFD; as strings are kept as UTF-8 bytes the well-formed sequences
    are copied. *)
Record utf8_state := Utf8 { need : nat; lo : Z; hi : Z; seen : list Z }.

Definition replacement : list Z := [0xEF; 0xBF; 0xBD].

Definition utf8_start (b : Z) : option utf8_state * list Z :=
  if b <=? 0x7F then (None, [b])
  else if (0xC2 <=? b) && (b <=? 0xDF) then (Some (Utf8 1 0x80 0xBF [b]), [])
  else if (0xE0 <=? b) && (b <=? 0xEF) then
    (Some (Utf8 2 (if b =? 0xE0 then 0xA0 else 0x80)
                  (if b =? 0xED then 0x9F else 0xBF) [b]), [])
  else if (0xF0 <=? b) && (b <=? 0xF4) then
    (Some (Utf8 3 (if b =? 0xF0 then 0x90 else 0x80)
                  (if b =? 0xF4 then 0x8F else 0xBF) [b]), [])
  else (None, replacement).

Fixpoint utf8_decode (st : option utf8_state) (bs : list Z) : list Z :=
  match bs with
  | [] => match st with None => [] | Some _ => replacement end
  | b :: r =>
      match st with
      | None => let (st', out) := utf8_start b in out ++ utf8_decode st' r
      | Some s =>
          if (lo s <=? b) && (b <=? hi s) then
            match need s with
            | 1%nat => rev (b :: seen s) ++ utf8_decode None r
            | n => utf8_decode (Some (Utf8 (Nat.pred n) 0x80 0xBF (b :: seen s))) r
            end
          else
            replacement ++
            (let (st', out) := utf8_start b in out ++ utf8_decode st' r)
      end
  end.

Definition string_of_bytes (bs : list Z) : string :=
  string_of_list_ascii (map (fun b => ascii_of_N (Z.to_N b)) bs).

(** A [Buffer] is a sequence of bytes. *)
Definition Buffer := string.

Definition Buffer_toString_utf8 (b : Buffer) : string :=
  string_of_bytes (utf8_decode None (Bytes.of_string b)).

(** [Buffer.from(s)] (UTF-8): the bytes of the string. *)
Definition Buffer_from (s : string) : Buffer := s.

End JS.

(** ** The [Date] object (ECMA-262, "Date Objects")

    Time values are integers, in milliseconds since the epoch; a [Date]
    holds a time value or [NaN] ([None]). *)

Module JSDate.

Definition msPerDay : Z := 86400000.
Definition maxTime : Z := 8640000000000000.

Definition Day (t : Z) : Z := t / msPerDay.
Definition TimeWithinDay (t : Z) : Z := t mod msPerDay.

Definition DayFromYear (y : Z) : Z :=
  365 * (y - 1970) + (y - 1969) / 4 - (y - 1901) / 100 + (y - 1601) / 400.

Definition DaysInYear (y : Z) : Z :=
  if negb (y mod 4 =? 0) then 365
  else if negb (y mod 100 =? 0) then 366
  else if negb (y mod 400 =? 0) then 365
  else 366.

(** The largest [y] with [DayFromYear y <= d]: an estimate from the mean
    length of a year, corrected by one year at most
    (see [YearFromDay_spec]). *)
Definition YearFromDay (d : Z) : Z :=
  let y := 1970 + (400 * d) / 146097 in
  if d <? DayFromYear y then y - 1
  else if DayFromYear (y + 1) <=? d then y + 1
  else y.

Definition YearFromTime (t : Z) : Z := YearFromDay (Day t).
Definition InLeapYear (t : Z) : Z :=
  if DaysInYear (YearFromTime t) =? 366 then 1 else 0.
Definition DayWithinYear (t : Z) : Z := Day t - DayFromYear (YearFromTime t).

(** The number of days of the year before month [m] (0 to 11). *)
Definition DaysBeforeMonth (m leap : Z) : Z :=
  match m with
  | 0 => 0 | 1 => 31 | 2 => 59 + leap | 3 => 90 + leap | 4 => 120 + leap
  | 5 => 151 + leap | 6 => 181 + leap | 7 => 212 + leap | 8 => 243 + leap
  | 9 => 273 + leap | 10 => 304 + leap | _ => 334 + leap
  end.

Definition MonthFromTime (t : Z) : Z :=
  let d := DayWithinYear t in
  let leap := InLeapYear t in
  if d <? 31 then 0
  else if d <? 59 + leap then 1
  else if d <? 90 + leap then 2
  else if d <? 120 + leap then 3
  else if d <? 151 + leap then 4
  else if d <? 181 + leap then 5
  else if d <? 212 + leap then 6
  else if d <? 243 + leap then 7
  else if d <? 273 + leap then 8
  else if d <? 304 + leap then 9
  else if d <? 334 + leap then 10
  else 11.

Definition DateFromTime (t : Z) : Z :=
  DayWithinYear t - DaysBeforeMonth (MonthFromTime t) (InLeapYear t) + 1.

Definition HourFromTime (t : Z) : Z := (t / 3600000) mod 24.
Definition MinFromTime (t : Z) : Z := (t / 60000) mod 60.
Definition SecFromTime (t : Z) : Z := (t / 1000) mod 60.
Definition msFromTime (t : Z) : Z := t mod 1000.

(** [MakeDay(year, month, date)] on integers. *)
Definition MakeDay (year month date : Z) : Z :=
  let ym := year + month / 12 in
  let mn := month mod 12 in
  DayFromYear ym + DaysBeforeMonth mn (if DaysInYear ym =? 366 then 1 else 0)
  + date - 1.

Definition MakeDate (day time : Z) : Z := day * msPerDay + time.

Definition TimeClip (t : Z) : option Z :=
  if maxTime <? Z.abs t then None else Some t.

(** The local time zone: [LocalTZA t isUTC] is the offset, in
    milliseconds, of local time from UTC, at the UTC time [t] when
    [isUTC] and at the local time [t] otherwise. *)
Section LocalTime.
Variable LocalTZA : Z -> bool -> Z.

Definition LocalTime (t : Z) : Z := t + LocalTZA t true.
Definition UTC (t : Z) : Z := t - LocalTZA t false.

(** [Date.prototype.getDate()]. *)
Definition getDate (d : option Z) : option Z :=
  DateFromTime <$> (LocalTime <$> d).

(** [Date.prototype.setDate(dt)]: the new time value of the object. *)
Definition setDate (d : option Z) (dt : option Z) : option Z :=
  match d, dt with
  | Some tv, Some n =>
      let t := LocalTime tv in
      let newDate :=
        MakeDate (MakeDay (YearFromTime t) (MonthFromTime t) n) (TimeWithinDay t) in
      TimeClip (UTC newDate)
  | _, _ => None
  end.
End LocalTime.

Definition pad (width : nat) (n : Z) : string :=
  string_of_list_ascii
    (map (fun i => JS.digit_char ((n / 10 ^ Z.of_nat i) mod 10)) (rev (seq 0 width))).

(** The text of [Date.prototype.toISOString()] for a finite time value. *)
Definition iso_year (y : Z) : string :=
  if (0 <=? y) && (y <=? 9999) then pad 4 y
  else (if y <? 0 then "-" else "+") ++ pad 6 (Z.abs y).

Definition iso_string (t : Z) : string :=
  iso_year (YearFromTime t)
  ++ "-" ++ pad 2 (MonthFromTime t + 1) ++ "-" ++ pad 2 (DateFromTime t)
  ++ "T" ++ pad 2 (HourFromTime t) ++ ":" ++ pad 2 (MinFromTime t)
  ++ ":" ++ pad 2 (SecFromTime t) ++ "." ++ pad 3 (msFromTime t) ++ "Z".

(** *** A recogniser for the output format

    [YYYY-MM-DDTHH:mm:ss.sssZ], or the expanded year [+YYYYYY] / [-YYYYYY],
    with a month of the calendar, a day of that month and a time of day. *)
Fixpoint take_digits (n : nat) (acc : Z) (s : string) : option (Z * string) :=
  match n with
  | O => Some (acc, s)
  | S n' =>
      match s with
      | String c r =>
          if JS.is_digit c
          then take_digits n' (10 * acc + (Bytes.byte_of_ascii c - 48)) r
          else None
      | EmptyString => None
      end
  end.

Definition expect (c : ascii) (s : string) : option string :=
  match s with
  | String c' r => if Ascii.eqb c c' then Some r else None
  | EmptyString => None
  end.

Definition DaysInMonth (y m : Z) : Z :=
  match m with
  | 2 => if DaysInYear y =? 366 then 29 else 28
  | 4 | 6 | 9 | 11 => 30
  | _ => 31
  end.

Definition take_year (s : string) : option (Z * string) :=
  match s with
  | String c r =>
      if Ascii.eqb c "+" then take_digits 6 0 r
      else if Ascii.eqb c "-" then prod_map Z.opp id <$> take_digits 6 0 r
      else take_digits 4 0 s
  | EmptyString => None
  end.

Definition iso_fields (s : string) : option (Z * Z * Z * Z * Z * Z * Z * string) :=
  '(y, s) ← take_year s;
  s ← expect "-" s; '(mo, s) ← take_digits 2 0 s;
  s ← expect "-" s; '(d, s) ← take_digits 2 0 s;
  s ← expect "T" s; '(h, s) ← take_digits 2 0 s;
  s ← expect ":" s; '(mi, s) ← take_digits 2 0 s;
  s ← expect ":" s; '(se, s) ← take_digits 2 0 s;
  s ← expect "." s; '(ms, s) ← take_digits 3 0 s;
  s ← expect "Z" s;
  Some (y, mo, d, h, mi, se, ms, s).

Definition is_iso8601_utc_ms (s : string) : bool :=
  match iso_fields s with
  | Some (y, mo, d, h, mi, se, ms, rest) =>
      String.eqb rest EmptyString
      && (1 <=? mo) && (mo <=? 12) && (1 <=? d) && (d <=? DaysInMonth y mo)
      && (h <=? 23) && (mi <=? 59) && (se <=? 59)
  | None => false
  end.

End JSDate.

(** ** Effects: console output, HTTP calls, exceptions *)

(** [types.ts]: [WorkOrderPayload].  A priority is kept as the text the
    payload carries: the four tags of [WorkOrderPriority] or anything else a
    JSON body may hold. *)
Record WorkOrderPayload := {
  priority : option string;
  dueDate : option string;
  title : string;
  assetId : option Z;
  locationId : option Z;
  description : option string
}.

(** [types.ts]: [WorkOrderWebhookPayload]. *)
Record WorkOrderWebhookPayload := {
  workOrderId : Z;
  orgId : Z;
  occurredAt : string;
  newWorkOrder : option WorkOrderPayload
}.

(** The body of an HTTP response, as far as the code looks into it:
    [undefined] or [null] (reading a property of either throws), a text, or
    an object with a possibly missing [workOrder] member. *)
Inductive Data :=
| DUndefined
| DNull
| DText (s : string)
| DObject (workOrder : option WorkOrderPayload).

Record Response := {
  status : Z;
  headers : gmap string string;
  data : Data
}.

(** What a [throw] or a rejected promise carries: an [AxiosError] (with the
    response when the server answered) or a native error such as
    [RangeError] and [TypeError]. *)
Inductive JsError :=
| AxiosError (message : string) (response : option Response)
| NativeError (name message : string).

Definition error_message (e : JsError) : string :=
  match e with AxiosError m _ => m | NativeError _ m => m end.

(** [error.response]: [undefined] on a native error. *)
Definition error_response (e : JsError) : option Response :=
  match e with AxiosError _ r => r | NativeError _ _ => None end.

(** [axios.isAxiosError(error)]. *)
Definition isAxiosError (e : JsError) : bool :=
  match e with AxiosError _ _ => true | NativeError _ _ => false end.

Inductive Level := LOG | WARN | ERROR.

(** An argument of a console call: a text, a response body, or the JSON
    text of a payload ([JSON.stringify(payload)], kept symbolic). *)
Inductive Arg :=
| AStr (s : string)
| AData (d : Data)
| AJson (p : WorkOrderWebhookPayload).

Inductive Event :=
| Console (lvl : Level) (args : list Arg)
| HttpGet (url : string) (hdrs : gmap string string)
| HttpPatch (url : string) (dueDate : string) (hdrs : gmap string string).

Inductive Completion (A : Type) :=
| Normal (a : A)
| Throw (e : JsError).
Arguments Normal {A} a.
Arguments Throw {A} e.

(** A computation: the events it produced, in order, and how it ended. *)
Definition M (A : Type) : Type := list Event * Completion A.

#[global] Instance M_ret : MRet M := fun A a => ([], Normal a).

#[global] Instance M_bind : MBind M := fun A B f m =>
  match m with
  | (l, Normal a) => let (l', c) := f a in ((l ++ l')%list, c)
  | (l, Throw e) => (l, Throw e)
  end.

Definition throw {A} (e : JsError) : M A := ([], Throw e).
Definition emit (e : Event) : M unit := ([e], Normal tt).

(** [try { m } catch (error) { h error }]. *)
Definition try_catch {A} (m : M A) (h : JsError -> M A) : M A :=
  match m with
  | (l, Throw e) => let (l', c) := h e in ((l ++ l')%list, c)
  | _ => m
  end.

Definition console_log (args : list Arg) : M unit := emit (Console LOG args).
Definition console_warn (args : list Arg) : M unit := emit (Console WARN args).
Definition console_error (args : list Arg) : M unit := emit (Console ERROR args).

Definition when (b : bool) (m : M unit) : M unit := if b then m else mret tt.

Definition events {A} (m : M A) : list Event := fst m.
Definition completion {A} (m : M A) : Completion A := snd m.

Definition is_console (lvl : Level) (e : Event) : bool :=
  match e, lvl with
  | Console LOG _, LOG | Console WARN _, WARN | Console ERROR _, ERROR => true
  | _, _ => false
  end.

Definition is_get (e : Event) : bool :=
  match e with HttpGet _ _ => true | _ => false end.
Definition is_patch (e : Event) : bool :=
  match e with HttpPatch _ _ _ => true | _ => false end.

(** The console calls of one level, the GET and the PATCH requests of a run. *)
Definition logs {A} (lvl : Level) (m : M A) : list Event :=
  List.filter (is_console lvl) (events m).
Definition gets {A} (m : M A) : list Event := List.filter is_get (events m).
Definition patches {A} (m : M A) : list Event := List.filter is_patch (events m).

(** [undefined] in a template literal. *)
Definition tpl (o : option string) : string := default "undefined" o.

Definition dquote : string := String (ascii_of_nat 34) EmptyString.

(** [Date.prototype.toISOString()]: a [RangeError] on an invalid date. *)
Definition toISOString (d : option Z) : M string :=
  match d with
  | Some t => mret (JSDate.iso_string t)
  | None => throw (NativeError "RangeError" "Invalid time value")
  end.

(** [crypto.timingSafeEqual(a, b)]: a [RangeError] when the byte lengths
    differ, otherwise whether the bytes are the same. *)
Definition timingSafeEqual (a b : JS.Buffer) : M bool :=
  if Nat.eqb (String.length a) (String.length b)
  then mret (String.eqb a b)
  else throw (NativeError "RangeError" "Input buffers must have the same byte length").

(** ** [utils.ts] *)

Module Utils.

(** The [switch] of [calculateDueDate]: the days to add, and whether the
    [default] branch (with its warning) was taken. *)
Definition daysToAdd (priority : option string) : Z * bool :=
  match priority with
  | Some p =>
      if String.eqb p "HIGH" then (1, false)
      else if String.eqb p "MEDIUM" then (3, false)
      else if String.eqb p "LOW" then (7, false)
      else if String.eqb p "NONE" then (14, false)
      else (7, true)
  | None => (7, true)
  end.

Definition unknown_priority_warning (priority : option string) : string :=
  "[calculateDueDate] Unknown or undefined priority: " ++ dquote ++ tpl priority
  ++ dquote ++ ". Defaulting to 7 days.".

Section Clock.
(** The local time zone and the instant read by [new Date()] / [Date.now()]. *)
Variable LocalTZA : Z -> bool -> Z.
Variable now : Z.

(** [calculateDueDate(priority)]; the declared result is [string | null],
    [None] being [null]. *)
Definition calculateDueDate (priority : option string) : M (option string) :=
  let today := Some now in
  let (days, unknown) := daysToAdd priority in
  when unknown (console_warn [AStr (unknown_priority_warning priority)]);;
  let dueDate := today in
  let dueDate :=
    JSDate.setDate LocalTZA dueDate ((fun d => d + days) <$> JSDate.getDate LocalTZA today) in
  s ← toISOString dueDate;
  mret (Some s).

(** [verifyWebhookSignature(signatureHeader, rawBody, secret, toleranceMinutes = 5)]. *)
Definition parse_header (signatureHeader : string) : option string * option string :=
  let parts := JS.split "," signatureHeader in
  let timestampPart := parts !! 0%nat in
  let v1SignaturePart := parts !! 1%nat in
  let timestamp :=
    if JS.truthy_opt timestampPart
    then JS.split "=" (default EmptyString timestampPart) !! 1%nat else None in
  let signature :=
    if JS.truthy_opt v1SignaturePart
    then JS.split "=" (default EmptyString v1SignaturePart) !! 1%nat else None in
  (timestamp, signature).

Definition expectedSignature (secret timestamp : string) (rawBody : JS.Buffer) : string :=
  let signedPayload := timestamp ++ "." ++ JS.Buffer_toString_utf8 rawBody in
  Bytes.hex (SHA256.hmac_sha256 (Bytes.of_string secret) (Bytes.of_string signedPayload)).

(** [now - receivedTimestamp < toleranceMs], false on [NaN]. *)
Definition isFresh (receivedTimestamp : option Z) (toleranceMinutes : Z) : bool :=
  let toleranceMs := toleranceMinutes * 60 * 1000 in
  match receivedTimestamp with
  | Some r => now - r <? toleranceMs
  | None => false
  end.

Definition verifyWebhookSignature
    (signatureHeader : option string) (rawBody : option JS.Buffer)
    (secret : string) (toleranceMinutes : option Z) : M bool :=
  let toleranceMinutes := default 5 toleranceMinutes in
  if negb (JS.truthy_opt signatureHeader) then
    console_error [AStr "[verifyWebhookSignature] Signature header is missing."];;
    mret false
  else
  match rawBody with
  | None =>
      console_error [AStr "[verifyWebhookSignature] Raw body is missing for verification."];;
      mret false
  | Some rawBody =>
      let (timestamp, signature) := parse_header (default EmptyString signatureHeader) in
      if negb (JS.truthy_opt timestamp) || negb (JS.truthy_opt signature) then
        console_error [AStr "[verifyWebhookSignature] Malformed signature header parts."];;
        mret false
      else
      let timestamp := default EmptyString timestamp in
      let signature := default EmptyString signature in
      let expected := expectedSignature secret timestamp rawBody in
      isValidSignature ←
        timingSafeEqual (JS.Buffer_from signature) (JS.Buffer_from expected);
      let receivedTimestamp := (fun t => t * 1000) <$> JS.parseInt timestamp in
      let fresh := isFresh receivedTimestamp toleranceMinutes in
      when (negb isValidSignature)
        (console_error [AStr "[verifyWebhookSignature] Signature mismatch."]);;
      when (negb fresh)
        (received ← toISOString (receivedTimestamp ≫= JSDate.TimeClip);
         current ← toISOString (JSDate.TimeClip now);
         console_error
           [AStr ("[verifyWebhookSignature] Webhook timestamp too old. Received: "
                  ++ received ++ ", Now: " ++ current)]);;
      mret (isValidSignature && fresh)
  end.
End Clock.

End Utils.

(** The earlier [utils.ts], where the function is still a placeholder. *)
Module UtilsPlaceholder.
Definition verifyWebhookSignature
    (signatureHeader : option string) (rawBody : option JS.Buffer)
    (secret : string) (toleranceMinutes : option Z) : M bool :=
  mret false.
End UtilsPlaceholder.

(** ** [webhookHandler.ts] *)

(** The environment variables read when the module is loaded. *)
Record Env := {
  env_MAINTAINX_BASE_URL : option string;
  env_MAINTAINX_API_KEY : option string;
  env_MAINTAINX_ORG_ID : option string
}.

(** What a remote call settles with. *)
Inductive Settled :=
| Resolved (r : Response)
| Rejected (e : JsError).

(** The clock and the remote service, as the handler meets them. *)
Record World := {
  LocalTZA : Z -> bool -> Z;
  now : Z;
  axios_get : string -> gmap string string -> Settled;
  axios_patch : string -> string -> gmap string string -> Settled
}.

(** What the two variants of the handler share: the module constants, the
    calls to [axios] and the console messages. *)
Module Handler.
Section Ctx.
Variable env : Env.
Variable world : World.

Definition MAINTAINX_BASE_URL : string :=
  JS.or_else (env_MAINTAINX_BASE_URL env) "https://api.getmaintainx.com/v1".
Definition MAINTAINX_API_KEY : option string := env_MAINTAINX_API_KEY env.
Definition MAINTAINX_ORG_ID : option string := env_MAINTAINX_ORG_ID env.

Definition settle (s : Settled) : M Response :=
  match s with Resolved r => mret r | Rejected e => throw e end.

(** [await axios.get(url, { headers })]. *)
Definition await_get (url : string) (hdrs : gmap string string) : M Response :=
  emit (HttpGet url hdrs);; settle (axios_get world url hdrs).

(** [await axios.patch(url, { dueDate }, { headers })]. *)
Definition await_patch (url dueDate : string) (hdrs : gmap string string) : M Response :=
  emit (HttpPatch url dueDate hdrs);; settle (axios_patch world url dueDate hdrs).

(** The request headers both calls build. *)
Definition maintainxApiHeaders : gmap string string :=
  let h : gmap string string :=
    <["Content-Type" := "application/json"]>
      {["Authorization" := "Bearer " ++ tpl MAINTAINX_API_KEY]} in
  if JS.truthy_opt MAINTAINX_ORG_ID
  then <["x-organization-id" := default EmptyString MAINTAINX_ORG_ID]> h
  else h.

(** [`${MAINTAINX_BASE_URL}/workorders/${workOrderId}`]. *)
Definition workorder_url (workOrderId : Z) : string :=
  MAINTAINX_BASE_URL ++ "/workorders/" ++ JS.string_of_Z workOrderId.

(** [error.response ? error.response.data : error.message]. *)
Definition error_payload (error : JsError) : Arg :=
  match error_response error with
  | Some r => AData (data r)
  | None => AStr (error_message error)
  end.

(** [response.data.workOrder]: a [TypeError] when [data] is [null] or
    [undefined], [undefined] when it is not an object with that member. *)
Definition nullish (d : Data) : option string :=
  match d with
  | DUndefined => Some "undefined"
  | DNull => Some "null"
  | _ => None
  end.

Definition cannot_read (what : string) : string :=
  "Cannot read properties of " ++ what ++ " (reading 'workOrder')".

Definition data_workOrder (d : Data) : M (option WorkOrderPayload) :=
  match d with
  | DUndefined | DNull =>
      throw (NativeError "TypeError" (cannot_read (tpl (nullish d))))
  | DText _ => mret None
  | DObject wo => mret wo
  end.

(** [axios.isAxiosError(error) && error.response && error.response.status === 429]:
    the response of a rate-limited call. *)
Definition rate_limited (error : JsError) : option Response :=
  if isAxiosError error then
    match error_response error with
    | Some r => if status r =? 429 then Some r else None
    | None => None
    end
  else None.

(** The console messages. *)
Definition received_message (workOrderId : Z) : string :=
  "[processWebhookEvent] Received payload for WO " ++ JS.string_of_Z workOrderId ++ ":".

Definition missing_snapshot_message (workOrderId : Z) : string :=
  "[processWebhookEvent] Work Order event for WO " ++ JS.string_of_Z workOrderId
  ++ " missing newWorkOrder data. Skipping automation.".

Definition fetching_message (workOrderId : Z) : string :=
  "[processWebhookEvent] NewWorkOrder data missing from webhook for WO "
  ++ JS.string_of_Z workOrderId ++ ". Fetching full Work Order details...".

Definition fetched_message (workOrderId : Z) : string :=
  "[processWebhookEvent] Successfully fetched full details for WO "
  ++ JS.string_of_Z workOrderId ++ ".".

Definition fetch_failed_message (workOrderId : Z) : string :=
  "[processWebhookEvent] Failed to fetch full details for WO "
  ++ JS.string_of_Z workOrderId ++ ":".

Definition no_details_message (workOrderId : Z) : string :=
  "[processWebhookEvent] Could not obtain Work Order details for WO "
  ++ JS.string_of_Z workOrderId ++ ". Cannot proceed with automation.".

Definition no_priority_message (workOrderId : Z) : string :=
  "[processWebhookEvent] Work Order " ++ JS.string_of_Z workOrderId
  ++ " has no priority set. Skipping due date automation.".

Definition no_due_date_message (workOrderId : Z) (currentPriority : string) : string :=
  "[processWebhookEvent] Could not calculate due date for Work Order "
  ++ JS.string_of_Z workOrderId ++ " with priority " ++ currentPriority ++ ".".

Definition due_date_message (workOrderId : Z) (currentPriority calculatedDueDate : string)
    : string :=
  "[processWebhookEvent] Calculated new due date for WO " ++ JS.string_of_Z workOrderId
  ++ " (Priority: " ++ currentPriority ++ "): " ++ calculatedDueDate.

Definition updated_message (workOrderId : Z) (response : Response) : string :=
  "[processWebhookEvent] Successfully updated Work Order " ++ JS.string_of_Z workOrderId
  ++ ". Status: " ++ JS.string_of_Z (status response).

Definition remaining_message (response : Response) : string :=
  "[processWebhookEvent] Rate Limit Remaining: "
  ++ JS.or_else (headers response !! "x-rate-limit-remaining") "N/A".

Definition reset_message (response : Response) : string :=
  "[processWebhookEvent] Rate Limit Reset: "
  ++ JS.or_else (headers response !! "x-rate-limit-reset") "N/A" ++ " seconds".

Definition update_failed_message (workOrderId : Z) : string :=
  "[processWebhookEvent] Failed to update Work Order " ++ JS.string_of_Z workOrderId
  ++ " in MaintainX:".

(** [const retryAfter = error.response.headers["x-rate-limit-reset"] || 10]. *)
Definition retryAfter (response : Response) : string :=
  JS.or_else (headers response !! "x-rate-limit-reset") "10".

Definition rate_limit_warning (response : Response) : string :=
  "[processWebhookEvent] Rate limited. Retrying after " ++ retryAfter response
  ++ " seconds. (In production, would queue for retry)".

Definition calculateDueDate (priority : option string) : M (option string) :=
  Utils.calculateDueDate (LocalTZA world) (now world) priority.

End Ctx.
End Handler.

(** *** [src/webhookHandler.ts]: the snapshot comes with the event or not at all *)

Module WebhookHandler.
Section Ctx.
Variable env : Env.
Variable world : World.

(** The [try { ... } catch (error) { ... }] statement that updates the
    Work Order. *)
Definition update_work_order (workOrderId : Z) (calculatedDueDate : string) : M unit :=
  try_catch
    (response ←
       Handler.await_patch world (Handler.workorder_url env workOrderId)
         calculatedDueDate (Handler.maintainxApiHeaders env);
     console_log [AStr (Handler.updated_message workOrderId response)];;
     console_log [AStr (Handler.remaining_message response)];;
     console_log [AStr (Handler.reset_message response)])
    (fun error =>
       match Handler.rate_limited error with
       | Some response =>
           console_warn [AStr (Handler.rate_limit_warning response)]
       | None =>
           console_error
             [AStr (Handler.update_failed_message workOrderId);
              Handler.error_payload error]
       end).

Definition processWebhookEvent (payload : WorkOrderWebhookPayload) : M unit :=
  let workOrderId := workOrderId payload in
  match newWorkOrder payload with
  | None => console_log [AStr (Handler.missing_snapshot_message workOrderId)]
  | Some newWorkOrder =>
      let currentPriority := priority newWorkOrder in
      if negb (JS.truthy_opt currentPriority) then
        console_log [AStr (Handler.no_priority_message workOrderId)]
      else
      let currentPriority := default EmptyString currentPriority in
      calculatedDueDate ← Handler.calculateDueDate world (Some currentPriority);
      if negb (JS.truthy_opt calculatedDueDate) then
        console_error [AStr (Handler.no_due_date_message workOrderId currentPriority)]
      else
      let calculatedDueDate := default EmptyString calculatedDueDate in
      console_log
        [AStr (Handler.due_date_message workOrderId currentPriority calculatedDueDate)];;
      update_work_order workOrderId calculatedDueDate
  end.

End Ctx.
End WebhookHandler.

(** *** The variant that fetches a missing snapshot ([unnamed/part_001]) *)

Module WebhookHandlerFetch.
Section Ctx.
Variable env : Env.
Variable world : World.

(** The first half of the function: [Some details] to go on with
    [workOrderDetails], [None] after the [return] of the [catch] block. *)
Definition resolve_details (payload : WorkOrderWebhookPayload)
    : M (option (option WorkOrderPayload)) :=
  let workOrderId := workOrderId payload in
  let workOrderDetails := newWorkOrder payload in
  match workOrderDetails with
  | Some _ => mret (Some workOrderDetails)
  | None =>
      console_log [AStr (Handler.fetching_message workOrderId)];;
      try_catch
        (response ←
           Handler.await_get world (Handler.workorder_url env workOrderId)
             (Handler.maintainxApiHeaders env);
         workOrderDetails ← Handler.data_workOrder (data response);
         console_log [AStr (Handler.fetched_message workOrderId)];;
         mret (Some workOrderDetails))
        (fun error =>
           console_error
             [AStr (Handler.fetch_failed_message workOrderId);
              Handler.error_payload error];;
           mret None)
  end.

(** The second [try { ... } catch (error) { ... }] statement, which updates
    the Work Order. *)
Definition update_work_order (workOrderId : Z) (calculatedDueDate : string) : M unit :=
  try_catch
    (response ←
       Handler.await_patch world (Handler.workorder_url env workOrderId)
         calculatedDueDate (Handler.maintainxApiHeaders env);
     console_log [AStr (Handler.updated_message workOrderId response)];;
     console_log [AStr (Handler.remaining_message response)];;
     console_log [AStr (Handler.reset_message response)])
    (fun error =>
       console_error
         [AStr (Handler.update_failed_message workOrderId);
          Handler.error_payload error];;
       match Handler.rate_limited error with
       | Some response =>
           console_warn [AStr (Handler.rate_limit_warning response)]
       | None => mret tt
       end).

Definition processWebhookEvent (payload : WorkOrderWebhookPayload) : M unit :=
  let workOrderId := workOrderId payload in
  console_log [AStr (Handler.received_message workOrderId); AJson payload];;
  resolved ← resolve_details payload;
  match resolved with
  | None => mret tt
  | Some None => console_error [AStr (Handler.no_details_message workOrderId)]
  | Some (Some workOrderDetails) =>
      let currentPriority := priority workOrderDetails in
      if negb (JS.truthy_opt currentPriority) then
        console_log [AStr (Handler.no_priority_message workOrderId)]
      else
      let currentPriority := default EmptyString currentPriority in
      calculatedDueDate ← Handler.calculateDueDate world (Some currentPriority);
      if negb (JS.truthy_opt calculatedDueDate) then
        console_error [AStr (Handler.no_due_date_message workOrderId currentPriority)]
      else
      let calculatedDueDate := default EmptyString calculatedDueDate in
      console_log
        [AStr (Handler.due_date_message workOrderId currentPriority calculatedDueDate)];;
      console_log [AStr "--- API Key Debug ---"];;
      console_log
        [AStr ("Full MAINTAINX_API_KEY (DEBUG):" ++ tpl (Handler.MAINTAINX_API_KEY env))];;
      update_work_order workOrderId calculatedDueDate
  end.

End Ctx.
End WebhookHandlerFetch.

(** ** [index.ts] *)

(** What the service shows to the outside: the effects of [M], the response
    written to the caller, and a promise that is rejected with nobody
    waiting for it. *)
Inductive ServerEvent :=
| Did (e : Event)
| Respond (status : Z) (body : string)
| UnhandledRejection (e : JsError).

(** What the route reads of a request: the header
    [x-maintainx-webhook-body-signature], the raw body kept by the [verify]
    hook of the JSON parser, and the parsed body. *)
Record Request := {
  req_signature : option string;
  req_rawBody : option JS.Buffer;
  req_body : WorkOrderWebhookPayload
}.

Module Index.

(** [parseInt(process.env.SERVICE_PORT || "3000", 10)]. *)
Definition PORT (SERVICE_PORT : option string) : option Z :=
  JS.parseInt (JS.or_else SERVICE_PORT "3000").

Section Route.
(** The two imports of the module and its secret. *)
Variable verifyWebhookSignature :
  option string -> option JS.Buffer -> string -> option Z -> M bool.
Variable processWebhookEvent : WorkOrderWebhookPayload -> M unit.
Variable MAINTAINX_WEBHOOK_SECRET : string.

(** A call of an [async] function whose promise is dropped: its effects
    happen, a rejection is left unhandled. *)
Definition detached (m : M unit) : list ServerEvent :=
  (map Did (events m)
   ++ match completion m with
      | Normal _ => []
      | Throw e => [UnhandledRejection e]
      end)%list.

(** [app.post("/maintainx-webhook", (req, res) => { ... })]. *)
Definition webhook_route (req : Request) : list ServerEvent * Completion unit :=
  match
    verifyWebhookSignature (req_signature req) (req_rawBody req)
      MAINTAINX_WEBHOOK_SECRET None
  with
  | (l, Throw e) => (map Did l, Throw e)
  | (l, Normal false) =>
      ((map Did l
        ++ [Did (Console ERROR
                   [AStr "[index] Webhook signature verification failed or timestamp is old. Denying request."]);
            Respond 401 "Unauthorized"])%list,
       Normal tt)
  | (l, Normal true) =>
      ((map Did l
        ++ Respond 200 "Webhook received, processing asynchronously."
        :: detached (processWebhookEvent (req_body req)))%list,
       Normal tt)
  end.
End Route.

End Index.

(** ** The tests of [verifyWebhookSignature] *)

Module UtilsTest.

(** The header the tests sign: [`t=${timestamp},v1=${signature}`], the
    signature being the HMAC of [`${timestamp}.${TEST_PAYLOAD}`]. *)
Definition signatureHeader (secret : string) (timestamp : Z) (payload : string) : string :=
  let signedPayload := JS.string_of_Z timestamp ++ "." ++ payload in
  let signature :=
    Bytes.hex (SHA256.hmac_sha256 (Bytes.of_string secret) (Bytes.of_string signedPayload)) in
  "t=" ++ JS.string_of_Z timestamp ++ ",v1=" ++ signature.

End UtilsTest.

(** * The vocabulary of the statements *)

(** The four tags of [WorkOrderPriority]. *)
Definition known_priority (p : option string) : Prop :=
  p = Some "HIGH" \/ p = Some "MEDIUM" \/ p = Some "LOW" \/ p = Some "NONE".

(** The table of the specification: the days each priority stands for, the
    days of [LOW] for anything else. *)
Definition offset_days (p : option string) : Z :=
  if decide (p = Some "HIGH") then 1
  else if decide (p = Some "MEDIUM") then 3
  else if decide (p = Some "LOW") then 7
  else if decide (p = Some "NONE") then 14
  else 7.

(** The instant [n] calendar days after [now]: the UTC time of the local
    time that is [n] days after the local time of [now]. *)
Definition due_instant (tz : Z -> bool -> Z) (now n : Z) : Z :=
  JSDate.UTC tz (JSDate.LocalTime tz now + n * JSDate.msPerDay).

(** The clock is a clock of this world: the zone is within a day of UTC and
    the time is sixteen days or more inside the range of [Date]. *)
Definition clock_in_range (tz : Z -> bool -> Z) (now : Z) : Prop :=
  (forall t b, - JSDate.msPerDay <= tz t b <= JSDate.msPerDay)
  /\ - JSDate.maxTime + 16 * JSDate.msPerDay <= now
     <= JSDate.maxTime - 16 * JSDate.msPerDay.

(** What [calculateDueDate] writes to the console. *)
Definition priority_warnings (p : option string) : list Event :=
  if bool_decide (~ known_priority p)
  then [Console WARN [AStr (Utils.unknown_priority_warning p)]] else [].

(** The due date the handler computes for a priority. *)
Definition due_date (world : World) (p : string) : string :=
  JSDate.iso_string (due_instant (LocalTZA world) (now world) (offset_days (Some p))).

(** The part of [verifyWebhookSignature] that follows the parsing of the
    header. *)
Definition verify_parsed (now : Z) (timestamp signature : string)
    (rawBody : JS.Buffer) (secret : string) (toleranceMinutes : Z) : M bool :=
  let expected := Utils.expectedSignature secret timestamp rawBody in
  isValidSignature ← timingSafeEqual (JS.Buffer_from signature) (JS.Buffer_from expected);
  let receivedTimestamp := (fun t => t * 1000) <$> JS.parseInt timestamp in
  let fresh := Utils.isFresh now receivedTimestamp toleranceMinutes in
  when (negb isValidSignature)
    (console_error [AStr "[verifyWebhookSignature] Signature mismatch."]);;
  when (negb fresh)
    (received ← toISOString (receivedTimestamp ≫= JSDate.TimeClip);
     current ← toISOString (JSDate.TimeClip now);
     console_error
       [AStr ("[verifyWebhookSignature] Webhook timestamp too old. Received: "
              ++ received ++ ", Now: " ++ current)]);;
  mret (isValidSignature && fresh).

(** What the console sees of the update once the PATCH has settled, in
    [src/webhookHandler.ts]. *)
Definition update_outcome (workOrderId : Z) (s : Settled) : list Event :=
  match s with
  | Resolved r =>
      [Console LOG [AStr (Handler.updated_message workOrderId r)];
       Console LOG [AStr (Handler.remaining_message r)];
       Console LOG [AStr (Handler.reset_message r)]]
  | Rejected e =>
      match Handler.rate_limited e with
      | Some r => [Console WARN [AStr (Handler.rate_limit_warning r)]]
      | None =>
          [Console ERROR
             [AStr (Handler.update_failed_message workOrderId); Handler.error_payload e]]
      end
  end.

(** The same in the variant that fetches, where the error is logged first. *)
Definition update_outcome_fetch (workOrderId : Z) (s : Settled) : list Event :=
  match s with
  | Resolved r =>
      [Console LOG [AStr (Handler.updated_message workOrderId r)];
       Console LOG [AStr (Handler.remaining_message r)];
       Console LOG [AStr (Handler.reset_message r)]]
  | Rejected e =>
      Console ERROR
        [AStr (Handler.update_failed_message workOrderId); Handler.error_payload e]
      :: match Handler.rate_limited e with
         | Some r => [Console WARN [AStr (Handler.rate_limit_warning r)]]
         | None => []
         end
  end.

(** The snapshot a settled GET leaves to go on with: nothing after the
    [return] of the [catch] block ([None]), else what [data.workOrder] holds. *)
Definition fetched_details (s : Settled) : option (option WorkOrderPayload) :=
  match s with
  | Resolved r =>
      match data r with
      | DUndefined | DNull => None
      | DText _ => Some None
      | DObject wo => Some wo
      end
  | Rejected _ => None
  end.

(** What the console sees of the fetch, once the GET has settled. *)
Definition fetch_outcome (workOrderId : Z) (s : Settled) : list Event :=
  match s with
  | Resolved r =>
      match Handler.nullish (data r) with
      | Some what =>
          [Console ERROR
             [AStr (Handler.fetch_failed_message workOrderId);
              AStr (Handler.cannot_read what)]]
      | None => [Console LOG [AStr (Handler.fetched_message workOrderId)]]
      end
  | Rejected e =>
      [Console ERROR [AStr (Handler.fetch_failed_message workOrderId); Handler.error_payload e]]
  end.

(** The second half of the variant that fetches: what follows
    [resolve_details]. *)
Definition after_details (env : Env) (world : World) (workOrderId : Z)
    (resolved : option (option WorkOrderPayload)) : M unit :=
  match resolved with
  | None => mret tt
  | Some None => console_error [AStr (Handler.no_details_message workOrderId)]
  | Some (Some workOrderDetails) =>
      let currentPriority := priority workOrderDetails in
      if negb (JS.truthy_opt currentPriority) then
        console_log [AStr (Handler.no_priority_message workOrderId)]
      else
      let currentPriority := default EmptyString currentPriority in
      calculatedDueDate ← Handler.calculateDueDate world (Some currentPriority);
      if negb (JS.truthy_opt calculatedDueDate) then
        console_error [AStr (Handler.no_due_date_message workOrderId currentPriority)]
      else
      let calculatedDueDate := default EmptyString calculatedDueDate in
      console_log
        [AStr (Handler.due_date_message workOrderId currentPriority calculatedDueDate)];;
      console_log [AStr "--- API Key Debug ---"];;
      console_log
        [AStr ("Full MAINTAINX_API_KEY (DEBUG):" ++ tpl (Handler.MAINTAINX_API_KEY env))];;
      WebhookHandlerFetch.update_work_order env world workOrderId calculatedDueDate
  end.

(** A zone with daylight saving time: the east of North America around
    2024-11-03T06:00:00Z, when the offset goes from -4 to -5 hours (for a
    local time, at 02:00 of that day). *)
Definition eastern_time (t : Z) (isUTC : bool) : Z :=
  if t <? (if isUTC then 1730613600000 else 1730599200000)
  then -4 * 3600000 else -5 * 3600000.

(** The data of the examples: the environment and the clock of the tests,
    a remote service that answers every call the same way, an event for the
    work order 101. *)
Definition test_env : Env :=
  {| env_MAINTAINX_BASE_URL := Some "https://api.testmaintainx.com/v1";
     env_MAINTAINX_API_KEY := Some "test_api_key";
     env_MAINTAINX_ORG_ID := Some "test_org_id" |}.

Definition test_world (get patch : Settled) : World :=
  {| LocalTZA := fun _ _ => 0;
     now := 1718452800000;
     axios_get := fun _ _ => get;
     axios_patch := fun _ _ _ => patch |}.

Definition ok_response : Response :=
  {| status := 200;
     headers := {["x-rate-limit-remaining" := "99"; "x-rate-limit-reset" := "30"]};
     data := DText EmptyString |}.

Definition rate_limit_response : Response :=
  {| status := 429;
     headers := {["x-rate-limit-reset" := "60"]};
     data := DText "Too Many Requests" |}.

Definition rate_limit_error : JsError :=
  AxiosError "Request failed with status code 429" (Some rate_limit_response).

Definition server_error : JsError :=
  AxiosError "Request failed with status code 500"
    (Some {| status := 500; headers := ∅; data := DText "Internal Server Error" |}).

Definition snapshot (p : option string) : WorkOrderPayload :=
  {| priority := p; dueDate := None; title := "Pump"; assetId := None;
     locationId := None; description := None |}.

Definition event (wo : option WorkOrderPayload) : WorkOrderWebhookPayload :=
  {| workOrderId := 101; orgId := 456; occurredAt := "2024-06-15T12:00:00.000Z";
     newWorkOrder := wo |}.

(** The value of a list of digit characters, most significant first, after
    the value [acc]. *)
Definition numeral_value (acc : Z) (l : list ascii) : Z :=
  fold_left (fun v c => 10 * v + (Bytes.byte_of_ascii c - 48)) l acc.

(** The numeral of a number that is not negative. *)
Definition numeral (a : Z) : list ascii :=
  rev (JS.digits_of (S (Z.to_nat (Z.log2 a))) a).

(** A text of the characters [0-9a-f]. *)
Definition is_lower_hex (c : ascii) : bool :=
  let n := Bytes.byte_of_ascii c in
  (48 <=? n) && (n <=? 57) || (97 <=? n) && (n <=? 102).

Fixpoint lower_hex (s : string) : bool :=
  match s with
  | EmptyString => true
  | String c r => is_lower_hex c && lower_hex r
  end.

(** The two halves of the text of a date. *)
Definition iso_date (t : Z) : string :=
  JSDate.iso_year (JSDate.YearFromTime t)
  ++ "-" ++ JSDate.pad 2 (JSDate.MonthFromTime t + 1)
  ++ "-" ++ JSDate.pad 2 (JSDate.DateFromTime t).

Definition iso_time (t : Z) : string :=
  JSDate.pad 2 (JSDate.HourFromTime t) ++ ":" ++ JSDate.pad 2 (JSDate.MinFromTime t)
  ++ ":" ++ JSDate.pad 2 (JSDate.SecFromTime t) ++ "." ++ JSDate.pad 3 (JSDate.msFromTime t).

(** The console calls of a run, and its requests. *)
Definition is_request (e : Event) : bool := is_get e || is_patch e.

Definition console {A} (m : M A) : list Event :=
  List.filter (fun e => negb (is_request e)) (events m).

(** The requests to the remote service among the events of the server. *)
Definition is_remote_call (e : ServerEvent) : bool :=
  match e with Did e => is_request e | _ => false end.

Definition is_response (e : ServerEvent) : bool :=
  match e with Respond _ _ => true | _ => false end.

(** The messages of [verifyWebhookSignature] and of the route. *)
Definition missing_header_error : Event :=
  Console ERROR [AStr "[verifyWebhookSignature] Signature header is missing."].
Definition missing_body_error : Event :=
  Console ERROR [AStr "[verifyWebhookSignature] Raw body is missing for verification."].
Definition malformed_header_error : Event :=
  Console ERROR [AStr "[verifyWebhookSignature] Malformed signature header parts."].
Definition signature_mismatch_error : Event :=
  Console ERROR [AStr "[verifyWebhookSignature] Signature mismatch."].
Definition stale_timestamp_error (received now : Z) : Event :=
  Console ERROR
    [AStr ("[verifyWebhookSignature] Webhook timestamp too old. Received: "
           ++ JSDate.iso_string received ++ ", Now: " ++ JSDate.iso_string now)].
Definition denied_error : Event :=
  Console ERROR
    [AStr "[index] Webhook signature verification failed or timestamp is old. Denying request."].

(** The environment with another API key. *)
Definition with_api_key (env : Env) (key : option string) : Env :=
  {| env_MAINTAINX_BASE_URL := env_MAINTAINX_BASE_URL env;
     env_MAINTAINX_API_KEY := key;
     env_MAINTAINX_ORG_ID := env_MAINTAINX_ORG_ID env |}.

Definition api_key_debug_line (env : Env) : Event :=
  Console LOG
    [AStr ("Full MAINTAINX_API_KEY (DEBUG):" ++ tpl (Handler.MAINTAINX_API_KEY env))].

(** The states the decoder goes through expect a continuation byte. *)
Definition expects_continuation (st : option JS.utf8_state) : Prop :=
  match st with Some s => JS.hi s <= 0xBF | None => True end.

(** * Facts about the platform *)

Ltac zdiv := Z.div_mod_to_equations; lia.

(** ** Strings and bytes *)

Lemma append_cons c (s r : string) : String c s ++ r = String c (s ++ r).
Proof. reflexivity. Qed.

Lemma append_nil (r : string) : EmptyString ++ r = r.
Proof. reflexivity. Qed.

Lemma append_assoc (a b c : string) : (a ++ b) ++ c = a ++ b ++ c.
Proof.
  induction a as [|x a IH]; [reflexivity|].
  now rewrite !append_cons, IH.
Qed.

Lemma append_empty_r (a : string) : a ++ EmptyString = a.
Proof. induction a as [|x a IH]; [reflexivity|]. now rewrite append_cons, IH. Qed.

Lemma Includes_mid (a v b : string) : JS.Includes (a ++ v ++ b) v.
Proof. now exists a, b. Qed.

Lemma truthy_spec s : JS.truthy s = true <-> s <> EmptyString.
Proof.
  unfold JS.truthy. destruct (String.eqb_spec s EmptyString); simpl; split; congruence.
Qed.

Lemma of_string_length s : List.length (Bytes.of_string s) = String.length s.
Proof. induction s as [|c r IH]; simpl; [reflexivity | now rewrite IH]. Qed.

Lemma hex_length bs : String.length (Bytes.hex bs) = (2 * List.length bs)%nat.
Proof. induction bs as [|b r IH]; simpl; [reflexivity | rewrite IH; lia]. Qed.

Lemma sha256_length msg : List.length (SHA256.sha256 msg) = 32%nat.
Proof. reflexivity. Qed.

Lemma hmac_sha256_length key msg : List.length (SHA256.hmac_sha256 key msg) = 32%nat.
Proof. apply sha256_length. Qed.

(** The expected digest is 64 hexadecimal characters, whatever is signed. *)
Lemma expectedSignature_length secret ts body :
  String.length (Utils.expectedSignature secret ts body) = 64%nat.
Proof. unfold Utils.expectedSignature. now rewrite hex_length, hmac_sha256_length. Qed.

(** *** [split] *)

Lemma split_nonempty sep s : JS.split sep s <> [].
Proof.
  induction s as [|c r IH]; cbn; [discriminate|].
  destruct (Ascii.eqb c sep); [discriminate|].
  destruct (JS.split sep r); [contradiction|discriminate].
Qed.

Lemma split_head sep s : JS.split sep s !! 0%nat = Some (JS.upto sep s).
Proof.
  induction s as [|c r IH]; cbn; [reflexivity|].
  destruct (Ascii.eqb c sep); [reflexivity|].
  destruct (JS.split sep r) as [|h t] eqn:E; [now destruct (split_nonempty sep r)|].
  cbn in *. congruence.
Qed.

Lemma split_app sep a b :
  JS.has_char sep a = false ->
  JS.split sep (a ++ String sep b) = a :: JS.split sep b.
Proof.
  induction a as [|c r IH]; cbn [JS.has_char]; intros H.
  - rewrite append_nil. cbn [JS.split]. now rewrite Ascii.eqb_refl.
  - apply orb_false_elim in H as [H1 H2].
    rewrite append_cons. cbn [JS.split]. now rewrite H1, (IH H2).
Qed.

Lemma split_none sep a : JS.has_char sep a = false -> JS.split sep a = [a].
Proof.
  induction a as [|c r IH]; cbn; intros H; [reflexivity|].
  apply orb_false_elim in H as [H1 H2]. now rewrite H1, (IH H2).
Qed.

Lemma upto_none c s : JS.has_char c s = false -> JS.upto c s = s.
Proof.
  induction s as [|c' r IH]; cbn; intros H; [reflexivity|].
  apply orb_false_elim in H as [H1 H2]. now rewrite H1, (IH H2).
Qed.

Lemma has_char_app c a b :
  JS.has_char c (a ++ b) = JS.has_char c a || JS.has_char c b.
Proof.
  induction a as [|x a IH]; [reflexivity|].
  rewrite append_cons. cbn [JS.has_char]. now rewrite IH, orb_assoc.
Qed.

(** ** The calendar *)

Lemma YearFromDay_spec d :
  JSDate.DayFromYear (JSDate.YearFromDay d) <= d
  < JSDate.DayFromYear (JSDate.YearFromDay d + 1).
Proof.
  unfold JSDate.YearFromDay.
  destruct (Z.ltb_spec d (JSDate.DayFromYear (1970 + 400 * d / 146097))) as [H|H].
  - replace (1970 + 400 * d / 146097 - 1 + 1) with (1970 + 400 * d / 146097) by lia.
    split; [|exact H]. unfold JSDate.DayFromYear in *. zdiv.
  - destruct (Z.leb_spec (JSDate.DayFromYear (1970 + 400 * d / 146097 + 1)) d) as [H1|H1].
    + split; [exact H1|]. unfold JSDate.DayFromYear in *. zdiv.
    + split; [exact H|exact H1].
Qed.

Lemma DaysInYear_spec y :
  JSDate.DaysInYear y = JSDate.DayFromYear (y + 1) - JSDate.DayFromYear y.
Proof.
  unfold JSDate.DaysInYear, JSDate.DayFromYear.
  repeat match goal with
         | |- context [?a =? ?b] => destruct (Z.eqb_spec a b); simpl
         end; zdiv.
Qed.

Lemma DaysInYear_cases y : JSDate.DaysInYear y = 365 \/ JSDate.DaysInYear y = 366.
Proof.
  unfold JSDate.DaysInYear.
  repeat match goal with
         | |- context [?a =? ?b] => destruct (Z.eqb_spec a b); simpl
         end; auto.
Qed.

Lemma DayWithinYear_range t :
  0 <= JSDate.DayWithinYear t < JSDate.DaysInYear (JSDate.YearFromTime t).
Proof.
  unfold JSDate.DayWithinYear, JSDate.YearFromTime. rewrite DaysInYear_spec.
  pose proof (YearFromDay_spec (JSDate.Day t)). lia.
Qed.

Lemma InLeapYear_spec t :
  JSDate.DaysInYear (JSDate.YearFromTime t) = 365 + JSDate.InLeapYear t.
Proof.
  unfold JSDate.InLeapYear.
  destruct (DaysInYear_cases (JSDate.YearFromTime t)) as [E|E]; rewrite E; reflexivity.
Qed.

Lemma MonthFromTime_range t : 0 <= JSDate.MonthFromTime t <= 11.
Proof.
  unfold JSDate.MonthFromTime.
  repeat match goal with |- context [if ?b then _ else _] => destruct b end; lia.
Qed.

(** The day of the month is a day of that month. *)
Lemma DateFromTime_range t :
  1 <= JSDate.DateFromTime t
  <= JSDate.DaysInMonth (JSDate.YearFromTime t) (JSDate.MonthFromTime t + 1).
Proof.
  pose proof (DayWithinYear_range t) as R. rewrite InLeapYear_spec in R.
  unfold JSDate.DateFromTime, JSDate.DaysInMonth, JSDate.MonthFromTime,
    JSDate.DaysBeforeMonth.
  unfold JSDate.InLeapYear in *.
  destruct (JSDate.DaysInYear (JSDate.YearFromTime t) =? 366);
  repeat match goal with
         | |- context [if ?a <? ?b then _ else _] => destruct (Z.ltb_spec a b)
         end;
  repeat match goal with
         | |- context [match ?a + 1 with _ => _ end] =>
             let v := eval compute in (a + 1) in change (a + 1) with v
         end; cbn; lia.
Qed.

Lemma time_fields_range t :
  0 <= JSDate.HourFromTime t <= 23 /\ 0 <= JSDate.MinFromTime t <= 59 /\
  0 <= JSDate.SecFromTime t <= 59 /\ 0 <= JSDate.msFromTime t <= 999.
Proof.
  unfold JSDate.HourFromTime, JSDate.MinFromTime, JSDate.SecFromTime, JSDate.msFromTime.
  zdiv.
Qed.

Lemma YearFromTime_range t :
  - JSDate.maxTime <= t <= JSDate.maxTime ->
  -271821 <= JSDate.YearFromTime t <= 275760.
Proof.
  intros H. pose proof (YearFromDay_spec (JSDate.Day t)) as S.
  unfold JSDate.YearFromTime.
  unfold JSDate.DayFromYear, JSDate.Day, JSDate.msPerDay, JSDate.maxTime in *. zdiv.
Qed.

(** Adding [n] to the day of the month moves the time by [n] days. *)
Lemma MakeDay_DateFromTime t n :
  JSDate.MakeDate
    (JSDate.MakeDay (JSDate.YearFromTime t) (JSDate.MonthFromTime t)
       (JSDate.DateFromTime t + n))
    (JSDate.TimeWithinDay t)
  = t + n * JSDate.msPerDay.
Proof.
  pose proof (MonthFromTime_range t) as R.
  unfold JSDate.MakeDate, JSDate.MakeDay.
  replace (JSDate.MonthFromTime t / 12) with 0 by zdiv.
  replace (JSDate.MonthFromTime t mod 12) with (JSDate.MonthFromTime t) by zdiv.
  replace (JSDate.YearFromTime t + 0) with (JSDate.YearFromTime t) by lia.
  fold (JSDate.InLeapYear t).
  unfold JSDate.DateFromTime, JSDate.DayWithinYear, JSDate.TimeWithinDay, JSDate.Day,
    JSDate.msPerDay.
  zdiv.
Qed.

Lemma setDate_getDate tz now n :
  JSDate.setDate tz (Some now) ((fun d => d + n) <$> JSDate.getDate tz (Some now))
  = JSDate.TimeClip (JSDate.UTC tz (JSDate.LocalTime tz now + n * JSDate.msPerDay)).
Proof.
  unfold JSDate.setDate, JSDate.getDate. cbn. now rewrite MakeDay_DateFromTime.
Qed.

Lemma TimeClip_in_range t :
  - JSDate.maxTime <= t <= JSDate.maxTime -> JSDate.TimeClip t = Some t.
Proof.
  intros H. unfold JSDate.TimeClip.
  destruct (Z.ltb_spec JSDate.maxTime (Z.abs t)); [lia|reflexivity].
Qed.

(** ** The text of a date *)

(** A property of the integers below [n] holds when it holds of each. *)
Lemma below_cases (n : nat) (P : Z -> Prop) :
  (forall i : nat, (i < n)%nat -> P (Z.of_nat i)) ->
  forall d, 0 <= d < Z.of_nat n -> P d.
Proof. intros H d R. rewrite <- (Z2Nat.id d) by lia. apply H. lia. Qed.

Lemma digit_char_spec d :
  0 <= d < 10 ->
  JS.is_digit (JS.digit_char d) = true
  /\ Bytes.byte_of_ascii (JS.digit_char d) - 48 = d
  /\ Ascii.eqb (JS.digit_char d) "+" = false
  /\ Ascii.eqb (JS.digit_char d) "-" = false.
Proof.
  revert d. apply (below_cases 10). intros i H.
  do 10 (destruct i as [|i]; [repeat split; reflexivity|]). lia.
Qed.

Lemma take_digit d acc n rest :
  0 <= d < 10 ->
  JSDate.take_digits (S n) acc (String (JS.digit_char d) rest)
  = JSDate.take_digits n (10 * acc + d) rest.
Proof.
  intros H. destruct (digit_char_spec d H) as (D & V & _). cbn [JSDate.take_digits].
  now rewrite D, V.
Qed.

Ltac pad_unfold :=
  unfold JSDate.pad; cbn [seq rev app map string_of_list_ascii Nat.add];
  rewrite ?append_cons, ?append_nil;
  repeat match goal with
         | |- context [10 ^ Z.of_nat ?n] =>
             let v := eval compute in (10 ^ Z.of_nat n) in
             change (10 ^ Z.of_nat n) with v
         end.

Ltac pad_digits :=
  pad_unfold; repeat (rewrite take_digit by zdiv);
  cbn [JSDate.take_digits]; repeat f_equal; zdiv.

Lemma take_pad2 v rest :
  0 <= v < 100 -> JSDate.take_digits 2 0 (JSDate.pad 2 v ++ rest) = Some (v, rest).
Proof. intros H. pad_digits. Qed.

Lemma take_pad3 v rest :
  0 <= v < 1000 -> JSDate.take_digits 3 0 (JSDate.pad 3 v ++ rest) = Some (v, rest).
Proof. intros H. pad_digits. Qed.

Lemma take_pad4 v rest :
  0 <= v < 10000 -> JSDate.take_digits 4 0 (JSDate.pad 4 v ++ rest) = Some (v, rest).
Proof. intros H. pad_digits. Qed.

Lemma take_pad6 v rest :
  0 <= v < 1000000 -> JSDate.take_digits 6 0 (JSDate.pad 6 v ++ rest) = Some (v, rest).
Proof. intros H. pad_digits. Qed.

Lemma take_year_iso y rest :
  -999999 <= y <= 999999 ->
  JSDate.take_year (JSDate.iso_year y ++ rest) = Some (y, rest).
Proof.
  intros H. unfold JSDate.iso_year.
  destruct (Z.leb_spec 0 y) as [P|P]; cbn [andb].
  - destruct (Z.leb_spec y 9999) as [Q|Q].
    + rewrite <- (take_pad4 y rest) by lia. unfold JSDate.take_year.
      pad_unfold.
      destruct (digit_char_spec ((y `div` 1000) `mod` 10)) as (_ & _ & -> & ->); [zdiv|].
      reflexivity.
    + destruct (Z.ltb_spec y 0); [lia|].
      repeat (rewrite append_cons || rewrite append_nil).
      cbn [JSDate.take_year Ascii.eqb Bool.eqb].
      rewrite take_pad6 by lia. f_equal. f_equal. lia.
  - destruct (Z.ltb_spec y 0); [|lia].
    repeat (rewrite append_cons || rewrite append_nil).
    cbn [JSDate.take_year Ascii.eqb Bool.eqb].
    rewrite take_pad6 by lia. cbn. f_equal. f_equal. lia.
Qed.

Ltac iso_field lem :=
  rewrite append_cons, append_nil;
  cbn [JSDate.expect Ascii.eqb Bool.eqb mbind option_bind];
  rewrite lem by lia; cbn [mbind option_bind].

(** Every time value of the range of [Date] prints as a well-formed ISO-8601
    UTC time stamp with milliseconds. *)
Lemma iso_string_valid t :
  - JSDate.maxTime <= t <= JSDate.maxTime ->
  JSDate.is_iso8601_utc_ms (JSDate.iso_string t) = true.
Proof.
  intros H.
  pose proof (YearFromTime_range t H) as Y.
  pose proof (MonthFromTime_range t) as Mo.
  pose proof (DateFromTime_range t) as D.
  pose proof (time_fields_range t) as (Hh & Hm & Hs & Hms).
  assert (JSDate.DaysInMonth (JSDate.YearFromTime t) (JSDate.MonthFromTime t + 1) <= 31)
    as D31.
  { unfold JSDate.DaysInMonth.
    repeat match goal with |- context [match ?x with _ => _ end] => destruct x end; lia. }
  unfold JSDate.is_iso8601_utc_ms, JSDate.iso_fields, JSDate.iso_string.
  rewrite take_year_iso by lia. cbn [mbind option_bind].
  do 5 iso_field take_pad2. iso_field take_pad3.
  cbn [JSDate.expect Ascii.eqb Bool.eqb mbind option_bind String.eqb].
  repeat (apply andb_true_intro; split); try reflexivity; apply Z.leb_le; lia.
Qed.

Lemma iso_string_truthy t : JS.truthy (JSDate.iso_string t) = true.
Proof. unfold JSDate.iso_string. destruct (JSDate.iso_year _); reflexivity. Qed.

(** * [calculateDueDate] *)

(** The [switch] computes the table of the specification. *)
Lemma daysToAdd_spec p :
  Utils.daysToAdd p = (offset_days p, bool_decide (~ known_priority p)).
Proof.
  assert (forall q, known_priority q -> bool_decide (~ known_priority q) = false) as K.
  { intros q H. apply bool_decide_eq_false. tauto. }
  assert (forall q, ~ known_priority q -> bool_decide (~ known_priority q) = true) as U.
  { intros q H. now apply bool_decide_eq_true. }
  unfold Utils.daysToAdd, offset_days.
  destruct p as [s|].
  - destruct (String.eqb_spec s "HIGH") as [->|n1].
    { rewrite K by (unfold known_priority; auto). now rewrite decide_True. }
    destruct (String.eqb_spec s "MEDIUM") as [->|n2].
    { rewrite K by (unfold known_priority; auto). reflexivity. }
    destruct (String.eqb_spec s "LOW") as [->|n3].
    { rewrite K by (unfold known_priority; auto). reflexivity. }
    destruct (String.eqb_spec s "NONE") as [->|n4].
    { rewrite K by (unfold known_priority; auto 6). reflexivity. }
    rewrite U by (intros [?|[?|[?|?]]]; congruence).
    repeat case_decide; congruence.
  - rewrite U by (intros [?|[?|[?|?]]]; congruence). reflexivity.
Qed.

Lemma calculateDueDate_unfold tz now p :
  Utils.calculateDueDate tz now p =
    (when (bool_decide (~ known_priority p))
       (console_warn [AStr (Utils.unknown_priority_warning p)]);;
     s ← toISOString (JSDate.TimeClip (due_instant tz now (offset_days p)));
     mret (Some s)).
Proof.
  unfold Utils.calculateDueDate. rewrite daysToAdd_spec.
  now rewrite setDate_getDate.
Qed.

(** Whatever the clock, the console gets the warning of the [default] branch
    and nothing else. *)
Lemma calculateDueDate_events tz now p :
  exists c, Utils.calculateDueDate tz now p = (priority_warnings p, c).
Proof.
  rewrite calculateDueDate_unfold. unfold priority_warnings.
  destruct (bool_decide _), (JSDate.TimeClip _); eexists; reflexivity.
Qed.

Lemma due_instant_fixed_zone tz now n :
  tz (JSDate.LocalTime tz now + n * JSDate.msPerDay) false = tz now true ->
  due_instant tz now n = now + n * JSDate.msPerDay.
Proof. unfold due_instant, JSDate.UTC, JSDate.LocalTime. intros ->. lia. Qed.

Lemma offset_days_range p : 0 <= offset_days p <= 14.
Proof. unfold offset_days. repeat case_decide; lia. Qed.

Lemma due_instant_range tz now n :
  clock_in_range tz now -> 0 <= n <= 14 ->
  - JSDate.maxTime <= due_instant tz now n <= JSDate.maxTime.
Proof.
  intros [Z R] N. unfold due_instant, JSDate.UTC, JSDate.LocalTime.
  pose proof (Z now true).
  pose proof (Z (now + tz now true + n * JSDate.msPerDay) false).
  unfold JSDate.msPerDay, JSDate.maxTime in *. lia.
Qed.



(** C7: under a clock of this world [calculateDueDate] returns, for every
    priority, known, unknown or absent, a string and never [null] nor an
    exception, and the string is a well-formed ISO-8601 UTC time stamp with
    milliseconds. *)
Theorem calculateDueDate_total tz now p :
  clock_in_range tz now ->
  exists s, completion (Utils.calculateDueDate tz now p) = Normal (Some s)
            /\ JSDate.is_iso8601_utc_ms s = true.
Proof.
  intros C. rewrite calculateDueDate_unfold.
  pose proof (due_instant_range tz now _ C (offset_days_range p)) as R.
  rewrite (TimeClip_in_range _ R).
  exists (JSDate.iso_string (due_instant tz now (offset_days p))).
  split; [|now apply iso_string_valid].
  destruct (bool_decide _); reflexivity.
Qed.

(** The clock of the tests, UTC at 2024-06-15T12:00:00.000Z, is in range. *)
Ltac test_clock :=
  split; [intros t b|]; cbn [LocalTZA now test_world];
  unfold JSDate.msPerDay, JSDate.maxTime; lia.

Lemma calculateDueDate_total_witness :
  exists s, completion (Utils.calculateDueDate (fun _ _ => 0) 1718452800000 (Some "URGENT"))
            = Normal (Some s)
            /\ JSDate.is_iso8601_utc_ms s = true.
Proof. apply calculateDueDate_total. test_clock. Defined.

(** * [verifyWebhookSignature] *)

Lemma hex_digit_plain n :
  0 <= n < 16 ->
  Ascii.eqb (Bytes.hex_digit n) "=" = false /\ Ascii.eqb (Bytes.hex_digit n) "," = false.
Proof.
  revert n. apply (below_cases 16). intros i H.
  do 16 (destruct i as [|i]; [split; reflexivity|]). lia.
Qed.

Lemma hex_plain bs :
  JS.has_char "=" (Bytes.hex bs) = false /\ JS.has_char "," (Bytes.hex bs) = false.
Proof.
  induction bs as [|b r [IH1 IH2]]; [split; reflexivity|].
  cbn [Bytes.hex fold_right Bytes.hex_of_byte JS.has_char].
  fold (Bytes.hex r).
  destruct (hex_digit_plain ((b / 16) mod 16)) as [-> ->]; [zdiv|].
  destruct (hex_digit_plain (b mod 16)) as [-> ->]; [zdiv|].
  now rewrite IH1, IH2.
Qed.

(** From a parsed header on, the function is [verify_parsed]. *)
Lemma verify_unfold now hd body secret tol ts sig :
  Utils.parse_header hd = (Some ts, Some sig) ->
  ts <> EmptyString -> sig <> EmptyString ->
  Utils.verifyWebhookSignature now (Some hd) (Some body) secret tol
  = verify_parsed now ts sig body secret (default 5 tol).
Proof.
  intros P T S. unfold Utils.verifyWebhookSignature.
  assert (hd <> EmptyString) as N by (intros ->; discriminate P).
  cbn [JS.truthy_opt]. rewrite (proj2 (truthy_spec hd) N). cbn [negb].
  change (default EmptyString (Some hd)) with hd.
  rewrite P. cbn [JS.truthy_opt].
  rewrite (proj2 (truthy_spec ts) T), (proj2 (truthy_spec sig) S).
  reflexivity.
Qed.

Lemma verify_parsed_true now ts sig body secret m :
  completion (verify_parsed now ts sig body secret m) = Normal true
  <-> sig = Utils.expectedSignature secret ts body
      /\ Utils.isFresh now ((fun t => t * 1000) <$> JS.parseInt ts) m = true.
Proof.
  unfold verify_parsed, timingSafeEqual, JS.Buffer_from.
  generalize (Utils.expectedSignature secret ts body) as expected. intros expected.
  generalize (Utils.isFresh now ((fun t => t * 1000) <$> JS.parseInt ts) m) as fresh.
  generalize ((fun t => t * 1000) <$> JS.parseInt ts) as received.
  intros received fresh.
  destruct (String.length sig =? String.length expected)%nat eqn:L.
  - destruct (String.eqb_spec sig expected) as [->|N];
      destruct fresh; cbn;
      try (destruct (received ≫= JSDate.TimeClip); cbn);
      try (destruct (JSDate.TimeClip now); cbn);
      split; try tauto; try discriminate; intros [? ?]; congruence.
  - cbn. split; [discriminate|]. intros [-> _].
    now rewrite Nat.eqb_refl in L.
Qed.

(** With the expected digest and a fresh time stamp nothing is logged. *)
Lemma verify_parsed_accepts now ts body secret m :
  Utils.isFresh now ((fun t => t * 1000) <$> JS.parseInt ts) m = true ->
  verify_parsed now ts (Utils.expectedSignature secret ts body) body secret m
  = ([], Normal true).
Proof.
  intros F. unfold verify_parsed, timingSafeEqual, JS.Buffer_from.
  rewrite Nat.eqb_refl, String.eqb_refl, F. reflexivity.
Qed.

Ltac verify_rejects hd N P :=
  unfold Utils.verifyWebhookSignature; cbn [JS.truthy_opt];
  rewrite (proj2 (truthy_spec hd) N); cbn [negb];
  change (default EmptyString (Some hd)) with hd; rewrite P;
  cbn [JS.truthy_opt]; rewrite ?orb_true_r.

(** [verifyWebhookSignature] returns [true] exactly on a present header that
    parses into a time stamp and a digest, a present body, the expected
    digest and a fresh time stamp. *)
Lemma verifyWebhookSignature_true_iff now h b secret tol :
  completion (Utils.verifyWebhookSignature now h b secret tol) = Normal true
  <-> exists hd body ts,
        h = Some hd /\ b = Some body
        /\ Utils.parse_header hd = (Some ts, Some (Utils.expectedSignature secret ts body))
        /\ ts <> EmptyString
        /\ Utils.isFresh now ((fun t => t * 1000) <$> JS.parseInt ts) (default 5 tol) = true.
Proof.
  split.
  - destruct h as [hd|]; [|discriminate].
    destruct (String.eqb_spec hd EmptyString) as [->|N]; [discriminate|].
    destruct b as [body|].
    2:{ unfold Utils.verifyWebhookSignature. cbn [JS.truthy_opt].
        rewrite (proj2 (truthy_spec hd) N). discriminate. }
    destruct (Utils.parse_header hd) as [[ts|] [sig|]] eqn:P.
    + destruct (String.eqb_spec ts EmptyString) as [->|T].
      { verify_rejects hd N P. discriminate. }
      destruct (String.eqb_spec sig EmptyString) as [->|S].
      { verify_rejects hd N P. discriminate. }
      rewrite (verify_unfold _ _ _ _ _ _ _ P T S).
      intros [-> F]%verify_parsed_true. now exists hd, body, ts.
    + verify_rejects hd N P. discriminate.
    + verify_rejects hd N P. discriminate.
    + verify_rejects hd N P. discriminate.
  - intros (hd & body & ts & -> & -> & P & T & F).
    assert (Utils.expectedSignature secret ts body <> EmptyString) as S.
    { intros E. pose proof (expectedSignature_length secret ts body) as L.
      rewrite E in L. discriminate L. }
    rewrite (verify_unfold _ _ _ _ _ _ _ P T S).
    now apply verify_parsed_true.
Qed.

(** The placeholder of the earlier [utils.ts] accepts nothing. *)
Lemma placeholder_rejects h b secret tol :
  UtilsPlaceholder.verifyWebhookSignature h b secret tol = ([], Normal false).
Proof. reflexivity. Qed.

(** C1 (what the code does instead): a digest whose byte length is not the 64
    of the expected one makes [crypto.timingSafeEqual], and with it
    [verifyWebhookSignature], throw a [RangeError]; nothing is logged and
    nothing returned. *)
Theorem verifyWebhookSignature_throws_on_length_mismatch now hd body secret tol ts sig :
  Utils.parse_header hd = (Some ts, Some sig) ->
  ts <> EmptyString -> sig <> EmptyString ->
  String.length sig <> String.length (Utils.expectedSignature secret ts body) ->
  Utils.verifyWebhookSignature now (Some hd) (Some body) secret tol
  = ([], Throw (NativeError "RangeError" "Input buffers must have the same byte length")).
Proof.
  intros P T S L. rewrite (verify_unfold _ _ _ _ _ _ _ P T S).
  unfold verify_parsed, timingSafeEqual, JS.Buffer_from.
  destruct (Nat.eqb_spec (String.length sig)
              (String.length (Utils.expectedSignature secret ts body)));
    [contradiction|reflexivity].
Qed.

Lemma verifyWebhookSignature_throws_on_short_digest :
  Utils.verifyWebhookSignature 1718452800000 (Some "t=1718452800,v1=abc")
    (Some "{key:value}") "test_secret_123" None
  = ([], Throw (NativeError "RangeError" "Input buffers must have the same byte length")).
Proof.
  apply (verifyWebhookSignature_throws_on_length_mismatch
           1718452800000 "t=1718452800,v1=abc" "{key:value}" "test_secret_123" None
           "1718452800" "abc").
  - reflexivity.
  - discriminate.
  - discriminate.
  - rewrite expectedSignature_length. discriminate.
Defined.

(** C2 (what the code does instead): when the time stamp is no number and
    the digest has the length of the expected one, building the message of
    the stale time stamp throws a [RangeError] ([toISOString] of an invalid
    date): the function returns neither [true] nor [false]. *)
Theorem verifyWebhookSignature_throws_on_invalid_date now hd body secret tol ts sig :
  Utils.parse_header hd = (Some ts, Some sig) ->
  ts <> EmptyString ->
  String.length sig = 64%nat ->
  JS.parseInt ts = None ->
  completion (Utils.verifyWebhookSignature now (Some hd) (Some body) secret tol)
  = Throw (NativeError "RangeError" "Invalid time value").
Proof.
  intros P T L I.
  assert (sig <> EmptyString) as S by (intros ->; discriminate L).
  rewrite (verify_unfold _ _ _ _ _ _ _ P T S).
  unfold verify_parsed, timingSafeEqual, JS.Buffer_from.
  rewrite expectedSignature_length, L, I.
  generalize (Utils.expectedSignature secret ts body) as expected. intros expected.
  cbn. destruct (String.eqb sig expected); reflexivity.
Qed.

Lemma verifyWebhookSignature_throws_on_text_timestamp :
  completion
    (Utils.verifyWebhookSignature 1718452800000
       (Some "t=soon,v1=0000000000000000000000000000000000000000000000000000000000000000")
       (Some "{key:value}") "test_secret_123" None)
  = Throw (NativeError "RangeError" "Invalid time value").
Proof.
  apply (verifyWebhookSignature_throws_on_invalid_date
           1718452800000
           "t=soon,v1=0000000000000000000000000000000000000000000000000000000000000000"
           "{key:value}" "test_secret_123" None "soon"
           "0000000000000000000000000000000000000000000000000000000000000000");
    reflexivity || discriminate.
Defined.

Lemma isFresh_spec now t m :
  Utils.isFresh now (Some (t * 1000)) m = true <-> now - t * 1000 < m * 60 * 1000.
Proof. unfold Utils.isFresh. apply Z.ltb_lt. Qed.

(** A stale time stamp inside the range of [Date] is logged and refused. *)
Lemma verify_parsed_stale now ts body secret m t :
  JS.parseInt ts = Some t ->
  m * 60 * 1000 <= now - t * 1000 ->
  - JSDate.maxTime <= t * 1000 <= JSDate.maxTime ->
  - JSDate.maxTime <= now <= JSDate.maxTime ->
  verify_parsed now ts (Utils.expectedSignature secret ts body) body secret m
  = ([Console ERROR
        [AStr ("[verifyWebhookSignature] Webhook timestamp too old. Received: "
               ++ JSDate.iso_string (t * 1000) ++ ", Now: " ++ JSDate.iso_string now)]],
     Normal false).
Proof.
  intros I St Rt Rn. unfold verify_parsed, timingSafeEqual, JS.Buffer_from.
  rewrite Nat.eqb_refl, String.eqb_refl, I.
  generalize (Utils.expectedSignature secret ts body) as expected. intros expected.
  cbn [fmap option_fmap option_map].
  assert (Utils.isFresh now (Some (t * 1000)) m = false) as ->.
  { unfold Utils.isFresh. apply Z.ltb_ge. lia. }
  cbn [mbind option_bind]. rewrite (TimeClip_in_range _ Rt), (TimeClip_in_range _ Rn).
  reflexivity.
Qed.

(** C3: for a request whose digest is the expected one and whose time stamp
    reads as the number [t] of seconds, the request is fresh, and accepted,
    exactly when [now - t*1000 < toleranceMinutes*60*1000]; with a tolerance
    that is not negative every time stamp in the future is accepted; a time
    stamp at or beyond the tolerance is not accepted, and inside the range
    of [Date] it is logged as too old and [false] is returned. *)
Theorem freshness_window now hd body secret tol ts t :
  Utils.parse_header hd = (Some ts, Some (Utils.expectedSignature secret ts body)) ->
  ts <> EmptyString ->
  JS.parseInt ts = Some t ->
  (Utils.isFresh now (Some (t * 1000)) (default 5 tol) = true
   <-> now - t * 1000 < default 5 tol * 60 * 1000)
  /\ (completion (Utils.verifyWebhookSignature now (Some hd) (Some body) secret tol)
      = Normal true
      <-> now - t * 1000 < default 5 tol * 60 * 1000)
  /\ (0 <= default 5 tol -> now < t * 1000 ->
      Utils.verifyWebhookSignature now (Some hd) (Some body) secret tol
      = ([], Normal true))
  /\ (default 5 tol * 60 * 1000 <= now - t * 1000 ->
      completion (Utils.verifyWebhookSignature now (Some hd) (Some body) secret tol)
      <> Normal true)
  /\ (default 5 tol * 60 * 1000 <= now - t * 1000 ->
      - JSDate.maxTime <= t * 1000 <= JSDate.maxTime ->
      - JSDate.maxTime <= now <= JSDate.maxTime ->
      Utils.verifyWebhookSignature now (Some hd) (Some body) secret tol
      = ([Console ERROR
            [AStr ("[verifyWebhookSignature] Webhook timestamp too old. Received: "
                   ++ JSDate.iso_string (t * 1000) ++ ", Now: "
                   ++ JSDate.iso_string now)]],
         Normal false)).
Proof.
  intros P T I.
  assert (Utils.expectedSignature secret ts body <> EmptyString) as S.
  { intros E. pose proof (expectedSignature_length secret ts body) as L.
    rewrite E in L. discriminate L. }
  rewrite (verify_unfold _ _ _ _ _ _ _ P T S).
  assert (completion (verify_parsed now ts (Utils.expectedSignature secret ts body)
                        body secret (default 5 tol)) = Normal true
          <-> now - t * 1000 < default 5 tol * 60 * 1000) as A.
  { rewrite verify_parsed_true, I. cbn [fmap option_fmap option_map].
    rewrite isFresh_spec. tauto. }
  split; [apply isFresh_spec|]. split; [exact A|]. split; [|split].
  - intros M F. apply verify_parsed_accepts. rewrite I.
    cbn [fmap option_fmap option_map]. apply isFresh_spec. lia.
  - intros St H. apply A in H. lia.
  - intros St Rt Rn. now apply verify_parsed_stale.
Qed.

Lemma freshness_window_witness :
  completion
    (Utils.verifyWebhookSignature 1718452920000
       (Some "t=1718452800,v1=2f44af8135a8ba84acf3d482f707159a0a8e1e4234c0cd7f72241d05969e52d8")
       (Some "{key:value}") "test_secret_123" None)
  = Normal true
  <-> 1718452920000 - 1718452800 * 1000 < default 5 None * 60 * 1000.
Proof.
  apply (freshness_window 1718452920000
           "t=1718452800,v1=2f44af8135a8ba84acf3d482f707159a0a8e1e4234c0cd7f72241d05969e52d8"
           "{key:value}" "test_secret_123" None "1718452800" 1718452800).
  - vm_compute. reflexivity.
  - discriminate.
  - reflexivity.
Defined.

(** ** The shape of the header *)

Lemma segment_value k v :
  JS.has_char "=" k = false ->
  JS.split "=" (k ++ "=" ++ v) !! 1%nat = Some (JS.upto "=" v).
Proof.
  intros H. change ("=" ++ v) with (String "=" v).
  rewrite (split_app _ _ _ H). apply split_head.
Qed.

Lemma segment_truthy k v : JS.truthy (k ++ "=" ++ v) = true.
Proof. destruct k; reflexivity. Qed.

Lemma header_segments seg1 seg2 more :
  JS.has_char "," seg1 = false -> JS.has_char "," seg2 = false ->
  more = EmptyString \/ (exists m, more = String "," m) ->
  JS.split "," (seg1 ++ "," ++ seg2 ++ more) !! 0%nat = Some seg1
  /\ JS.split "," (seg1 ++ "," ++ seg2 ++ more) !! 1%nat = Some seg2.
Proof.
  intros H1 H2 M. change ("," ++ seg2 ++ more) with (String "," (seg2 ++ more)).
  rewrite (split_app _ _ _ H1). split; [reflexivity|].
  cbn. destruct M as [->|[m ->]].
  - rewrite append_empty_r. now rewrite (split_none _ _ H2).
  - now rewrite (split_app _ _ _ H2).
Qed.

(** Two [key=value] segments, whatever the keys, are read as the time stamp
    and the digest, each value up to its first [=]; further segments are
    not read. *)
Lemma parse_header_pairs k1 v1 k2 v2 more :
  JS.has_char "," k1 = false -> JS.has_char "=" k1 = false -> JS.has_char "," v1 = false ->
  JS.has_char "," k2 = false -> JS.has_char "=" k2 = false -> JS.has_char "," v2 = false ->
  more = EmptyString \/ (exists m, more = String "," m) ->
  Utils.parse_header (k1 ++ "=" ++ v1 ++ "," ++ k2 ++ "=" ++ v2 ++ more)
  = (Some (JS.upto "=" v1), Some (JS.upto "=" v2)).
Proof.
  intros A1 A2 A3 B1 B2 B3 M.
  assert (JS.has_char "," (k1 ++ "=" ++ v1) = false) as S1.
  { rewrite !has_char_app, A1, A3. reflexivity. }
  assert (JS.has_char "," (k2 ++ "=" ++ v2) = false) as S2.
  { rewrite !has_char_app, B1, B3. reflexivity. }
  destruct (header_segments _ _ _ S1 S2 M) as [P0 P1].
  unfold Utils.parse_header.
  replace (k1 ++ "=" ++ v1 ++ "," ++ k2 ++ "=" ++ v2 ++ more)
    with ((k1 ++ "=" ++ v1) ++ "," ++ (k2 ++ "=" ++ v2) ++ more)
    by (now rewrite !append_assoc).
  rewrite P0, P1. cbn [JS.truthy_opt]. rewrite !segment_truthy.
  change (default EmptyString (Some ?x)) with x.
  now rewrite !segment_value.
Qed.

(** C10, as amended: the header is read by position and the key names are
    never looked at.  The time stamp is the text between the first [=] of the
    first comma-separated segment and its next [=] (or its end), the digest
    likewise in the second segment, and further segments are ignored; with
    the pairs the other way round the roles are exchanged; and whatever the
    two keys, a fresh time stamp followed by the expected digest is
    accepted. *)
Theorem header_read_by_position k1 v1 k2 v2 more :
  JS.has_char "," k1 = false -> JS.has_char "=" k1 = false -> JS.has_char "," v1 = false ->
  JS.has_char "," k2 = false -> JS.has_char "=" k2 = false -> JS.has_char "," v2 = false ->
  more = EmptyString \/ (exists m, more = String "," m) ->
  Utils.parse_header (k1 ++ "=" ++ v1 ++ "," ++ k2 ++ "=" ++ v2 ++ more)
  = (Some (JS.upto "=" v1), Some (JS.upto "=" v2))
  /\ Utils.parse_header (k2 ++ "=" ++ v2 ++ "," ++ k1 ++ "=" ++ v1 ++ more)
     = (Some (JS.upto "=" v2), Some (JS.upto "=" v1))
  /\ (forall now body secret tol,
        v2 = Utils.expectedSignature secret (JS.upto "=" v1) body ->
        JS.upto "=" v1 <> EmptyString ->
        Utils.isFresh now ((fun t => t * 1000) <$> JS.parseInt (JS.upto "=" v1))
          (default 5 tol) = true ->
        Utils.verifyWebhookSignature now
          (Some (k1 ++ "=" ++ v1 ++ "," ++ k2 ++ "=" ++ v2 ++ more)) (Some body) secret tol
        = ([], Normal true)).
Proof.
  intros A1 A2 A3 B1 B2 B3 M.
  pose proof (parse_header_pairs _ _ _ _ _ A1 A2 A3 B1 B2 B3 M) as P.
  split; [exact P|]. split; [now apply parse_header_pairs|].
  intros now body secret tol E T F.
  assert (JS.upto "=" v2 = v2) as U.
  { apply upto_none. rewrite E. apply hex_plain. }
  rewrite U in P.
  assert (v2 <> EmptyString) as S.
  { intros Z. pose proof (expectedSignature_length secret (JS.upto "=" v1) body) as L.
    rewrite <- E, Z in L. discriminate L. }
  rewrite (verify_unfold _ _ _ _ _ _ _ P T S). rewrite E.
  now apply verify_parsed_accepts.
Qed.

Lemma header_read_by_position_witness :
  Utils.verifyWebhookSignature 1718452920000
    (Some ("foo" ++ "=" ++ "1718452800" ++ "," ++ "bar" ++ "="
           ++ "2f44af8135a8ba84acf3d482f707159a0a8e1e4234c0cd7f72241d05969e52d8"
           ++ ",v1=unread"))
    (Some "{key:value}") "test_secret_123" None
  = ([], Normal true).
Proof.
  apply (header_read_by_position "foo" "1718452800" "bar"
           "2f44af8135a8ba84acf3d482f707159a0a8e1e4234c0cd7f72241d05969e52d8"
           ",v1=unread").
  - reflexivity.
  - reflexivity.
  - reflexivity.
  - reflexivity.
  - reflexivity.
  - reflexivity.
  - right. now exists "v1=unread".
  - vm_compute. reflexivity.
  - discriminate.
  - reflexivity.
Defined.

(** C10, as stated, fails where a segment has a second [=]: the time stamp
    is then not all the text after the first [=]. *)
Lemma timestamp_stops_at_second_equals_sign :
  Utils.parse_header "t=1=2,v1=abc" = (Some "1", Some "abc")
  /\ JS.after_first "=" "t=1=2" = Some "1=2".
Proof. split; reflexivity. Qed.

(** * [processWebhookEvent] *)

Lemma Handler_calculateDueDate world p :
  clock_in_range (LocalTZA world) (now world) ->
  Handler.calculateDueDate world (Some p)
  = (priority_warnings (Some p), Normal (Some (due_date world p))).
Proof.
  intros C. unfold Handler.calculateDueDate. rewrite calculateDueDate_unfold.
  pose proof (due_instant_range _ _ _ C (offset_days_range (Some p))) as R.
  rewrite (TimeClip_in_range _ R). unfold priority_warnings, due_date.
  destruct (bool_decide _); reflexivity.
Qed.

Lemma due_date_truthy world p : JS.truthy (due_date world p) = true.
Proof. apply iso_string_truthy. Qed.

(** Unfolding the monad and the console calls, the names of the messages
    and of the requests being kept. *)
Ltac run :=
  cbn [mbind M_bind mret M_ret try_catch emit throw when console_log console_warn
       console_error Handler.await_patch Handler.await_get Handler.settle
       Handler.data_workOrder events completion fst snd app negb JS.truthy_opt].

(** The same, the [try] blocks being kept. *)
Ltac walk :=
  cbn [mbind M_bind mret M_ret emit when console_log console_warn console_error
       events completion fst snd app negb JS.truthy_opt].

(** The update step of [src/webhookHandler.ts]. *)
Lemma update_step env world id d :
  WebhookHandler.update_work_order env world id d
  = (HttpPatch (Handler.workorder_url env id) d (Handler.maintainxApiHeaders env)
     :: update_outcome id
          (axios_patch world (Handler.workorder_url env id) d (Handler.maintainxApiHeaders env)),
     Normal tt).
Proof.
  unfold WebhookHandler.update_work_order. run. unfold update_outcome.
  destruct (axios_patch world _ _ _) as [r|e]; run; [reflexivity|].
  destruct (Handler.rate_limited e); reflexivity.
Qed.

(** The update step of the variant that fetches. *)
Lemma update_step_fetch env world id d :
  WebhookHandlerFetch.update_work_order env world id d
  = (HttpPatch (Handler.workorder_url env id) d (Handler.maintainxApiHeaders env)
     :: update_outcome_fetch id
          (axios_patch world (Handler.workorder_url env id) d (Handler.maintainxApiHeaders env)),
     Normal tt).
Proof.
  unfold WebhookHandlerFetch.update_work_order. run. unfold update_outcome_fetch.
  destruct (axios_patch world _ _ _) as [r|e]; run; [reflexivity|].
  destruct (Handler.rate_limited e); reflexivity.
Qed.

(** [src/webhookHandler.ts], for an event whose snapshot has a priority. *)
Lemma processWebhookEvent_with_priority env world payload wo p :
  newWorkOrder payload = Some wo -> priority wo = Some p -> JS.truthy p = true ->
  clock_in_range (LocalTZA world) (now world) ->
  WebhookHandler.processWebhookEvent env world payload
  = ((priority_warnings (Some p)
      ++ Console LOG
           [AStr (Handler.due_date_message (workOrderId payload) p (due_date world p))]
      :: HttpPatch (Handler.workorder_url env (workOrderId payload)) (due_date world p)
           (Handler.maintainxApiHeaders env)
      :: update_outcome (workOrderId payload)
           (axios_patch world (Handler.workorder_url env (workOrderId payload))
              (due_date world p) (Handler.maintainxApiHeaders env)))%list,
     Normal tt).
Proof.
  intros W P T C. unfold WebhookHandler.processWebhookEvent.
  rewrite W, P. walk. rewrite T. walk.
  change (default EmptyString (Some p)) with p.
  rewrite (Handler_calculateDueDate _ _ C). walk.
  rewrite due_date_truthy. walk.
  change (default EmptyString (Some ?x)) with x.
  rewrite update_step. reflexivity.
Qed.

(** ** The variant that fetches *)

Lemma processWebhookEvent_fetch_unfold env world payload :
  WebhookHandlerFetch.processWebhookEvent env world payload
  = (console_log [AStr (Handler.received_message (workOrderId payload)); AJson payload];;
     resolved ← WebhookHandlerFetch.resolve_details env world payload;
     after_details env world (workOrderId payload) resolved).
Proof. reflexivity. Qed.

Lemma resolve_details_embedded env world payload wo :
  newWorkOrder payload = Some wo ->
  WebhookHandlerFetch.resolve_details env world payload = ([], Normal (Some (Some wo))).
Proof. intros W. unfold WebhookHandlerFetch.resolve_details. now rewrite W. Qed.

Lemma resolve_details_fetched env world payload :
  newWorkOrder payload = None ->
  WebhookHandlerFetch.resolve_details env world payload
  = (Console LOG [AStr (Handler.fetching_message (workOrderId payload))]
     :: HttpGet (Handler.workorder_url env (workOrderId payload))
          (Handler.maintainxApiHeaders env)
     :: fetch_outcome (workOrderId payload)
          (axios_get world (Handler.workorder_url env (workOrderId payload))
             (Handler.maintainxApiHeaders env)),
     Normal
       (fetched_details
          (axios_get world (Handler.workorder_url env (workOrderId payload))
             (Handler.maintainxApiHeaders env)))).
Proof.
  intros W. unfold WebhookHandlerFetch.resolve_details. rewrite W. run.
  unfold fetch_outcome, fetched_details.
  destruct (axios_get world _ _) as [r|e]; run; [|reflexivity].
  destruct (data r); reflexivity.
Qed.

(** The second half, for details with a priority. *)
Lemma after_details_with_priority env world id wo p :
  priority wo = Some p -> JS.truthy p = true ->
  clock_in_range (LocalTZA world) (now world) ->
  after_details env world id (Some (Some wo))
  = ((priority_warnings (Some p)
      ++ Console LOG [AStr (Handler.due_date_message id p (due_date world p))]
      :: Console LOG [AStr "--- API Key Debug ---"]
      :: Console LOG
           [AStr ("Full MAINTAINX_API_KEY (DEBUG):" ++ tpl (Handler.MAINTAINX_API_KEY env))]
      :: HttpPatch (Handler.workorder_url env id) (due_date world p)
           (Handler.maintainxApiHeaders env)
      :: update_outcome_fetch id
           (axios_patch world (Handler.workorder_url env id) (due_date world p)
              (Handler.maintainxApiHeaders env)))%list,
     Normal tt).
Proof.
  intros P T C. unfold after_details. rewrite P. walk. rewrite T. walk.
  change (default EmptyString (Some p)) with p.
  rewrite (Handler_calculateDueDate _ _ C). walk.
  rewrite due_date_truthy. walk.
  change (default EmptyString (Some ?x)) with x.
  rewrite update_step_fetch. reflexivity.
Qed.

Lemma after_details_no_priority env world id wo :
  JS.truthy_opt (priority wo) = false ->
  after_details env world id (Some (Some wo))
  = ([Console LOG [AStr (Handler.no_priority_message id)]], Normal tt).
Proof. intros P. unfold after_details. now rewrite P. Qed.

(** ** Requests and console output of a run *)

Lemma priority_warnings_filter p :
  List.filter is_get (priority_warnings p) = []
  /\ List.filter is_patch (priority_warnings p) = []
  /\ List.filter (is_console ERROR) (priority_warnings p) = []
  /\ List.filter (is_console WARN) (priority_warnings p) = priority_warnings p.
Proof. unfold priority_warnings. destruct (bool_decide _); repeat split. Qed.

Lemma update_outcome_gets id s : List.filter is_get (update_outcome id s) = [].
Proof.
  destruct s as [r|e]; [reflexivity|]. cbn [update_outcome].
  destruct (Handler.rate_limited e); reflexivity.
Qed.

Lemma update_outcome_fetch_gets id s :
  List.filter is_get (update_outcome_fetch id s) = [].
Proof.
  destruct s as [r|e]; [reflexivity|]. cbn [update_outcome_fetch].
  destruct (Handler.rate_limited e); reflexivity.
Qed.

Lemma fetch_outcome_gets id s : List.filter is_get (fetch_outcome id s) = [].
Proof. destruct s as [r|e]; [|reflexivity]. cbn. destruct (data r); reflexivity. Qed.

Lemma fetch_outcome_patches id s : List.filter is_patch (fetch_outcome id s) = [].
Proof. destruct s as [r|e]; [|reflexivity]. cbn. destruct (data r); reflexivity. Qed.

Lemma completion_bind_normal {A B} l (a : A) (f : A -> M B) :
  completion ((l, Normal a) ≫= f) = completion (f a).
Proof. cbn [mbind M_bind]. now destruct (f a). Qed.

Lemma events_bind_normal {A B} l (a : A) (f : A -> M B) :
  events ((l, Normal a) ≫= f) = (l ++ events (f a))%list.
Proof. cbn [mbind M_bind]. now destruct (f a). Qed.

(** The second half never asks the remote service for a snapshot. *)
Lemma after_details_gets env world id r : gets (after_details env world id r) = [].
Proof.
  destruct r as [[wo|]|]; [|reflexivity..].
  unfold after_details.
  destruct (priority wo) as [p|]; [|reflexivity]. walk.
  destruct (JS.truthy p); [|reflexivity]. walk.
  change (default EmptyString (Some p)) with p.
  destruct (calculateDueDate_events (LocalTZA world) (now world) (Some p)) as [c E].
  unfold Handler.calculateDueDate. rewrite E.
  destruct (priority_warnings_filter (Some p)) as (G & _).
  destruct c as [[d|]|e]; walk; unfold gets; cbn [events fst].
  - destruct (JS.truthy d); walk.
    + rewrite update_step_fetch. cbn [events fst]. rewrite List.filter_app, G. cbn.
      apply update_outcome_fetch_gets.
    + now rewrite List.filter_app, G.
  - now rewrite List.filter_app, G.
  - exact G.
Qed.

Lemma after_details_completes env world id r :
  clock_in_range (LocalTZA world) (now world) ->
  completion (after_details env world id r) = Normal tt.
Proof.
  intros C. destruct r as [[wo|]|]; [|reflexivity..].
  destruct (priority wo) as [p|] eqn:P.
  - destruct (JS.truthy p) eqn:T.
    + now rewrite (after_details_with_priority _ _ _ _ _ P T C).
    + rewrite after_details_no_priority; [reflexivity|]. now rewrite P.
  - rewrite after_details_no_priority; [reflexivity|]. now rewrite P.
Qed.

Lemma processWebhookEvent_gets env world payload wo :
  newWorkOrder payload = Some wo ->
  gets (WebhookHandler.processWebhookEvent env world payload) = [].
Proof.
  intros W. unfold WebhookHandler.processWebhookEvent. rewrite W.
  destruct (priority wo) as [p|]; [|reflexivity]. walk.
  destruct (JS.truthy p); [|reflexivity]. walk.
  change (default EmptyString (Some p)) with p.
  destruct (calculateDueDate_events (LocalTZA world) (now world) (Some p)) as [c E].
  unfold Handler.calculateDueDate. rewrite E.
  destruct (priority_warnings_filter (Some p)) as (G & _).
  destruct c as [[d|]|e]; walk; unfold gets; cbn [events fst].
  - destruct (JS.truthy d); walk.
    + rewrite update_step. cbn [events fst]. rewrite List.filter_app, G. cbn.
      apply update_outcome_gets.
    + now rewrite List.filter_app, G.
  - now rewrite List.filter_app, G.
  - exact G.
Qed.

(** A run of the variant that fetches: the line that shows the payload, the
    resolution of the details, the second half. *)
Lemma processWebhookEvent_fetch_run env world payload pre r :
  WebhookHandlerFetch.resolve_details env world payload = (pre, Normal r) ->
  WebhookHandlerFetch.processWebhookEvent env world payload
  = ((Console LOG [AStr (Handler.received_message (workOrderId payload)); AJson payload]
      :: pre ++ events (after_details env world (workOrderId payload) r))%list,
     completion (after_details env world (workOrderId payload) r)).
Proof.
  intros R. rewrite processWebhookEvent_fetch_unfold, R. walk.
  now destruct (after_details _ _ _ _).
Qed.

(** ** The claims about the handler *)

(** C9: under a clock of this world, whatever the event and however the GET
    and the PATCH settle (a response, an error with any status, an error
    without a response, a native error), the promise is fulfilled in both
    variants: every failure is caught, ends the event only, and is logged,
    a rejected GET and a rejected PATCH each by a line of their own. *)
Theorem processWebhookEvent_never_rejects env world payload :
  clock_in_range (LocalTZA world) (now world) ->
  completion (WebhookHandler.processWebhookEvent env world payload) = Normal tt
  /\ completion (WebhookHandlerFetch.processWebhookEvent env world payload) = Normal tt
  /\ (forall wo p e,
        newWorkOrder payload = Some wo -> priority wo = Some p -> JS.truthy p = true ->
        axios_patch world (Handler.workorder_url env (workOrderId payload))
          (due_date world p) (Handler.maintainxApiHeaders env) = Rejected e ->
        In (match Handler.rate_limited e with
            | Some r => Console WARN [AStr (Handler.rate_limit_warning r)]
            | None =>
                Console ERROR
                  [AStr (Handler.update_failed_message (workOrderId payload));
                   Handler.error_payload e]
            end)
           (events (WebhookHandler.processWebhookEvent env world payload))
        /\ In (Console ERROR
                 [AStr (Handler.update_failed_message (workOrderId payload));
                  Handler.error_payload e])
              (events (WebhookHandlerFetch.processWebhookEvent env world payload)))
  /\ (forall e,
        newWorkOrder payload = None ->
        axios_get world (Handler.workorder_url env (workOrderId payload))
          (Handler.maintainxApiHeaders env) = Rejected e ->
        In (Console ERROR
              [AStr (Handler.fetch_failed_message (workOrderId payload));
               Handler.error_payload e])
           (events (WebhookHandlerFetch.processWebhookEvent env world payload))).
Proof.
  intros C. split; [|split; [|split]].
  - destruct (newWorkOrder payload) as [wo|] eqn:W.
    + destruct (priority wo) as [p|] eqn:P.
      * destruct (JS.truthy p) eqn:T.
        -- now rewrite (processWebhookEvent_with_priority _ _ _ _ _ W P T C).
        -- unfold WebhookHandler.processWebhookEvent. rewrite W, P. walk. now rewrite T.
      * unfold WebhookHandler.processWebhookEvent. now rewrite W, P.
    + unfold WebhookHandler.processWebhookEvent. now rewrite W.
  - destruct (newWorkOrder payload) as [wo|] eqn:W.
    + rewrite (processWebhookEvent_fetch_run _ _ _ _ _ (resolve_details_embedded _ _ _ _ W)).
      now apply after_details_completes.
    + rewrite (processWebhookEvent_fetch_run _ _ _ _ _ (resolve_details_fetched _ _ _ W)).
      now apply after_details_completes.
  - intros wo p e W P T A. split.
    + rewrite (processWebhookEvent_with_priority _ _ _ _ _ W P T C), A.
      cbn [events fst update_outcome]. apply in_or_app. right. right. right.
      destruct (Handler.rate_limited e); now left.
    + rewrite (processWebhookEvent_fetch_run _ _ _ _ _ (resolve_details_embedded _ _ _ _ W)).
      rewrite (after_details_with_priority _ _ _ _ _ P T C), A.
      cbn [events fst update_outcome_fetch app]. right.
      apply in_or_app. right. do 4 right. now left.
  - intros e W G.
    rewrite (processWebhookEvent_fetch_run _ _ _ _ _ (resolve_details_fetched _ _ _ W)), G.
    cbn [events fst fetch_outcome app]. do 3 right. now left.
Qed.

Lemma processWebhookEvent_never_rejects_witness :
  completion
    (WebhookHandler.processWebhookEvent test_env
       (test_world (Rejected server_error) (Rejected server_error))
       (event (Some (snapshot (Some "HIGH")))))
  = Normal tt
  /\ completion
       (WebhookHandlerFetch.processWebhookEvent test_env
          (test_world (Rejected server_error) (Rejected server_error))
          (event (Some (snapshot (Some "HIGH")))))
     = Normal tt.
Proof.
  assert (clock_in_range (fun _ _ => 0) 1718452800000) as C by test_clock.
  destruct (processWebhookEvent_never_rejects test_env
              (test_world (Rejected server_error) (Rejected server_error))
              (event (Some (snapshot (Some "HIGH")))) C)
    as (A & B & _).
  exact (conj A B).
Defined.

(** C8: when the snapshot the handler goes on with, embedded or fetched,
    has no priority, one line is logged at the informational level and the
    event ends there, in both variants: no due date, no PATCH, no warning and
    no error. *)
Theorem no_priority_is_a_no_op env world payload wo :
  JS.truthy_opt (priority wo) = false ->
  (newWorkOrder payload = Some wo ->
   WebhookHandler.processWebhookEvent env world payload
   = ([Console LOG [AStr (Handler.no_priority_message (workOrderId payload))]], Normal tt)
   /\ WebhookHandlerFetch.processWebhookEvent env world payload
      = ([Console LOG [AStr (Handler.received_message (workOrderId payload)); AJson payload];
          Console LOG [AStr (Handler.no_priority_message (workOrderId payload))]],
         Normal tt))
  /\ (newWorkOrder payload = None ->
      forall r,
        axios_get world (Handler.workorder_url env (workOrderId payload))
          (Handler.maintainxApiHeaders env) = Resolved r ->
        data r = DObject (Some wo) ->
        WebhookHandlerFetch.processWebhookEvent env world payload
        = ([Console LOG [AStr (Handler.received_message (workOrderId payload)); AJson payload];
            Console LOG [AStr (Handler.fetching_message (workOrderId payload))];
            HttpGet (Handler.workorder_url env (workOrderId payload))
              (Handler.maintainxApiHeaders env);
            Console LOG [AStr (Handler.fetched_message (workOrderId payload))];
            Console LOG [AStr (Handler.no_priority_message (workOrderId payload))]],
           Normal tt)).
Proof.
  intros P. split.
  - intros W. split.
    + unfold WebhookHandler.processWebhookEvent. now rewrite W, P.
    + rewrite (processWebhookEvent_fetch_run _ _ _ _ _ (resolve_details_embedded _ _ _ _ W)).
      now rewrite (after_details_no_priority _ _ _ _ P).
  - intros W r G D.
    rewrite (processWebhookEvent_fetch_run _ _ _ _ _ (resolve_details_fetched _ _ _ W)), G.
    unfold fetch_outcome, fetched_details. rewrite D.
    now rewrite (after_details_no_priority _ _ _ _ P).
Qed.

Lemma no_priority_is_a_no_op_witness :
  WebhookHandler.processWebhookEvent test_env
    (test_world (Resolved ok_response) (Resolved ok_response))
    (event (Some (snapshot None)))
  = ([Console LOG [AStr (Handler.no_priority_message 101)]], Normal tt)
  /\ WebhookHandlerFetch.processWebhookEvent test_env
       (test_world (Resolved ok_response) (Resolved ok_response))
       (event (Some (snapshot None)))
     = ([Console LOG [AStr (Handler.received_message 101); AJson (event (Some (snapshot None)))];
         Console LOG [AStr (Handler.no_priority_message 101)]],
        Normal tt).
Proof.
  apply (no_priority_is_a_no_op test_env
           (test_world (Resolved ok_response) (Resolved ok_response))
           (event (Some (snapshot None))) (snapshot None)); reflexivity.
Defined.

(** C5, as amended: an embedded snapshot is used as it is and no GET is
    issued, in both variants.  Without one, the variant that fetches issues
    exactly one GET, to [/workorders/{workOrderId}], and when that call fails
    it logs the failure and ends the event, no PATCH being issued; the
    variant of [src/webhookHandler.ts] issues no request at all: it logs that
    the snapshot is missing and ends the event. *)
Theorem snapshot_resolution env world payload :
  (forall wo, newWorkOrder payload = Some wo ->
     WebhookHandlerFetch.resolve_details env world payload = ([], Normal (Some (Some wo)))
     /\ gets (WebhookHandlerFetch.processWebhookEvent env world payload) = []
     /\ gets (WebhookHandler.processWebhookEvent env world payload) = [])
  /\ (newWorkOrder payload = None ->
      gets (WebhookHandlerFetch.processWebhookEvent env world payload)
      = [HttpGet (Handler.workorder_url env (workOrderId payload))
           (Handler.maintainxApiHeaders env)]
      /\ Handler.workorder_url env (workOrderId payload)
         = Handler.MAINTAINX_BASE_URL env ++ "/workorders/"
           ++ JS.string_of_Z (workOrderId payload)
      /\ (forall e,
            axios_get world (Handler.workorder_url env (workOrderId payload))
              (Handler.maintainxApiHeaders env) = Rejected e ->
            WebhookHandlerFetch.processWebhookEvent env world payload
            = ([Console LOG
                  [AStr (Handler.received_message (workOrderId payload)); AJson payload];
                Console LOG [AStr (Handler.fetching_message (workOrderId payload))];
                HttpGet (Handler.workorder_url env (workOrderId payload))
                  (Handler.maintainxApiHeaders env);
                Console ERROR
                  [AStr (Handler.fetch_failed_message (workOrderId payload));
                   Handler.error_payload e]],
               Normal tt))
      /\ (forall r what,
            axios_get world (Handler.workorder_url env (workOrderId payload))
              (Handler.maintainxApiHeaders env) = Resolved r ->
            Handler.nullish (data r) = Some what ->
            WebhookHandlerFetch.processWebhookEvent env world payload
            = ([Console LOG
                  [AStr (Handler.received_message (workOrderId payload)); AJson payload];
                Console LOG [AStr (Handler.fetching_message (workOrderId payload))];
                HttpGet (Handler.workorder_url env (workOrderId payload))
                  (Handler.maintainxApiHeaders env);
                Console ERROR
                  [AStr (Handler.fetch_failed_message (workOrderId payload));
                   AStr (Handler.cannot_read what)]],
               Normal tt))
      /\ WebhookHandler.processWebhookEvent env world payload
         = ([Console LOG [AStr (Handler.missing_snapshot_message (workOrderId payload))]],
            Normal tt)).
Proof.
  split.
  - intros wo W. split; [now apply resolve_details_embedded|]. split.
    + rewrite (processWebhookEvent_fetch_run _ _ _ _ _ (resolve_details_embedded _ _ _ _ W)).
      apply after_details_gets.
    + now apply (processWebhookEvent_gets _ _ _ wo).
  - intros W. split; [|split; [reflexivity|split; [|split]]].
    + rewrite (processWebhookEvent_fetch_run _ _ _ _ _ (resolve_details_fetched _ _ _ W)).
      unfold gets. cbn [events fst List.filter is_get app].
      rewrite List.filter_app, fetch_outcome_gets. cbn [app]. f_equal.
      apply after_details_gets.
    + intros e G.
      rewrite (processWebhookEvent_fetch_run _ _ _ _ _ (resolve_details_fetched _ _ _ W)), G.
      reflexivity.
    + intros r what G D.
      rewrite (processWebhookEvent_fetch_run _ _ _ _ _ (resolve_details_fetched _ _ _ W)), G.
      unfold fetch_outcome, fetched_details. rewrite D.
      destruct (data r); try discriminate D; reflexivity.
    + unfold WebhookHandler.processWebhookEvent. now rewrite W.
Qed.

(** C5, as stated, fails on [src/webhookHandler.ts]: an event without a
    snapshot leads to no GET there. *)
Lemma no_fetch_without_snapshot :
  WebhookHandler.processWebhookEvent test_env
    (test_world (Resolved ok_response) (Resolved ok_response)) (event None)
  = ([Console LOG
        [AStr "[processWebhookEvent] Work Order event for WO 101 missing newWorkOrder data. Skipping automation."]],
     Normal tt).
Proof. reflexivity. Qed.

(** ** A rate-limited update *)

Lemma rate_limited_429 msg r :
  status r = 429 -> Handler.rate_limited (AxiosError msg (Some r)) = Some r.
Proof. intros S. unfold Handler.rate_limited. cbn. now rewrite S. Qed.

Lemma rate_limited_other msg r :
  status r <> 429 -> Handler.rate_limited (AxiosError msg (Some r)) = None.
Proof.
  intros S. unfold Handler.rate_limited. cbn.
  destruct (Z.eqb_spec (status r) 429); [contradiction|reflexivity].
Qed.

Lemma retryAfter_spec r :
  (headers r !! "x-rate-limit-reset" = None -> Handler.retryAfter r = "10")
  /\ (forall v, headers r !! "x-rate-limit-reset" = Some v -> v <> EmptyString ->
      Handler.retryAfter r = v).
Proof.
  unfold Handler.retryAfter, JS.or_else. split.
  - now intros ->.
  - intros v -> N. now rewrite (proj2 (truthy_spec v) N).
Qed.

(** [src/webhookHandler.ts]: an update refused with the status 429 gives one
    warning, which holds the value of [x-rate-limit-reset] (or 10), and no
    error line. *)
Lemma rate_limit_is_a_warning env world payload wo p msg r :
  newWorkOrder payload = Some wo -> priority wo = Some p -> JS.truthy p = true ->
  clock_in_range (LocalTZA world) (now world) ->
  axios_patch world (Handler.workorder_url env (workOrderId payload)) (due_date world p)
    (Handler.maintainxApiHeaders env) = Rejected (AxiosError msg (Some r)) ->
  status r = 429 ->
  logs ERROR (WebhookHandler.processWebhookEvent env world payload) = []
  /\ logs WARN (WebhookHandler.processWebhookEvent env world payload)
     = (priority_warnings (Some p)
        ++ [Console WARN [AStr (Handler.rate_limit_warning r)]])%list
  /\ JS.Includes (Handler.rate_limit_warning r) (Handler.retryAfter r).
Proof.
  intros W P T C A S.
  rewrite (processWebhookEvent_with_priority _ _ _ _ _ W P T C), A.
  destruct (priority_warnings_filter (Some p)) as (_ & _ & E & Wn).
  unfold logs, update_outcome. rewrite (rate_limited_429 _ _ S).
  cbn [events fst]. rewrite !List.filter_app, E, Wn. repeat split.
  apply Includes_mid.
Qed.

(** [src/webhookHandler.ts]: an update that fails in any other way gives one
    error line, with the body of the response or else the message of the
    error, and no warning of its own. *)
Lemma other_failure_is_an_error env world payload wo p e :
  newWorkOrder payload = Some wo -> priority wo = Some p -> JS.truthy p = true ->
  clock_in_range (LocalTZA world) (now world) ->
  axios_patch world (Handler.workorder_url env (workOrderId payload)) (due_date world p)
    (Handler.maintainxApiHeaders env) = Rejected e ->
  Handler.rate_limited e = None ->
  logs ERROR (WebhookHandler.processWebhookEvent env world payload)
  = [Console ERROR
       [AStr (Handler.update_failed_message (workOrderId payload)); Handler.error_payload e]]
  /\ logs WARN (WebhookHandler.processWebhookEvent env world payload)
     = priority_warnings (Some p)
  /\ (forall r, error_response e = Some r -> Handler.error_payload e = AData (data r))
  /\ (error_response e = None -> Handler.error_payload e = AStr (error_message e)).
Proof.
  intros W P T C A R.
  rewrite (processWebhookEvent_with_priority _ _ _ _ _ W P T C), A.
  destruct (priority_warnings_filter (Some p)) as (_ & _ & E & Wn).
  unfold logs, update_outcome. rewrite R.
  cbn [events fst]. rewrite !List.filter_app, E, Wn. cbn.
  rewrite app_nil_r. repeat split.
  - intros r H. unfold Handler.error_payload. now rewrite H.
  - intros H. unfold Handler.error_payload. now rewrite H.
Qed.

(** C4 (what the code does instead, in the variant that fetches): an update
    refused with the status 429 gives an error line, with the body of the
    response, and then the warning. *)
Theorem fetch_variant_logs_an_error_when_rate_limited env world payload wo p msg r :
  newWorkOrder payload = Some wo -> priority wo = Some p -> JS.truthy p = true ->
  clock_in_range (LocalTZA world) (now world) ->
  axios_patch world (Handler.workorder_url env (workOrderId payload)) (due_date world p)
    (Handler.maintainxApiHeaders env) = Rejected (AxiosError msg (Some r)) ->
  status r = 429 ->
  logs ERROR (WebhookHandlerFetch.processWebhookEvent env world payload)
  = [Console ERROR
       [AStr (Handler.update_failed_message (workOrderId payload)); AData (data r)]]
  /\ logs WARN (WebhookHandlerFetch.processWebhookEvent env world payload)
     = (priority_warnings (Some p)
        ++ [Console WARN [AStr (Handler.rate_limit_warning r)]])%list.
Proof.
  intros W P T C A S.
  rewrite (processWebhookEvent_fetch_run _ _ _ _ _ (resolve_details_embedded _ _ _ _ W)).
  rewrite (after_details_with_priority _ _ _ _ _ P T C), A.
  destruct (priority_warnings_filter (Some p)) as (_ & _ & E & Wn).
  unfold logs, update_outcome_fetch. rewrite (rate_limited_429 _ _ S).
  cbn [events fst app List.filter is_console]. rewrite !List.filter_app, E, Wn.
  split; reflexivity.
Qed.

Lemma fetch_variant_logs_an_error_on_429 :
  logs ERROR
    (WebhookHandlerFetch.processWebhookEvent test_env
       (test_world (Rejected server_error) (Rejected rate_limit_error))
       (event (Some (snapshot (Some "HIGH")))))
  = [Console ERROR
       [AStr (Handler.update_failed_message 101); AData (DText "Too Many Requests")]]
  /\ logs WARN
       (WebhookHandlerFetch.processWebhookEvent test_env
          (test_world (Rejected server_error) (Rejected rate_limit_error))
          (event (Some (snapshot (Some "HIGH")))))
     = (priority_warnings (Some "HIGH")
        ++ [Console WARN [AStr (Handler.rate_limit_warning rate_limit_response)]])%list.
Proof.
  apply (fetch_variant_logs_an_error_when_rate_limited test_env
           (test_world (Rejected server_error) (Rejected rate_limit_error))
           (event (Some (snapshot (Some "HIGH")))) (snapshot (Some "HIGH")) "HIGH"
           "Request failed with status code 429" rate_limit_response).
  - reflexivity.
  - reflexivity.
  - reflexivity.
  - test_clock.
  - reflexivity.
  - reflexivity.
Defined.

Lemma rate_limit_is_a_warning_witness :
  logs ERROR
    (WebhookHandler.processWebhookEvent test_env
       (test_world (Rejected server_error) (Rejected rate_limit_error))
       (event (Some (snapshot (Some "HIGH")))))
  = []
  /\ logs WARN
       (WebhookHandler.processWebhookEvent test_env
          (test_world (Rejected server_error) (Rejected rate_limit_error))
          (event (Some (snapshot (Some "HIGH")))))
     = (priority_warnings (Some "HIGH")
        ++ [Console WARN [AStr (Handler.rate_limit_warning rate_limit_response)]])%list
  /\ JS.Includes (Handler.rate_limit_warning rate_limit_response)
       (Handler.retryAfter rate_limit_response).
Proof.
  apply (rate_limit_is_a_warning test_env
           (test_world (Rejected server_error) (Rejected rate_limit_error))
           (event (Some (snapshot (Some "HIGH")))) (snapshot (Some "HIGH")) "HIGH"
           "Request failed with status code 429" rate_limit_response).
  - reflexivity.
  - reflexivity.
  - reflexivity.
  - test_clock.
  - reflexivity.
  - reflexivity.
Defined.

Lemma other_failure_is_an_error_witness :
  logs ERROR
    (WebhookHandler.processWebhookEvent test_env
       (test_world (Rejected rate_limit_error) (Rejected server_error))
       (event (Some (snapshot (Some "HIGH")))))
  = [Console ERROR [AStr (Handler.update_failed_message 101); Handler.error_payload server_error]]
  /\ logs WARN
       (WebhookHandler.processWebhookEvent test_env
          (test_world (Rejected rate_limit_error) (Rejected server_error))
          (event (Some (snapshot (Some "HIGH")))))
     = priority_warnings (Some "HIGH")
  /\ (forall r, error_response server_error = Some r ->
      Handler.error_payload server_error = AData (data r))
  /\ (error_response server_error = None ->
      Handler.error_payload server_error = AStr (error_message server_error)).
Proof.
  apply (other_failure_is_an_error test_env
           (test_world (Rejected rate_limit_error) (Rejected server_error))
           (event (Some (snapshot (Some "HIGH")))) (snapshot (Some "HIGH")) "HIGH"
           server_error).
  - reflexivity.
  - reflexivity.
  - reflexivity.
  - test_clock.
  - reflexivity.
  - reflexivity.
Defined.

(** ** Decimal numerals *)

Lemma digit_char_plain d :
  0 <= d < 10 ->
  Ascii.eqb (JS.digit_char d) "," = false /\ Ascii.eqb (JS.digit_char d) "=" = false.
Proof.
  revert d. apply (below_cases 10). intros i H.
  do 10 (destruct i as [|i]; [split; reflexivity|]). lia.
Qed.

(** A numeral is not trimmed. *)
Lemma trim_start_digit d r :
  0 <= d < 10 -> JS.trim_start (String (JS.digit_char d) r) = String (JS.digit_char d) r.
Proof.
  revert d. apply (below_cases 10). intros i H.
  do 10 (destruct i as [|i]; [destruct r as [|c1 [|c2 r2]]; reflexivity|]). lia.
Qed.

Lemma trim_start_minus r : JS.trim_start (String "-" r) = String "-" r.
Proof. destruct r as [|c1 [|c2 r2]]; reflexivity. Qed.

Lemma digits_of_digits fuel n :
  0 <= n ->
  Forall (fun c => exists d, 0 <= d < 10 /\ c = JS.digit_char d) (JS.digits_of fuel n).
Proof.
  revert n. induction fuel as [|f IH]; intros n H; cbn [JS.digits_of]; [constructor|].
  constructor.
  - exists (n mod 10). split; [zdiv|reflexivity].
  - destruct (n <? 10); [constructor|]. apply IH. zdiv.
Qed.

(** The digits written are those of the number, when there is room for them. *)
Lemma digits_of_value fuel n :
  0 <= n < 10 ^ Z.of_nat fuel ->
  numeral_value 0 (rev (JS.digits_of fuel n)) = n.
Proof.
  revert n. induction fuel as [|f IH]; intros n H.
  - cbn in H. cbn. lia.
  - cbn [JS.digits_of]. cbn [rev]. unfold numeral_value in *. rewrite fold_left_app.
    cbn [fold_left].
    destruct (digit_char_spec (n mod 10)) as (_ & -> & _); [zdiv|].
    destruct (Z.ltb_spec n 10) as [L|L].
    + cbn. zdiv.
    + rewrite IH; [zdiv|].
      rewrite Nat2Z.inj_succ, Z.pow_succ_r in H by lia. zdiv.
Qed.

Lemma digits_numeral acc l rest :
  Forall (fun c => exists d, 0 <= d < 10 /\ c = JS.digit_char d) l -> l <> [] ->
  JS.digits acc (string_of_list_ascii l ++ rest)
  = JS.digits (Some (numeral_value (default 0 acc) l)) rest.
Proof.
  intros F. revert acc. induction F as [|c l (d & D & ->) F IH]; intros acc N; [congruence|].
  cbn [string_of_list_ascii]. rewrite append_cons. cbn [JS.digits].
  destruct (digit_char_spec d D) as (-> & V & _).
  destruct l as [|c' l'].
  - reflexivity.
  - rewrite IH by discriminate. reflexivity.
Qed.

Lemma digits_stop acc rest :
  match rest with String c _ => JS.is_digit c = false | EmptyString => True end ->
  JS.digits acc rest = acc.
Proof. destruct rest as [|c r]; [reflexivity|]. cbn. now intros ->. Qed.

Lemma log2_room a : 0 <= a -> a < 10 ^ Z.of_nat (S (Z.to_nat (Z.log2 a))).
Proof.
  intros H. destruct (Z.eq_dec a 0) as [->|N]; [reflexivity|].
  pose proof (Z.log2_nonneg a) as L.
  pose proof (Z.log2_spec a ltac:(lia)) as [_ U].
  rewrite Nat2Z.inj_succ, Z2Nat.id by lia.
  eapply Z.lt_le_trans; [exact U|].
  apply Z.pow_le_mono_l. lia.
Qed.

Lemma string_of_Z_numeral n :
  JS.string_of_Z n
  = if n <? 0 then String "-" (string_of_list_ascii (numeral (Z.abs n)))
    else string_of_list_ascii (numeral (Z.abs n)).
Proof. reflexivity. Qed.

Lemma numeral_spec a :
  0 <= a ->
  Forall (fun c => exists d, 0 <= d < 10 /\ c = JS.digit_char d) (numeral a)
  /\ numeral a <> [] /\ numeral_value 0 (numeral a) = a.
Proof.
  intros H. unfold numeral. split; [|split].
  - apply Forall_rev. now apply digits_of_digits.
  - cbn [JS.digits_of rev]. intros E. now apply app_eq_nil in E as [_ E].
  - apply digits_of_value. split; [lia|now apply log2_room].
Qed.

(** [parseInt] reads a numeral, up to the first character that is no digit. *)
Lemma parseInt_string_of_Z n rest :
  match rest with String c _ => JS.is_digit c = false | EmptyString => True end ->
  JS.parseInt (JS.string_of_Z n ++ rest) = Some n.
Proof.
  intros R. rewrite string_of_Z_numeral.
  destruct (numeral_spec (Z.abs n) (Z.abs_nonneg n)) as (F & N & V).
  destruct (Z.ltb_spec n 0) as [L|L].
  - rewrite append_cons. unfold JS.parseInt. rewrite trim_start_minus.
    rewrite (digits_numeral _ _ _ F N), (digits_stop _ _ R).
    change (default 0 None) with 0. rewrite V. cbn. f_equal. lia.
  - destruct (numeral (Z.abs n)) as [|c l] eqn:E; [congruence|].
    pose proof (Forall_inv F) as (d & D & ->).
    unfold JS.parseInt. cbn [string_of_list_ascii]. rewrite append_cons.
    rewrite (trim_start_digit _ _ D).
    assert (forall r,
      match String (JS.digit_char d) r with
      | String "-" r0 => Z.opp <$> JS.digits None r0
      | String "+" r0 => JS.digits None r0
      | t => JS.digits None t
      end = JS.digits None (String (JS.digit_char d) r)) as ->.
    { revert D. clear. revert d.
      refine (below_cases 10 _ _). intros i H r.
      do 10 (destruct i as [|i]; [reflexivity|]). lia. }
    rewrite <- append_cons. change (String (JS.digit_char d) (string_of_list_ascii l))
      with (string_of_list_ascii (JS.digit_char d :: l)).
    rewrite (digits_numeral _ _ _ F N), (digits_stop _ _ R).
    change (default 0 None) with 0. rewrite V. f_equal. lia.
Qed.

Lemma string_of_Z_plain n :
  JS.has_char "," (JS.string_of_Z n) = false /\ JS.has_char "=" (JS.string_of_Z n) = false
  /\ JS.string_of_Z n <> EmptyString.
Proof.
  rewrite string_of_Z_numeral.
  destruct (numeral_spec (Z.abs n) (Z.abs_nonneg n)) as (F & N & _).
  assert (JS.has_char "," (string_of_list_ascii (numeral (Z.abs n))) = false
          /\ JS.has_char "=" (string_of_list_ascii (numeral (Z.abs n))) = false) as [A B].
  { clear N. induction F as [|c l (d & D & ->) F [IH1 IH2]]; [split; reflexivity|].
    cbn [string_of_list_ascii JS.has_char].
    destruct (digit_char_plain d D) as [-> ->]. now rewrite IH1, IH2. }
  destruct (n <? 0).
  - cbn [JS.has_char]. rewrite A, B. repeat split. discriminate.
  - repeat split; [exact A|exact B|].
    destruct (numeral (Z.abs n)); [congruence|discriminate].
Qed.

(** * More about [verifyWebhookSignature] *)

Lemma split_second_none sep s : JS.has_char sep s = false -> JS.split sep s !! 1%nat = None.
Proof. intros H. now rewrite (split_none _ _ H). Qed.

Lemma hex_digit_lower n : 0 <= n < 16 -> is_lower_hex (Bytes.hex_digit n) = true.
Proof.
  revert n. apply (below_cases 16). intros i H.
  do 16 (destruct i as [|i]; [reflexivity|]). lia.
Qed.

Lemma hex_lower bs : lower_hex (Bytes.hex bs) = true.
Proof.
  induction bs as [|b r IH]; [reflexivity|].
  cbn [Bytes.hex fold_right Bytes.hex_of_byte lower_hex]. fold (Bytes.hex r).
  rewrite !hex_digit_lower by zdiv. exact IH.
Qed.

(** What an accepted request looks like. *)
Lemma verify_true_inv now h b secret tol :
  completion (Utils.verifyWebhookSignature now h b secret tol) = Normal true ->
  exists hd body ts,
    h = Some hd /\ b = Some body
    /\ Utils.parse_header hd = (Some ts, Some (Utils.expectedSignature secret ts body))
    /\ ts <> EmptyString
    /\ Utils.isFresh now ((fun t => t * 1000) <$> JS.parseInt ts) (default 5 tol) = true.
Proof.
  destruct h as [hd|]; [|discriminate].
  destruct (String.eqb_spec hd EmptyString) as [->|N]; [discriminate|].
  destruct b as [body|].
  2:{ unfold Utils.verifyWebhookSignature. cbn [JS.truthy_opt].
      rewrite (proj2 (truthy_spec hd) N). discriminate. }
  destruct (Utils.parse_header hd) as [[ts|] [sig|]] eqn:P.
  - destruct (String.eqb_spec ts EmptyString) as [->|T].
    { verify_rejects hd N P. discriminate. }
    destruct (String.eqb_spec sig EmptyString) as [->|S].
    { verify_rejects hd N P. discriminate. }
    rewrite (verify_unfold _ _ _ _ _ _ _ P T S).
    intros [-> F]%verify_parsed_true. now exists hd, body, ts.
  - verify_rejects hd N P. discriminate.
  - verify_rejects hd N P. discriminate.
  - verify_rejects hd N P. discriminate.
Qed.

Lemma expectedSignature_nonempty secret ts body :
  Utils.expectedSignature secret ts body <> EmptyString.
Proof.
  intros E. pose proof (expectedSignature_length secret ts body) as L.
  rewrite E in L. discriminate L.
Qed.

(** The header of the tests is read back as its time stamp and its digest. *)
Lemma parse_signatureHeader secret t payload :
  Utils.parse_header (UtilsTest.signatureHeader secret t payload)
  = (Some (JS.string_of_Z t),
     Some (Bytes.hex (SHA256.hmac_sha256 (Bytes.of_string secret)
                        (Bytes.of_string (JS.string_of_Z t ++ "." ++ payload))))).
Proof.
  unfold UtilsTest.signatureHeader.
  destruct (string_of_Z_plain t) as (C & E & _).
  destruct (hex_plain (SHA256.hmac_sha256 (Bytes.of_string secret)
              (Bytes.of_string (JS.string_of_Z t ++ "." ++ payload)))) as [HE HC].
  pose proof (parse_header_pairs "t" (JS.string_of_Z t) "v1"
                (Bytes.hex (SHA256.hmac_sha256 (Bytes.of_string secret)
                   (Bytes.of_string (JS.string_of_Z t ++ "." ++ payload))))
                EmptyString) as P.
  rewrite !(upto_none "=") in P by assumption.
  rewrite append_empty_r in P.
  apply P; try reflexivity; try assumption. now left.
Qed.

(** X4: a request signed as the tests sign it is accepted exactly while it
    is fresh, and refused with the line of the stale time stamp afterwards. *)
Theorem signed_request_is_accepted_while_fresh now secret t payload tol :
  JS.Buffer_toString_utf8 (JS.Buffer_from payload) = payload ->
  - JSDate.maxTime <= t * 1000 <= JSDate.maxTime ->
  - JSDate.maxTime <= now <= JSDate.maxTime ->
  (now - t * 1000 < default 5 tol * 60 * 1000 ->
   Utils.verifyWebhookSignature now (Some (UtilsTest.signatureHeader secret t payload))
     (Some (JS.Buffer_from payload)) secret tol
   = ([], Normal true))
  /\ (default 5 tol * 60 * 1000 <= now - t * 1000 ->
      Utils.verifyWebhookSignature now (Some (UtilsTest.signatureHeader secret t payload))
        (Some (JS.Buffer_from payload)) secret tol
      = ([stale_timestamp_error (t * 1000) now], Normal false)).
Proof.
  intros U Rt Rn.
  pose proof (parse_signatureHeader secret t payload) as P.
  destruct (string_of_Z_plain t) as (_ & _ & T).
  assert (Bytes.hex (SHA256.hmac_sha256 (Bytes.of_string secret)
                       (Bytes.of_string (JS.string_of_Z t ++ "." ++ payload)))
          = Utils.expectedSignature secret (JS.string_of_Z t) (JS.Buffer_from payload)) as E.
  { unfold Utils.expectedSignature. now rewrite U. }
  rewrite E in P.
  rewrite (verify_unfold _ _ _ _ _ _ _ P T (expectedSignature_nonempty _ _ _)).
  pose proof (parseInt_string_of_Z t EmptyString I) as I. rewrite append_empty_r in I.
  split.
  - intros F. apply verify_parsed_accepts. rewrite I. now apply isFresh_spec.
  - intros S. now apply verify_parsed_stale.
Qed.

(** Texts of ASCII characters go through a [Buffer] unchanged. *)
Lemma toString_ascii s :
  forallb (fun b => b <=? 0x7F) (Bytes.of_string s) = true ->
  JS.Buffer_toString_utf8 (JS.Buffer_from s) = s.
Proof.
  unfold JS.Buffer_toString_utf8, JS.Buffer_from.
  induction s as [|c r IH]; [reflexivity|].
  cbn [Bytes.of_string forallb]. intros [A B]%andb_prop.
  cbn [JS.utf8_decode]. unfold JS.utf8_start. rewrite A. cbn [app].
  unfold JS.string_of_bytes in *. cbn [map string_of_list_ascii].
  rewrite (IH B). f_equal.
  unfold Bytes.byte_of_ascii. rewrite N2Z.id. apply ascii_N_embedding.
Qed.

Lemma signed_request_is_accepted_while_fresh_witness :
  Utils.verifyWebhookSignature 1718452920000
    (Some (UtilsTest.signatureHeader "test_secret_123" 1718452800 "{key:value}"))
    (Some (JS.Buffer_from "{key:value}")) "test_secret_123" None
  = ([], Normal true).
Proof.
  apply (signed_request_is_accepted_while_fresh 1718452920000 "test_secret_123"
           1718452800 "{key:value}" None).
  - reflexivity.
  - unfold JSDate.maxTime. lia.
  - unfold JSDate.maxTime. lia.
  - cbn [default]. lia.
Defined.

(** X5: a missing or empty header, a missing body and a header without two
    [key=value] segments are refused with the line of their case, and
    nothing is thrown. *)
Theorem incomplete_requests_are_refused now h b secret tol :
  (JS.truthy_opt h = false ->
   Utils.verifyWebhookSignature now h b secret tol = ([missing_header_error], Normal false))
  /\ (JS.truthy_opt h = true -> b = None ->
      Utils.verifyWebhookSignature now h b secret tol = ([missing_body_error], Normal false))
  /\ (forall hd,
        h = Some hd -> hd <> EmptyString -> b <> None ->
        JS.has_char "," hd = false \/ JS.has_char "=" (JS.upto "," hd) = false ->
        Utils.verifyWebhookSignature now h b secret tol
        = ([malformed_header_error], Normal false))
  /\ (forall seg1 seg2 more,
        h = Some (seg1 ++ "," ++ seg2 ++ more) -> b <> None ->
        JS.has_char "," seg1 = false -> JS.has_char "," seg2 = false ->
        JS.has_char "=" seg2 = false ->
        more = EmptyString \/ (exists m, more = String "," m) ->
        Utils.verifyWebhookSignature now h b secret tol
        = ([malformed_header_error], Normal false)).
Proof.
  split; [|split; [|split]].
  - intros H. unfold Utils.verifyWebhookSignature. now rewrite H.
  - intros H ->. unfold Utils.verifyWebhookSignature. now rewrite H.
  - intros hd -> N B M. destruct b as [body|]; [clear B|congruence].
    assert (fst (Utils.parse_header hd) = None \/ snd (Utils.parse_header hd) = None) as Q.
    { unfold Utils.parse_header. destruct M as [M|M].
      - right. rewrite (split_second_none _ _ M). reflexivity.
      - left. rewrite split_head. cbn [JS.truthy_opt].
        change (default EmptyString (Some ?x)) with x.
        rewrite (split_second_none _ _ M). now destruct (JS.truthy _). }
    destruct (Utils.parse_header hd) as [ts sig] eqn:P. cbn [fst snd] in Q.
    verify_rejects hd N P.
    destruct Q as [-> | ->]; cbn [JS.truthy_opt negb orb]; rewrite ?orb_true_r; reflexivity.
  - intros seg1 seg2 more -> B C1 C2 E M. destruct b as [body|]; [clear B|congruence].
    destruct (header_segments _ _ _ C1 C2 M) as [P0 P1].
    assert (seg1 ++ "," ++ seg2 ++ more <> EmptyString) as N.
    { destruct seg1; discriminate. }
    assert (snd (Utils.parse_header (seg1 ++ "," ++ seg2 ++ more)) = None) as Q.
    { unfold Utils.parse_header. rewrite P1. cbn [JS.truthy_opt snd].
      change (default EmptyString (Some ?x)) with x.
      rewrite (split_second_none _ _ E). now destruct (JS.truthy _). }
    destruct (Utils.parse_header _) as [ts sig] eqn:P. cbn [snd] in Q. subst sig.
    verify_rejects (seg1 ++ "," ++ seg2 ++ more) N P. reflexivity.
Qed.

Lemma incomplete_requests_are_refused_witness :
  Utils.verifyWebhookSignature 1718452920000 (Some "t=1718452800") (Some "{key:value}")
    "test_secret_123" None
  = ([malformed_header_error], Normal false).
Proof.
  destruct (incomplete_requests_are_refused 1718452920000 (Some "t=1718452800")
              (Some "{key:value}") "test_secret_123" None) as (_ & _ & A & _).
  apply (A "t=1718452800"); [reflexivity|discriminate|discriminate|now left].
Defined.

(** X6: a digest of the right length that is not the expected one is refused
    with the line of the mismatch, followed by the line of the stale time
    stamp when the request is stale as well. *)
Theorem wrong_digest_is_refused now hd body secret tol ts sig t :
  Utils.parse_header hd = (Some ts, Some sig) ->
  ts <> EmptyString ->
  String.length sig = 64%nat ->
  sig <> Utils.expectedSignature secret ts body ->
  JS.parseInt ts = Some t ->
  - JSDate.maxTime <= t * 1000 <= JSDate.maxTime ->
  - JSDate.maxTime <= now <= JSDate.maxTime ->
  Utils.verifyWebhookSignature now (Some hd) (Some body) secret tol
  = (signature_mismatch_error
     :: (if now - t * 1000 <? default 5 tol * 60 * 1000 then []
         else [stale_timestamp_error (t * 1000) now]),
     Normal false).
Proof.
  intros P T L D I Rt Rn.
  assert (sig <> EmptyString) as S by (intros ->; discriminate L).
  rewrite (verify_unfold _ _ _ _ _ _ _ P T S).
  unfold verify_parsed, timingSafeEqual, JS.Buffer_from.
  rewrite expectedSignature_length, L, I.
  destruct (String.eqb_spec sig (Utils.expectedSignature secret ts body)) as [E|_];
    [contradiction|].
  generalize (Utils.expectedSignature secret ts body) as expected. intros expected.
  cbn [Nat.eqb fmap option_fmap option_map]. unfold Utils.isFresh.
  destruct (now - t * 1000 <? default 5 tol * 60 * 1000).
  - reflexivity.
  - cbn [mbind option_bind]. rewrite (TimeClip_in_range _ Rt), (TimeClip_in_range _ Rn).
    reflexivity.
Qed.

Lemma wrong_digest_is_refused_witness :
  Utils.verifyWebhookSignature 1718453400000
    (Some "t=1718452800,v1=af44af8135a8ba84acf3d482f707159a0a8e1e4234c0cd7f72241d05969e52d8")
    (Some "{key:value}") "test_secret_123" None
  = ([signature_mismatch_error; stale_timestamp_error 1718452800000 1718453400000],
     Normal false).
Proof.
  apply (wrong_digest_is_refused 1718453400000
           "t=1718452800,v1=af44af8135a8ba84acf3d482f707159a0a8e1e4234c0cd7f72241d05969e52d8"
           "{key:value}" "test_secret_123" None "1718452800"
           "af44af8135a8ba84acf3d482f707159a0a8e1e4234c0cd7f72241d05969e52d8" 1718452800).
  - reflexivity.
  - discriminate.
  - reflexivity.
  - vm_compute. discriminate.
  - reflexivity.
  - unfold JSDate.maxTime. lia.
  - unfold JSDate.maxTime. lia.
Defined.

(** X7: the digest of an accepted request is 64 characters of [0-9a-f]: a
    digest in upper case, or of another length, is never accepted. *)
Theorem accepted_digest_is_lower_case_hex now h b secret tol :
  completion (Utils.verifyWebhookSignature now h b secret tol) = Normal true ->
  exists hd ts sig,
    h = Some hd /\ Utils.parse_header hd = (Some ts, Some sig)
    /\ String.length sig = 64%nat /\ lower_hex sig = true.
Proof.
  intros (hd & body & ts & -> & -> & P & _)%verify_true_inv.
  exists hd, ts, (Utils.expectedSignature secret ts body).
  split; [reflexivity|]. split; [exact P|].
  split; [apply expectedSignature_length|apply hex_lower].
Qed.

Lemma accepted_digest_is_lower_case_hex_witness :
  exists hd ts sig,
    Some "t=1718452800,v1=2f44af8135a8ba84acf3d482f707159a0a8e1e4234c0cd7f72241d05969e52d8"
    = Some hd
    /\ Utils.parse_header hd = (Some ts, Some sig)
    /\ String.length sig = 64%nat /\ lower_hex sig = true.
Proof.
  apply (accepted_digest_is_lower_case_hex 1718452920000
           (Some "t=1718452800,v1=2f44af8135a8ba84acf3d482f707159a0a8e1e4234c0cd7f72241d05969e52d8")
           (Some "{key:value}") "test_secret_123" None).
  vm_compute. reflexivity.
Defined.

(** X8: what is accepted stays accepted at any earlier instant and under any
    larger tolerance: a request is never accepted again after it was found
    stale, and a smaller tolerance never accepts more. *)
Theorem acceptance_is_monotone now now' h b secret m m' :
  completion (Utils.verifyWebhookSignature now h b secret (Some m)) = Normal true ->
  now' <= now -> m <= m' ->
  Utils.verifyWebhookSignature now' h b secret (Some m') = ([], Normal true).
Proof.
  intros (hd & body & ts & -> & -> & P & T & F)%verify_true_inv N M.
  rewrite (verify_unfold _ _ _ _ _ _ _ P T (expectedSignature_nonempty _ _ _)).
  apply verify_parsed_accepts.
  change (default 5 (Some m)) with m in F. change (default 5 (Some m')) with m'.
  destruct (JS.parseInt ts) as [t|]; [|discriminate F].
  cbn [fmap option_fmap option_map] in *. unfold Utils.isFresh in *.
  apply Z.ltb_lt in F. apply Z.ltb_lt. lia.
Qed.

Lemma acceptance_is_monotone_witness :
  Utils.verifyWebhookSignature 1718452800000
    (Some "t=1718452800,v1=2f44af8135a8ba84acf3d482f707159a0a8e1e4234c0cd7f72241d05969e52d8")
    (Some "{key:value}") "test_secret_123" (Some 10)
  = ([], Normal true).
Proof.
  apply (acceptance_is_monotone 1718452920000 1718452800000
           (Some "t=1718452800,v1=2f44af8135a8ba84acf3d482f707159a0a8e1e4234c0cd7f72241d05969e52d8")
           (Some "{key:value}") "test_secret_123" 5 10).
  - vm_compute. reflexivity.
  - lia.
  - lia.
Defined.

(** ** Bytes that are no UTF-8 *)

Lemma of_string_app a b : Bytes.of_string (a ++ b) = (Bytes.of_string a ++ Bytes.of_string b)%list.
Proof.
  induction a as [|c a IH]; [reflexivity|].
  rewrite append_cons. cbn [Bytes.of_string app]. now rewrite IH.
Qed.

Lemma utf8_start_expects b : expects_continuation (fst (JS.utf8_start b)).
Proof.
  unfold JS.utf8_start.
  repeat match goal with |- context [if ?c then _ else _] => destruct c end;
    cbn; lia.
Qed.

(** The bytes [0xFE] and [0xFF], which no UTF-8 text holds, are decoded
    alike wherever they stand. *)
Lemma utf8_decode_invalid l r st :
  expects_continuation st ->
  JS.utf8_decode st (l ++ 0xFF :: r) = JS.utf8_decode st (l ++ 0xFE :: r).
Proof.
  revert st. induction l as [|b l IH]; intros st G.
  - cbn [app JS.utf8_decode]. destruct st as [s|]; [|reflexivity].
    cbn in G.
    destruct (Z.leb_spec 0xFF (JS.hi s)); [lia|].
    destruct (Z.leb_spec 0xFE (JS.hi s)); [lia|].
    rewrite !andb_false_r. reflexivity.
  - cbn [app JS.utf8_decode]. pose proof (utf8_start_expects b) as S.
    destruct st as [s|].
    + destruct ((JS.lo s <=? b) && (b <=? JS.hi s)).
      * destruct (JS.need s) as [|[|n]]; cbn [Nat.pred];
          rewrite IH; try reflexivity; cbn; lia.
      * destruct (JS.utf8_start b) as [st' out]. cbn [fst] in S. now rewrite (IH _ S).
    + destruct (JS.utf8_start b) as [st' out]. cbn [fst] in S. now rewrite (IH _ S).
Qed.

Lemma toString_invalid pre post :
  JS.Buffer_toString_utf8 (pre ++ String (ascii_of_nat 255) post)
  = JS.Buffer_toString_utf8 (pre ++ String (ascii_of_nat 254) post).
Proof.
  unfold JS.Buffer_toString_utf8. rewrite !of_string_app. cbn [Bytes.of_string].
  change (Bytes.byte_of_ascii (ascii_of_nat 255)) with 0xFF.
  change (Bytes.byte_of_ascii (ascii_of_nat 254)) with 0xFE.
  now rewrite utf8_decode_invalid.
Qed.

Lemma append_inj_l (a b c : string) : a ++ b = a ++ c -> b = c.
Proof. induction a as [|x a IH]; [easy|]. rewrite !append_cons. intros [= E]. auto. Qed.

(** X9: the body counts through its text only: two buffers that decode to
    the same text are verified alike, and so are two bodies that differ in
    a byte [0xFF] against a byte [0xFE]. *)
Theorem body_is_verified_as_text now h secret tol :
  (forall b1 b2,
     JS.Buffer_toString_utf8 b1 = JS.Buffer_toString_utf8 b2 ->
     Utils.verifyWebhookSignature now h (Some b1) secret tol
     = Utils.verifyWebhookSignature now h (Some b2) secret tol)
  /\ (forall pre post,
        pre ++ String (ascii_of_nat 255) post <> pre ++ String (ascii_of_nat 254) post
        /\ Utils.verifyWebhookSignature now h
             (Some (pre ++ String (ascii_of_nat 255) post)) secret tol
           = Utils.verifyWebhookSignature now h
               (Some (pre ++ String (ascii_of_nat 254) post)) secret tol).
Proof.
  assert (forall b1 b2,
            JS.Buffer_toString_utf8 b1 = JS.Buffer_toString_utf8 b2 ->
            Utils.verifyWebhookSignature now h (Some b1) secret tol
            = Utils.verifyWebhookSignature now h (Some b2) secret tol) as A.
  { intros b1 b2 E. unfold Utils.verifyWebhookSignature, Utils.expectedSignature.
    now rewrite E. }
  split; [exact A|]. intros pre post. split.
  - intros E%append_inj_l. discriminate E.
  - apply A, toString_invalid.
Qed.

(** * More about [calculateDueDate] *)

Lemma iso_string_halves t :
  JSDate.iso_string t = iso_date t ++ "T" ++ iso_time t ++ "Z".
Proof.
  unfold JSDate.iso_string, iso_date, iso_time.
  now rewrite !append_assoc.
Qed.

Lemma iso_time_next_days t n : iso_time (t + n * JSDate.msPerDay) = iso_time t.
Proof.
  unfold iso_time, JSDate.HourFromTime, JSDate.MinFromTime, JSDate.SecFromTime,
    JSDate.msFromTime, JSDate.msPerDay.
  replace (((t + n * 86400000) / 3600000) mod 24) with ((t / 3600000) mod 24) by zdiv.
  replace (((t + n * 86400000) / 60000) mod 60) with ((t / 60000) mod 60) by zdiv.
  replace (((t + n * 86400000) / 1000) mod 60) with ((t / 1000) mod 60) by zdiv.
  replace ((t + n * 86400000) mod 1000) with (t mod 1000) by zdiv.
  reflexivity.
Qed.

(** X10: where the zone offset does not change, the due date is the date of
    the day [n] days after today (in UTC) followed by the present time of day. *)
Theorem due_date_keeps_the_time_of_day tz now p :
  clock_in_range tz now ->
  tz (JSDate.LocalTime tz now + offset_days p * JSDate.msPerDay) false = tz now true ->
  completion (Utils.calculateDueDate tz now p)
  = Normal (Some (iso_date (now + offset_days p * JSDate.msPerDay)
                  ++ "T" ++ iso_time now ++ "Z"))
  /\ JSDate.Day (now + offset_days p * JSDate.msPerDay) = JSDate.Day now + offset_days p
  /\ JSDate.iso_string now = iso_date now ++ "T" ++ iso_time now ++ "Z".
Proof.
  intros C Z. rewrite calculateDueDate_unfold.
  pose proof (due_instant_range tz now _ C (offset_days_range p)) as R.
  rewrite (TimeClip_in_range _ R), (due_instant_fixed_zone _ _ _ Z).
  split; [|split].
  - rewrite <- (iso_time_next_days now (offset_days p)), <- iso_string_halves.
    destruct (bool_decide _); reflexivity.
  - unfold JSDate.Day, JSDate.msPerDay. zdiv.
  - apply iso_string_halves.
Qed.

Lemma due_date_keeps_the_time_of_day_witness :
  completion (Utils.calculateDueDate (fun _ _ => 0) 1718452800000 (Some "MEDIUM"))
  = Normal (Some (iso_date (1718452800000 + offset_days (Some "MEDIUM") * JSDate.msPerDay)
                  ++ "T" ++ iso_time 1718452800000 ++ "Z")).
Proof.
  apply (due_date_keeps_the_time_of_day (fun _ _ => 0) 1718452800000 (Some "MEDIUM")).
  - test_clock.
  - reflexivity.
Defined.

(** X11: the due date is later than now, by fifteen days at most. *)
Theorem due_date_is_in_the_future tz now p :
  clock_in_range tz now ->
  (forall t t' b b', tz t b - tz t' b' < JSDate.msPerDay) ->
  exists due,
    completion (Utils.calculateDueDate tz now p) = Normal (Some (JSDate.iso_string due))
    /\ now < due < now + 15 * JSDate.msPerDay.
Proof.
  intros C D. rewrite calculateDueDate_unfold.
  pose proof (due_instant_range tz now _ C (offset_days_range p)) as R.
  rewrite (TimeClip_in_range _ R).
  exists (due_instant tz now (offset_days p)). split.
  - destruct (bool_decide _); reflexivity.
  - assert (1 <= offset_days p <= 14) as O.
    { unfold offset_days. repeat case_decide; lia. }
    unfold due_instant, JSDate.UTC, JSDate.LocalTime in *.
    pose proof (D (now + tz now true + offset_days p * JSDate.msPerDay) now false true).
    pose proof (D now (now + tz now true + offset_days p * JSDate.msPerDay) true false).
    unfold JSDate.msPerDay in *. lia.
Qed.

Lemma due_date_is_in_the_future_witness :
  exists due,
    completion (Utils.calculateDueDate eastern_time 1730563200000 (Some "HIGH"))
    = Normal (Some (JSDate.iso_string due))
    /\ 1730563200000 < due < 1730563200000 + 15 * JSDate.msPerDay.
Proof.
  apply (due_date_is_in_the_future eastern_time 1730563200000 (Some "HIGH")).
  - split.
    + intros t b. unfold eastern_time, JSDate.msPerDay. destruct (_ <? _); lia.
    + unfold JSDate.maxTime, JSDate.msPerDay. lia.
  - intros t t' b b'. unfold eastern_time, JSDate.msPerDay.
    destruct (_ <? _), (_ <? _); lia.
Defined.

(** * More about [processWebhookEvent] *)

(** X12: the headers of a request to the remote service: the bearer token,
    the content type, the organisation when one is configured, and no other. *)
Theorem request_headers env k :
  Handler.maintainxApiHeaders env !! k
  = if String.eqb k "Authorization"
    then Some ("Bearer " ++ tpl (env_MAINTAINX_API_KEY env))
    else if String.eqb k "Content-Type" then Some "application/json"
    else if String.eqb k "x-organization-id"
         then (if JS.truthy_opt (env_MAINTAINX_ORG_ID env)
               then env_MAINTAINX_ORG_ID env else None)
    else None.
Proof.
  unfold Handler.maintainxApiHeaders, Handler.MAINTAINX_ORG_ID, Handler.MAINTAINX_API_KEY.
  destruct (String.eqb_spec k "Authorization") as [->|N1].
  { destruct (JS.truthy_opt _); now simplify_map_eq. }
  destruct (String.eqb_spec k "Content-Type") as [->|N2].
  { destruct (JS.truthy_opt _); now simplify_map_eq. }
  destruct (String.eqb_spec k "x-organization-id") as [->|N3].
  { destruct (env_MAINTAINX_ORG_ID env) as [o|]; cbn [JS.truthy_opt].
    - destruct (JS.truthy o); now simplify_map_eq.
    - now simplify_map_eq. }
  destruct (JS.truthy_opt _); now simplify_map_eq.
Qed.

Lemma update_outcome_patches id s : List.filter is_patch (update_outcome id s) = [].
Proof.
  destruct s as [r|e]; [reflexivity|]. cbn [update_outcome].
  destruct (Handler.rate_limited e); reflexivity.
Qed.

Lemma update_outcome_fetch_patches id s :
  List.filter is_patch (update_outcome_fetch id s) = [].
Proof.
  destruct s as [r|e]; [reflexivity|]. cbn [update_outcome_fetch].
  destruct (Handler.rate_limited e); reflexivity.
Qed.

Lemma priority_warnings_patches p : List.filter is_patch (priority_warnings p) = [].
Proof. apply priority_warnings_filter. Qed.

(** The requests of the second half: one PATCH at most. *)
Lemma after_details_patches env world id r :
  (List.length (patches (after_details env world id r)) <= 1)%nat.
Proof.
  destruct r as [[wo|]|]; [|cbn; lia..].
  unfold after_details.
  destruct (priority wo) as [p|]; [|cbn; lia]. walk.
  destruct (JS.truthy p); [|cbn; lia]. walk.
  change (default EmptyString (Some p)) with p.
  destruct (calculateDueDate_events (LocalTZA world) (now world) (Some p)) as [c E].
  unfold Handler.calculateDueDate. rewrite E.
  pose proof (priority_warnings_patches (Some p)) as G.
  destruct c as [[d|]|e]; walk; unfold patches; cbn [events fst].
  - destruct (JS.truthy d); walk.
    + rewrite update_step_fetch. cbn [events fst]. rewrite List.filter_app, G. cbn.
      rewrite update_outcome_fetch_patches. cbn. lia.
    + rewrite List.filter_app, G. cbn. lia.
  - rewrite List.filter_app, G. cbn. lia.
  - rewrite G. cbn. lia.
Qed.

Lemma processWebhookEvent_patches env world payload :
  (List.length (patches (WebhookHandler.processWebhookEvent env world payload)) <= 1)%nat.
Proof.
  unfold WebhookHandler.processWebhookEvent.
  destruct (newWorkOrder payload) as [wo|]; [|cbn; lia].
  destruct (priority wo) as [p|]; [|cbn; lia]. walk.
  destruct (JS.truthy p); [|cbn; lia]. walk.
  change (default EmptyString (Some p)) with p.
  destruct (calculateDueDate_events (LocalTZA world) (now world) (Some p)) as [c E].
  unfold Handler.calculateDueDate. rewrite E.
  pose proof (priority_warnings_patches (Some p)) as G.
  destruct c as [[d|]|e]; walk; unfold patches; cbn [events fst].
  - destruct (JS.truthy d); walk.
    + rewrite update_step. cbn [events fst]. rewrite List.filter_app, G. cbn.
      rewrite update_outcome_patches. cbn. lia.
    + rewrite List.filter_app, G. cbn. lia.
  - rewrite List.filter_app, G. cbn. lia.
  - rewrite G. cbn. lia.
Qed.

Lemma processWebhookEvent_no_get env world payload :
  gets (WebhookHandler.processWebhookEvent env world payload) = [].
Proof.
  destruct (newWorkOrder payload) as [wo|] eqn:W.
  - now apply (processWebhookEvent_gets _ _ _ wo).
  - unfold WebhookHandler.processWebhookEvent. now rewrite W.
Qed.

(** The run of the variant that fetches, whatever the event. *)
Lemma processWebhookEvent_fetch_shape env world payload :
  exists pre r,
    WebhookHandlerFetch.resolve_details env world payload = (pre, Normal r)
    /\ List.filter is_patch pre = []
    /\ (List.length (List.filter is_get pre) <= 1)%nat.
Proof.
  destruct (newWorkOrder payload) as [wo|] eqn:W.
  - exists [], (Some (Some wo)). split; [now apply resolve_details_embedded|].
    split; [reflexivity|cbn; lia].
  - eexists _, _. split; [now apply resolve_details_fetched|].
    cbn [List.filter is_patch is_get]. rewrite fetch_outcome_patches, fetch_outcome_gets.
    split; [reflexivity|cbn; lia].
Qed.

(** X13: an event leads to one PATCH at most and, in the variant that
    fetches, to one GET at most; [src/webhookHandler.ts] never sends a GET.
    Nothing is sent a second time, whatever the remote service answers. *)
Theorem one_request_of_each_kind_at_most env world payload :
  (List.length (patches (WebhookHandler.processWebhookEvent env world payload)) <= 1)%nat
  /\ gets (WebhookHandler.processWebhookEvent env world payload) = []
  /\ (List.length (patches (WebhookHandlerFetch.processWebhookEvent env world payload)) <= 1)%nat
  /\ (List.length (gets (WebhookHandlerFetch.processWebhookEvent env world payload)) <= 1)%nat.
Proof.
  split; [apply processWebhookEvent_patches|].
  split; [apply processWebhookEvent_no_get|].
  destruct (processWebhookEvent_fetch_shape env world payload) as (pre & r & R & P & G).
  rewrite (processWebhookEvent_fetch_run _ _ _ _ _ R).
  unfold patches, gets. cbn [events fst List.filter is_patch is_get].
  rewrite !List.filter_app, P.
  pose proof (after_details_patches env world (workOrderId payload) r) as A.
  pose proof (after_details_gets env world (workOrderId payload) r) as B.
  unfold patches, gets in A, B. rewrite B, app_nil_r. cbn [app]. split; [exact A|exact G].
Qed.

(** X14: for a snapshot with a priority, embedded or fetched, and a work
    order id that a number holds exactly, the one PATCH goes to
    [{base}/workorders/{id}], the id in all its decimal digits, with the due
    date of the priority and the headers of the service, in both variants
    and whatever the answer; the base is the default one when none is
    configured. *)
Theorem the_update_request env world payload wo p :
  Z.abs (workOrderId payload) <= 2 ^ 53 ->
  priority wo = Some p -> JS.truthy p = true ->
  clock_in_range (LocalTZA world) (now world) ->
  (newWorkOrder payload = Some wo ->
   patches (WebhookHandler.processWebhookEvent env world payload)
   = [HttpPatch (Handler.workorder_url env (workOrderId payload)) (due_date world p)
        (Handler.maintainxApiHeaders env)]
   /\ patches (WebhookHandlerFetch.processWebhookEvent env world payload)
      = patches (WebhookHandler.processWebhookEvent env world payload))
  /\ (newWorkOrder payload = None ->
      forall r,
        axios_get world (Handler.workorder_url env (workOrderId payload))
          (Handler.maintainxApiHeaders env) = Resolved r ->
        data r = DObject (Some wo) ->
        patches (WebhookHandlerFetch.processWebhookEvent env world payload)
        = [HttpPatch (Handler.workorder_url env (workOrderId payload)) (due_date world p)
             (Handler.maintainxApiHeaders env)])
  /\ Handler.workorder_url env (workOrderId payload)
     = JS.or_else (env_MAINTAINX_BASE_URL env) "https://api.getmaintainx.com/v1"
       ++ "/workorders/" ++ JS.string_of_Z (workOrderId payload)
  /\ JSDate.is_iso8601_utc_ms (due_date world p) = true.
Proof.
  intros _ P T C.
  pose proof (priority_warnings_patches (Some p)) as G.
  assert (forall pre, List.filter is_patch pre = [] ->
            WebhookHandlerFetch.resolve_details env world payload
            = (pre, Normal (Some (Some wo))) ->
            patches (WebhookHandlerFetch.processWebhookEvent env world payload)
            = [HttpPatch (Handler.workorder_url env (workOrderId payload)) (due_date world p)
                 (Handler.maintainxApiHeaders env)]) as F.
  { intros pre E R. rewrite (processWebhookEvent_fetch_run _ _ _ _ _ R).
    rewrite (after_details_with_priority _ _ _ _ _ P T C).
    unfold patches. cbn [events fst List.filter is_patch].
    rewrite !List.filter_app, E, G. cbn [app List.filter is_patch].
    now rewrite update_outcome_fetch_patches. }
  split; [|split; [|split]].
  - intros W.
    assert (patches (WebhookHandler.processWebhookEvent env world payload)
            = [HttpPatch (Handler.workorder_url env (workOrderId payload)) (due_date world p)
                 (Handler.maintainxApiHeaders env)]) as V.
    { rewrite (processWebhookEvent_with_priority _ _ _ _ _ W P T C).
      unfold patches. cbn [events fst]. rewrite List.filter_app, G.
      cbn [app List.filter is_patch]. now rewrite update_outcome_patches. }
    split; [exact V|]. rewrite V.
    apply (F []); [reflexivity|now apply resolve_details_embedded].
  - intros W r A D. eapply F; [|rewrite (resolve_details_fetched _ _ _ W), A;
      unfold fetched_details; rewrite D; reflexivity].
    cbn [List.filter is_patch]. apply fetch_outcome_patches.
  - reflexivity.
  - apply iso_string_valid. apply (due_instant_range _ _ _ C (offset_days_range (Some p))).
Qed.

Lemma the_update_request_witness :
  patches
    (WebhookHandler.processWebhookEvent test_env
       (test_world (Rejected server_error) (Rejected rate_limit_error))
       (event (Some (snapshot (Some "HIGH")))))
  = [HttpPatch (Handler.workorder_url test_env 101)
       (due_date (test_world (Rejected server_error) (Rejected rate_limit_error)) "HIGH")
       (Handler.maintainxApiHeaders test_env)].
Proof.
  destruct (the_update_request test_env
              (test_world (Rejected server_error) (Rejected rate_limit_error))
              (event (Some (snapshot (Some "HIGH")))) (snapshot (Some "HIGH")) "HIGH")
    as (A & _); [vm_compute; discriminate|reflexivity|reflexivity|test_clock|].
  exact (proj1 (A eq_refl)).
Defined.

(** X15: an update that succeeds is logged in three lines, with the status
    and the two rate-limit headers of the response, each [N/A] when it is
    absent or empty, and with no warning or error of its own. *)
Theorem successful_update_is_logged env world payload wo p r :
  newWorkOrder payload = Some wo -> priority wo = Some p -> JS.truthy p = true ->
  clock_in_range (LocalTZA world) (now world) ->
  axios_patch world (Handler.workorder_url env (workOrderId payload)) (due_date world p)
    (Handler.maintainxApiHeaders env) = Resolved r ->
  console (WebhookHandler.processWebhookEvent env world payload)
  = (priority_warnings (Some p)
     ++ [Console LOG
           [AStr (Handler.due_date_message (workOrderId payload) p (due_date world p))];
         Console LOG
           [AStr ("[processWebhookEvent] Successfully updated Work Order "
                  ++ JS.string_of_Z (workOrderId payload) ++ ". Status: "
                  ++ JS.string_of_Z (status r))];
         Console LOG
           [AStr ("[processWebhookEvent] Rate Limit Remaining: "
                  ++ JS.or_else (headers r !! "x-rate-limit-remaining") "N/A")];
         Console LOG
           [AStr ("[processWebhookEvent] Rate Limit Reset: "
                  ++ JS.or_else (headers r !! "x-rate-limit-reset") "N/A" ++ " seconds")]])%list
  /\ logs ERROR (WebhookHandler.processWebhookEvent env world payload) = []
  /\ logs WARN (WebhookHandler.processWebhookEvent env world payload)
     = priority_warnings (Some p)
  /\ (forall k, headers r !! k = None \/ headers r !! k = Some EmptyString ->
      JS.or_else (headers r !! k) "N/A" = "N/A")
  /\ (forall k v, headers r !! k = Some v -> v <> EmptyString ->
      JS.or_else (headers r !! k) "N/A" = v).
Proof.
  intros W P T C A.
  rewrite (processWebhookEvent_with_priority _ _ _ _ _ W P T C), A.
  destruct (priority_warnings_filter (Some p)) as (Gg & Gp & E & Wn).
  assert (List.filter (fun e => negb (is_request e)) (priority_warnings (Some p))
          = priority_warnings (Some p)) as Q.
  { unfold priority_warnings. destruct (bool_decide _); reflexivity. }
  unfold console, logs, update_outcome. cbn [events fst].
  rewrite !List.filter_app, Q, E, Wn. cbn. rewrite app_nil_r.
  split; [reflexivity|]. split; [reflexivity|]. split; [reflexivity|]. split.
  - intros k [-> | ->]; reflexivity.
  - intros k v -> N. unfold JS.or_else. now rewrite (proj2 (truthy_spec v) N).
Qed.

Lemma successful_update_is_logged_witness :
  logs ERROR
    (WebhookHandler.processWebhookEvent test_env
       (test_world (Rejected server_error) (Resolved ok_response))
       (event (Some (snapshot (Some "HIGH")))))
  = [].
Proof.
  destruct (successful_update_is_logged test_env
              (test_world (Rejected server_error) (Resolved ok_response))
              (event (Some (snapshot (Some "HIGH")))) (snapshot (Some "HIGH")) "HIGH"
              ok_response)
    as (_ & A & _); [reflexivity|reflexivity|reflexivity|test_clock|reflexivity|].
  exact A.
Defined.

(** X16: when the work order is fetched and the body of the answer has no
    [workOrder] member, the fetch is logged as a success, then the missing
    details as an error, and no PATCH is sent. *)
Theorem fetched_body_without_work_order env world payload r :
  newWorkOrder payload = None ->
  axios_get world (Handler.workorder_url env (workOrderId payload))
    (Handler.maintainxApiHeaders env) = Resolved r ->
  data r = DObject None \/ (exists s, data r = DText s) ->
  WebhookHandlerFetch.processWebhookEvent env world payload
  = ([Console LOG [AStr (Handler.received_message (workOrderId payload)); AJson payload];
      Console LOG [AStr (Handler.fetching_message (workOrderId payload))];
      HttpGet (Handler.workorder_url env (workOrderId payload))
        (Handler.maintainxApiHeaders env);
      Console LOG [AStr (Handler.fetched_message (workOrderId payload))];
      Console ERROR [AStr (Handler.no_details_message (workOrderId payload))]],
     Normal tt).
Proof.
  intros W G D.
  rewrite (processWebhookEvent_fetch_run _ _ _ _ _ (resolve_details_fetched _ _ _ W)), G.
  unfold fetch_outcome, fetched_details.
  destruct D as [-> | [s ->]]; reflexivity.
Qed.

Lemma fetched_body_without_work_order_witness :
  WebhookHandlerFetch.processWebhookEvent test_env
    (test_world (Resolved ok_response) (Resolved ok_response)) (event None)
  = ([Console LOG [AStr (Handler.received_message 101); AJson (event None)];
      Console LOG [AStr (Handler.fetching_message 101)];
      HttpGet (Handler.workorder_url test_env 101) (Handler.maintainxApiHeaders test_env);
      Console LOG [AStr (Handler.fetched_message 101)];
      Console ERROR [AStr (Handler.no_details_message 101)]],
     Normal tt).
Proof.
  apply (fetched_body_without_work_order test_env
           (test_world (Resolved ok_response) (Resolved ok_response)) (event None)
           ok_response).
  - reflexivity.
  - reflexivity.
  - right. now exists EmptyString.
Defined.

(** The debug line comes before the PATCH of the second half. *)
Lemma after_details_debug_line env world id r :
  patches (after_details env world id r) <> [] ->
  In (api_key_debug_line env) (events (after_details env world id r)).
Proof.
  destruct r as [[wo|]|]; [|intros H; now destruct H..].
  unfold after_details.
  destruct (priority wo) as [p|]; [|intros H; now destruct H]. walk.
  destruct (JS.truthy p); [|intros H; now destruct H]. walk.
  change (default EmptyString (Some p)) with p.
  destruct (calculateDueDate_events (LocalTZA world) (now world) (Some p)) as [c E].
  unfold Handler.calculateDueDate. rewrite E.
  pose proof (priority_warnings_patches (Some p)) as G.
  destruct c as [[d|]|e]; walk; unfold patches; cbn [events fst].
  - destruct (JS.truthy d); walk.
    + intros _. rewrite update_step_fetch. cbn [events fst].
      apply in_or_app. right. right. right. now left.
    + rewrite List.filter_app, G. intros H. now destruct H.
  - rewrite List.filter_app, G. intros H. now destruct H.
  - rewrite G. intros H. now destruct H.
Qed.

(** X17: the variant that fetches writes the API key to the console before
    every PATCH it sends. *)
Theorem api_key_is_logged_before_an_update env world payload :
  patches (WebhookHandlerFetch.processWebhookEvent env world payload) <> [] ->
  In (Console LOG
        [AStr ("Full MAINTAINX_API_KEY (DEBUG):" ++ tpl (env_MAINTAINX_API_KEY env))])
     (console (WebhookHandlerFetch.processWebhookEvent env world payload)).
Proof.
  destruct (processWebhookEvent_fetch_shape env world payload) as (pre & r & R & P & G).
  rewrite (processWebhookEvent_fetch_run _ _ _ _ _ R). intros H.
  unfold console. apply filter_In. split; [|reflexivity]. cbn [events fst].
  right. apply in_or_app. right. apply after_details_debug_line.
  unfold patches in *. cbn [events fst List.filter is_patch] in H.
  now rewrite List.filter_app, P in H.
Qed.

Lemma api_key_is_logged_before_an_update_witness :
  In (Console LOG [AStr ("Full MAINTAINX_API_KEY (DEBUG):" ++ tpl (Some "test_api_key"))])
     (console
        (WebhookHandlerFetch.processWebhookEvent test_env
           (test_world (Rejected server_error) (Resolved ok_response))
           (event (Some (snapshot (Some "HIGH")))))).
Proof.
  apply (api_key_is_logged_before_an_update test_env
           (test_world (Rejected server_error) (Resolved ok_response))
           (event (Some (snapshot (Some "HIGH"))))).
  vm_compute. discriminate.
Defined.

(** X18: in [src/webhookHandler.ts] the console does not depend on the API
    key: with another key, and a remote service that answers alike, the same
    lines are written. *)
Theorem console_is_independent_of_the_api_key env world payload key :
  (forall url d,
     axios_patch world url d (Handler.maintainxApiHeaders (with_api_key env key))
     = axios_patch world url d (Handler.maintainxApiHeaders env)) ->
  console (WebhookHandler.processWebhookEvent (with_api_key env key) world payload)
  = console (WebhookHandler.processWebhookEvent env world payload).
Proof.
  intros A. unfold WebhookHandler.processWebhookEvent.
  destruct (newWorkOrder payload) as [wo|]; [|reflexivity].
  destruct (priority wo) as [p|]; [|reflexivity]. walk.
  destruct (JS.truthy p); [|reflexivity]. walk.
  change (default EmptyString (Some p)) with p.
  destruct (Handler.calculateDueDate world (Some p)) as [l [[d|]|e]]; walk;
    [|reflexivity..].
  destruct (JS.truthy d); walk; [|reflexivity].
  rewrite !update_step. unfold console. cbn [events fst].
  rewrite !List.filter_app. cbn [List.filter is_request is_get is_patch orb negb].
  change (Handler.workorder_url (with_api_key env key)) with (Handler.workorder_url env).
  now rewrite A.
Qed.

Lemma console_is_independent_of_the_api_key_witness :
  console
    (WebhookHandler.processWebhookEvent (with_api_key test_env (Some "another_key"))
       (test_world (Rejected server_error) (Resolved ok_response))
       (event (Some (snapshot (Some "HIGH")))))
  = console
      (WebhookHandler.processWebhookEvent test_env
         (test_world (Rejected server_error) (Resolved ok_response))
         (event (Some (snapshot (Some "HIGH"))))).
Proof.
  apply (console_is_independent_of_the_api_key test_env
           (test_world (Rejected server_error) (Resolved ok_response))
           (event (Some (snapshot (Some "HIGH")))) (Some "another_key")).
  reflexivity.
Defined.

(** * The route of [index.ts] *)

Lemma verify_events_are_errors now h b secret tol :
  Forall (fun e => is_console ERROR e = true)
    (events (Utils.verifyWebhookSignature now h b secret tol)).
Proof.
  unfold Utils.verifyWebhookSignature.
  destruct (JS.truthy_opt h); cbn [negb]; [|repeat constructor].
  destruct b as [body|]; [|repeat constructor].
  destruct (Utils.parse_header _) as [ts sig].
  destruct (negb (JS.truthy_opt ts) || negb (JS.truthy_opt sig)); [repeat constructor|].
  unfold timingSafeEqual.
  generalize (Utils.expectedSignature secret (default EmptyString ts) body). intros expected.
  destruct (Nat.eqb _ _); [|constructor].
  generalize (String.eqb (JS.Buffer_from (default EmptyString sig)) (JS.Buffer_from expected)).
  intros valid.
  generalize ((fun t => t * 1000) <$> JS.parseInt (default EmptyString ts)). intros received.
  destruct (Utils.isFresh now received (default 5 tol)); destruct valid; walk;
    try (destruct (received ≫= JSDate.TimeClip); cbn);
    try (destruct (JSDate.TimeClip now); cbn);
    repeat constructor.
Qed.

Lemma remote_calls_of_errors l :
  Forall (fun e => is_console ERROR e = true) l ->
  List.filter is_remote_call (map Did l) = [] /\ List.filter is_response (map Did l) = [].
Proof.
  induction 1 as [|e l E F [IH1 IH2]]; [split; reflexivity|].
  cbn [map List.filter is_remote_call is_response]. rewrite IH1, IH2.
  destruct e; try discriminate E. split; reflexivity.
Qed.

(** X19: the route answers once, or not at all when the verification throws:
    200 exactly when the signature is verified, and then before anything is
    processed; 401 when it is refused, and then the event is not processed
    and nothing is asked of the remote service.  With the placeholder of
    [src/utils.ts] every request is refused in that way. *)
Theorem the_route_is_a_gate now process secret req :
  let verified :=
    Utils.verifyWebhookSignature now (req_signature req) (req_rawBody req) secret None in
  let run := Index.webhook_route (Utils.verifyWebhookSignature now) process secret req in
  (completion verified = Normal true ->
   run = (Respond 200 "Webhook received, processing asynchronously."
          :: Index.detached (process (req_body req)),
          Normal tt))
  /\ (completion verified = Normal false ->
      run = ((map Did (events verified) ++ [Did denied_error; Respond 401 "Unauthorized"])%list,
             Normal tt)
      /\ List.filter is_remote_call (fst run) = []
      /\ List.filter is_response (fst run) = [Respond 401 "Unauthorized"])
  /\ (forall e, completion verified = Throw e ->
      run = (map Did (events verified), Throw e)
      /\ List.filter is_remote_call (fst run) = []
      /\ List.filter is_response (fst run) = [])
  /\ Index.webhook_route UtilsPlaceholder.verifyWebhookSignature process secret req
     = ([Did denied_error; Respond 401 "Unauthorized"], Normal tt).
Proof.
  intros verified run.
  pose proof (verify_events_are_errors now (req_signature req) (req_rawBody req) secret None)
    as E.
  apply remote_calls_of_errors in E as [E1 E2]. fold verified in E1, E2.
  split; [|split; [|split; [|reflexivity]]].
  - intros V.
    destruct (verify_true_inv _ _ _ _ _ V) as (hd & body & ts & H & B & P & T & F).
    subst run verified. unfold Index.webhook_route.
    rewrite H, B.
    rewrite (verify_unfold _ _ _ _ _ _ _ P T (expectedSignature_nonempty _ _ _)).
    now rewrite (verify_parsed_accepts _ _ _ _ _ F).
  - intros V. subst run. unfold Index.webhook_route. fold verified.
    destruct verified as [l c]. cbn [completion snd events fst] in *. subst c.
    split; [reflexivity|]. cbn [fst].
    rewrite !List.filter_app, E1, E2. split; reflexivity.
  - intros e V. subst run. unfold Index.webhook_route. fold verified.
    destruct verified as [l c]. cbn [completion snd events fst] in *. subst c.
    split; [reflexivity|]. cbn [fst]. now rewrite E1, E2.
Qed.

(** X20: with the handlers of the repository a verified event leaves no
    rejection unhandled: after the 200 come the effects of the handler and
    nothing else. *)
Theorem verified_events_are_processed env world secret req :
  clock_in_range (LocalTZA world) (now world) ->
  completion
    (Utils.verifyWebhookSignature (now world) (req_signature req) (req_rawBody req)
       secret None)
  = Normal true ->
  Index.webhook_route (Utils.verifyWebhookSignature (now world))
    (WebhookHandler.processWebhookEvent env world) secret req
  = (Respond 200 "Webhook received, processing asynchronously."
     :: map Did (events (WebhookHandler.processWebhookEvent env world (req_body req))),
     Normal tt)
  /\ Index.webhook_route (Utils.verifyWebhookSignature (now world))
       (WebhookHandlerFetch.processWebhookEvent env world) secret req
     = (Respond 200 "Webhook received, processing asynchronously."
        :: map Did (events (WebhookHandlerFetch.processWebhookEvent env world (req_body req))),
        Normal tt).
Proof.
  intros C V.
  destruct (verify_true_inv _ _ _ _ _ V) as (hd & body & ts & H & B & P & T & F).
  assert (forall process,
            completion (process (req_body req)) = Normal tt ->
            Index.webhook_route (Utils.verifyWebhookSignature (now world)) process secret req
            = (Respond 200 "Webhook received, processing asynchronously."
               :: map Did (events (process (req_body req))),
               Normal tt)) as A.
  { intros process N. unfold Index.webhook_route. rewrite H, B.
    rewrite (verify_unfold _ _ _ _ _ _ _ P T (expectedSignature_nonempty _ _ _)).
    rewrite (verify_parsed_accepts _ _ _ _ _ F). cbn [map app].
    unfold Index.detached. now rewrite N, app_nil_r. }
  split; apply A.
  - destruct (newWorkOrder (req_body req)) as [wo|] eqn:W.
    + destruct (priority wo) as [p|] eqn:Pr.
      * destruct (JS.truthy p) eqn:Tp.
        -- now rewrite (processWebhookEvent_with_priority _ _ _ _ _ W Pr Tp C).
        -- unfold WebhookHandler.processWebhookEvent. rewrite W, Pr. walk. now rewrite Tp.
      * unfold WebhookHandler.processWebhookEvent. now rewrite W, Pr.
    + unfold WebhookHandler.processWebhookEvent. now rewrite W.
  - destruct (processWebhookEvent_fetch_shape env world (req_body req))
      as (pre & r & R & _).
    rewrite (processWebhookEvent_fetch_run _ _ _ _ _ R).
    now apply after_details_completes.
Qed.

Lemma verified_events_are_processed_witness :
  Index.webhook_route (Utils.verifyWebhookSignature 1718452800000)
    (WebhookHandler.processWebhookEvent test_env
       (test_world (Rejected server_error) (Rejected server_error)))
    "test_secret_123"
    {| req_signature :=
         Some (UtilsTest.signatureHeader "test_secret_123" 1718452800 "{key:value}");
       req_rawBody := Some "{key:value}";
       req_body := event (Some (snapshot None)) |}
  = ([Respond 200 "Webhook received, processing asynchronously.";
      Did (Console LOG [AStr (Handler.no_priority_message 101)])],
     Normal tt).
Proof.
  apply (verified_events_are_processed test_env
           (test_world (Rejected server_error) (Rejected server_error))
           "test_secret_123"
           {| req_signature :=
                Some (UtilsTest.signatureHeader "test_secret_123" 1718452800 "{key:value}");
              req_rawBody := Some "{key:value}";
              req_body := event (Some (snapshot None)) |}).
  - test_clock.
  - vm_compute. reflexivity.
Defined.

(** X21: a header whose digest has not the length of the expected one makes
    the route throw before anything is answered: neither 401 nor 200. *)
Theorem wrong_length_digest_gets_no_answer now process secret req hd body ts sig :
  req_signature req = Some hd -> req_rawBody req = Some body ->
  Utils.parse_header hd = (Some ts, Some sig) ->
  ts <> EmptyString -> sig <> EmptyString ->
  String.length sig <> 64%nat ->
  Index.webhook_route (Utils.verifyWebhookSignature now) process secret req
  = ([], Throw (NativeError "RangeError" "Input buffers must have the same byte length")).
Proof.
  intros H B P T S L. unfold Index.webhook_route. rewrite H, B.
  rewrite (verify_unfold _ _ _ _ _ _ _ P T S).
  unfold verify_parsed, timingSafeEqual, JS.Buffer_from.
  rewrite expectedSignature_length.
  destruct (Nat.eqb_spec (String.length sig) 64); [contradiction|reflexivity].
Qed.

Lemma wrong_length_digest_gets_no_answer_witness :
  Index.webhook_route (Utils.verifyWebhookSignature 1718452800000)
    (WebhookHandler.processWebhookEvent test_env
       (test_world (Resolved ok_response) (Resolved ok_response)))
    "test_secret_123"
    {| req_signature := Some "t=1718452800,v1=abc";
       req_rawBody := Some "{key:value}";
       req_body := event (Some (snapshot (Some "HIGH"))) |}
  = ([], Throw (NativeError "RangeError" "Input buffers must have the same byte length")).
Proof.
  apply (wrong_length_digest_gets_no_answer 1718452800000 _ "test_secret_123" _
           "t=1718452800,v1=abc" "{key:value}" "1718452800" "abc");
    reflexivity || discriminate.
Defined.

(** X22: the port is 3000 when [SERVICE_PORT] is unset or empty, and the
    number whose numeral [SERVICE_PORT] is or begins with otherwise. *)
Theorem port_of_the_service :
  Index.PORT None = Some 3000 /\ Index.PORT (Some EmptyString) = Some 3000
  /\ (forall n rest,
        Z.abs n <= 2 ^ 53 ->
        match rest with String c _ => JS.is_digit c = false | EmptyString => True end ->
        Index.PORT (Some (JS.string_of_Z n ++ rest)) = Some n).
Proof.
  split; [reflexivity|]. split; [reflexivity|]. intros n rest N R.
  unfold Index.PORT, JS.or_else.
  assert (JS.truthy (JS.string_of_Z n ++ rest) = true) as ->.
  { apply truthy_spec. destruct (string_of_Z_plain n) as (_ & _ & E).
    destruct (JS.string_of_Z n); [congruence|discriminate]. }
  now apply parseInt_string_of_Z.
Qed.

(** ** From the request to the update *)

Lemma remote_calls_of_effects l :
  List.filter is_remote_call (map Did l) = map Did (List.filter is_request l)
  /\ List.filter is_response (map Did l) = [].
Proof.
  induction l as [|e l [IH1 IH2]]; [split; reflexivity|].
  cbn [map List.filter is_remote_call is_response]. rewrite IH1, IH2.
  destruct (is_request e); split; reflexivity.
Qed.

Lemma update_outcome_requests id s : List.filter is_request (update_outcome id s) = [].
Proof.
  destruct s as [r|e]; [reflexivity|]. cbn [update_outcome].
  destruct (Handler.rate_limited e); reflexivity.
Qed.

Lemma priority_warnings_requests p : List.filter is_request (priority_warnings p) = [].
Proof. unfold priority_warnings. destruct (bool_decide _); reflexivity. Qed.

(** X23: from the request to the update, with [src/webhookHandler.ts]: an
    event signed as the tests sign it, whose parsed body carries a snapshot
    with a priority, is answered 200 and leads to the one PATCH with the due
    date of the priority while it is not five minutes old; from then on it
    is answered 401 and nothing is sent. *)
Theorem signed_event_end_to_end env world secret t payload parsed wo p :
  JS.Buffer_toString_utf8 (JS.Buffer_from payload) = payload ->
  - JSDate.maxTime <= t * 1000 <= JSDate.maxTime ->
  clock_in_range (LocalTZA world) (now world) ->
  newWorkOrder parsed = Some wo -> priority wo = Some p -> JS.truthy p = true ->
  let req :=
    {| req_signature := Some (UtilsTest.signatureHeader secret t payload);
       req_rawBody := Some (JS.Buffer_from payload);
       req_body := parsed |} in
  let run :=
    Index.webhook_route (Utils.verifyWebhookSignature (now world))
      (WebhookHandler.processWebhookEvent env world) secret req in
  (now world - t * 1000 < 5 * 60 * 1000 ->
   List.filter is_response (fst run)
   = [Respond 200 "Webhook received, processing asynchronously."]
   /\ List.filter is_remote_call (fst run)
      = [Did (HttpPatch (Handler.workorder_url env (workOrderId parsed)) (due_date world p)
                (Handler.maintainxApiHeaders env))]
   /\ snd run = Normal tt)
  /\ (5 * 60 * 1000 <= now world - t * 1000 ->
      run = ([Did (stale_timestamp_error (t * 1000) (now world)); Did denied_error;
              Respond 401 "Unauthorized"],
             Normal tt)).
Proof.
  intros U Rt C W P T req run.
  assert (- JSDate.maxTime <= now world <= JSDate.maxTime) as Rn.
  { destruct C as [_ C]. unfold JSDate.msPerDay, JSDate.maxTime in *. lia. }
  pose proof (parse_signatureHeader secret t payload) as H.
  destruct (string_of_Z_plain t) as (_ & _ & N).
  assert (Bytes.hex (SHA256.hmac_sha256 (Bytes.of_string secret)
                       (Bytes.of_string (JS.string_of_Z t ++ "." ++ payload)))
          = Utils.expectedSignature secret (JS.string_of_Z t) (JS.Buffer_from payload)) as E.
  { unfold Utils.expectedSignature. now rewrite U. }
  rewrite E in H.
  pose proof (parseInt_string_of_Z t EmptyString I) as Q. rewrite append_empty_r in Q.
  subst run req. unfold Index.webhook_route. cbn [req_signature req_rawBody req_body].
  rewrite (verify_unfold _ _ _ _ _ _ _ H N (expectedSignature_nonempty _ _ _)).
  change (default 5 None) with 5.
  split.
  - intros F.
    rewrite verify_parsed_accepts by (rewrite Q; now apply isFresh_spec).
    cbn [map app fst snd]. unfold Index.detached.
    rewrite (processWebhookEvent_with_priority _ _ _ _ _ W P T C).
    cbn [events completion fst snd]. rewrite app_nil_r.
    cbn [List.filter is_response is_remote_call].
    destruct (remote_calls_of_effects
                (priority_warnings (Some p)
                 ++ Console LOG
                      [AStr (Handler.due_date_message (workOrderId parsed) p (due_date world p))]
                 :: HttpPatch (Handler.workorder_url env (workOrderId parsed))
                      (due_date world p) (Handler.maintainxApiHeaders env)
                 :: update_outcome (workOrderId parsed)
                      (axios_patch world (Handler.workorder_url env (workOrderId parsed))
                         (due_date world p) (Handler.maintainxApiHeaders env))))
      as [-> ->].
    rewrite List.filter_app, priority_warnings_requests.
    cbn [app List.filter is_request is_get is_patch orb].
    rewrite update_outcome_requests. repeat split.
  - intros S. now rewrite (verify_parsed_stale _ _ _ _ _ _ Q S Rt Rn).
Qed.

Lemma signed_event_end_to_end_witness :
  List.filter is_remote_call
    (fst (Index.webhook_route (Utils.verifyWebhookSignature 1718452800000)
            (WebhookHandler.processWebhookEvent test_env
               (test_world (Rejected server_error) (Resolved ok_response)))
            "test_secret_123"
            {| req_signature :=
                 Some (UtilsTest.signatureHeader "test_secret_123" 1718452680 "{key:value}");
               req_rawBody := Some (JS.Buffer_from "{key:value}");
               req_body := event (Some (snapshot (Some "HIGH"))) |}))
  = [Did (HttpPatch (Handler.workorder_url test_env 101)
            (due_date (test_world (Rejected server_error) (Resolved ok_response)) "HIGH")
            (Handler.maintainxApiHeaders test_env))].
Proof.
  destruct (signed_event_end_to_end test_env
              (test_world (Rejected server_error) (Resolved ok_response))
              "test_secret_123" 1718452680 "{key:value}"
              (event (Some (snapshot (Some "HIGH")))) (snapshot (Some "HIGH")) "HIGH")
    as (A & _).
  - reflexivity.
  - unfold JSDate.maxTime. lia.
  - test_clock.
  - reflexivity.
  - reflexivity.
  - reflexivity.
  - destruct A as (_ & A & _); [cbn [now test_world]; lia|]. exact A.
Defined.

(** * The examples of the specification and of the test suite *)

Example sha256_constants :
  List.length SHA256.primes = 64%nat /\ nth 63 SHA256.primes 0 = 311
  /\ nth 0 SHA256.K 0 = 0x428a2f98 /\ nth 63 SHA256.K 0 = 0xc67178f2
  /\ SHA256.sa SHA256.H0 = 0x6a09e667 /\ SHA256.sh SHA256.H0 = 0x5be0cd19.
Proof. vm_compute. repeat split. Qed.

Example sha256_abc :
  Bytes.hex (SHA256.sha256 (Bytes.of_string "abc"))
  = "ba7816bf8f01cfea414140de5dae2223b00361a396177a9cb410ff61f20015ad".
Proof. vm_compute. reflexivity. Qed.

Example sha256_empty :
  Bytes.hex (SHA256.sha256 [])
  = "e3b0c44298fc1c149afbf4c8996fb92427ae41e4649b934ca495991b7852b855".
Proof. vm_compute. reflexivity. Qed.

Example sha256_two_blocks :
  Bytes.hex (SHA256.sha256
               (Bytes.of_string "abcdbcdecdefdefgefghfghighijhijkijkljklmklmnlmnomnopnopq"))
  = "248d6a61d20638b8e5c026930c3e6039a33ce45964ff2167f6ecedd419db06c1".
Proof. vm_compute. reflexivity. Qed.

Example hmac_sha256_fox :
  Bytes.hex (SHA256.hmac_sha256 (Bytes.of_string "key")
               (Bytes.of_string "The quick brown fox jumps over the lazy dog"))
  = "f7bc83f430538424b13298e6aa6fb143ef4d59a14946175997479dbc2d1a3cd8".
Proof. vm_compute. reflexivity. Qed.

Example hmac_sha256_long_key :
  Bytes.hex (SHA256.hmac_sha256 (repeat 0xaa 131)
               (Bytes.of_string "Test Using Larger Than Block-Size Key - Hash Key First"))
  = "60e431591ee0b67f0d8a26aacbf5b77f8e0bc6213728c5140546040f0ee37f54".
Proof. vm_compute. reflexivity. Qed.

Example split_examples :
  JS.split "," "a,b,,c" = ["a"; "b"; ""; "c"] /\ JS.split "," "" = [""]
  /\ JS.split "=" "t=1=2" = ["t"; "1"; "2"].
Proof. repeat split. Qed.

Example parseInt_examples :
  JS.parseInt "1718452800" = Some 1718452800 /\ JS.parseInt "  -12ab" = Some (-12)
  /\ JS.parseInt "soon" = None /\ JS.parseInt "" = None /\ JS.parseInt "+7" = Some 7.
Proof. repeat split. Qed.

Example string_of_Z_examples :
  map JS.string_of_Z [0; 7; 10; 101; -45; 1000] = ["0"; "7"; "10"; "101"; "-45"; "1000"].
Proof. reflexivity. Qed.

Example toString_utf8_examples :
  JS.Buffer_toString_utf8 "{key:value}" = "{key:value}"
  /\ Bytes.of_string
       (JS.Buffer_toString_utf8
          (JS.string_of_bytes [0x61; 0xFF; 0xE2; 0x82; 0xAC; 0xE2; 0x82; 0x62; 0xC3]))
     = [0x61; 0xEF; 0xBF; 0xBD; 0xE2; 0x82; 0xAC; 0xEF; 0xBF; 0xBD; 0x62; 0xEF; 0xBF; 0xBD].
Proof. split; reflexivity. Qed.

Example iso_string_examples :
  map JSDate.iso_string
    [0; -1; 951782400000; 1709251199999; 1718452800000; 253402300799999;
     253402300800000; -62167219200001; 8640000000000000; -8640000000000000]
  = ["1970-01-01T00:00:00.000Z"; "1969-12-31T23:59:59.999Z"; "2000-02-29T00:00:00.000Z";
     "2024-02-29T23:59:59.999Z"; "2024-06-15T12:00:00.000Z"; "9999-12-31T23:59:59.999Z";
     "+010000-01-01T00:00:00.000Z"; "-000001-12-31T23:59:59.999Z";
     "+275760-09-13T00:00:00.000Z"; "-271821-04-20T00:00:00.000Z"].
Proof. vm_compute. reflexivity. Qed.

(** The dates of the test suite, from 2024-06-15T12:00:00.000Z. *)
Example calculateDueDate_examples :
  map (Utils.calculateDueDate (fun _ _ => 0) 1718452800000)
    [Some "HIGH"; Some "MEDIUM"; Some "LOW"; Some "NONE"]
  = [([], Normal (Some "2024-06-16T12:00:00.000Z"));
     ([], Normal (Some "2024-06-18T12:00:00.000Z"));
     ([], Normal (Some "2024-06-22T12:00:00.000Z"));
     ([], Normal (Some "2024-06-29T12:00:00.000Z"))]
  /\ completion (Utils.calculateDueDate (fun _ _ => 0) 1718452800000 (Some "UNKNOWN"))
     = Normal (Some "2024-06-22T12:00:00.000Z")
  /\ completion (Utils.calculateDueDate (fun _ _ => 0) 1718452800000 None)
     = Normal (Some "2024-06-22T12:00:00.000Z").
Proof. vm_compute. repeat split. Qed.

(** A time stamp of two minutes ago is accepted, one of ten minutes ago is
    logged and refused, a digest altered in one character is logged and
    refused, a missing header or body is refused. *)
Example verifyWebhookSignature_examples :
  Utils.verifyWebhookSignature 1718452920000
    (Some "t=1718452800,v1=2f44af8135a8ba84acf3d482f707159a0a8e1e4234c0cd7f72241d05969e52d8")
    (Some "{key:value}") "test_secret_123" (Some 5)
  = ([], Normal true)
  /\ Utils.verifyWebhookSignature 1718453400000
       (Some "t=1718452800,v1=2f44af8135a8ba84acf3d482f707159a0a8e1e4234c0cd7f72241d05969e52d8")
       (Some "{key:value}") "test_secret_123" (Some 5)
     = ([Console ERROR
           [AStr "[verifyWebhookSignature] Webhook timestamp too old. Received: 2024-06-15T12:00:00.000Z, Now: 2024-06-15T12:10:00.000Z"]],
        Normal false)
  /\ Utils.verifyWebhookSignature 1718452920000
       (Some "t=1718452800,v1=af44af8135a8ba84acf3d482f707159a0a8e1e4234c0cd7f72241d05969e52d8")
       (Some "{key:value}") "test_secret_123" None
     = ([Console ERROR [AStr "[verifyWebhookSignature] Signature mismatch."]], Normal false)
  /\ Utils.verifyWebhookSignature 1718452920000 None (Some "{key:value}")
       "test_secret_123" None
     = ([Console ERROR [AStr "[verifyWebhookSignature] Signature header is missing."]],
        Normal false)
  /\ Utils.verifyWebhookSignature 1718452920000
       (Some "t=1718452800,v1=2f44af8135a8ba84acf3d482f707159a0a8e1e4234c0cd7f72241d05969e52d8")
       None "test_secret_123" None
     = ([Console ERROR
           [AStr "[verifyWebhookSignature] Raw body is missing for verification."]],
        Normal false).
Proof. vm_compute. repeat split. Qed.

(** An event with the snapshot [{priority: "HIGH"}] for the work order 101
    leads to exactly one PATCH, with the due date of the next day. *)
Example processWebhookEvent_example :
  WebhookHandler.processWebhookEvent test_env
    (test_world (Rejected server_error) (Resolved ok_response))
    (event (Some (snapshot (Some "HIGH"))))
  = ([Console LOG
        [AStr "[processWebhookEvent] Calculated new due date for WO 101 (Priority: HIGH): 2024-06-16T12:00:00.000Z"];
      HttpPatch "https://api.testmaintainx.com/v1/workorders/101" "2024-06-16T12:00:00.000Z"
        {["Authorization" := "Bearer test_api_key"; "Content-Type" := "application/json";
          "x-organization-id" := "test_org_id"]};
      Console LOG
        [AStr "[processWebhookEvent] Successfully updated Work Order 101. Status: 200"];
      Console LOG [AStr "[processWebhookEvent] Rate Limit Remaining: 99"];
      Console LOG [AStr "[processWebhookEvent] Rate Limit Reset: 30 seconds"]],
     Normal tt).
Proof. vm_compute. reflexivity. Qed.

